(** * DataFilter: the filtering, query and join engine of insightstream-bi

    A shallow embedding of [src/processing/data_filter.py].

    The Python class [DataFilter] keeps three attributes ([original_df],
    [filtered_df], [filter_info]), reads the user's choices from Streamlit
    widgets and writes messages back to the page.  Here

    - the attributes are a record [DataFilter], threaded through a small
      state-and-exception monad [M] together with the trace of what was
      written to the page and which pandas evaluations were started;
    - the value every widget returns is an argument of the method that
      draws the widget;
    - a pandas DataFrame is a schema plus a list of rows of dynamically
      typed cells, float64 values are IEEE 754 binary64 ([spec_float]);
    - what Python and pandas themselves compute (number formatting, regular
      expressions, [pandas.merge], [DataFrame.query]) is the interface
      [Runtime]; the methods are generic in it. *)

From Stdlib Require Import List String Ascii Bool Arith ZArith Lia.
From Stdlib Require Import Floats.SpecFloat.
From Stdlib Require Import Numbers.DecimalString.
Import ListNotations.
Local Open Scope string_scope.
Local Open Scope list_scope.

(** String concatenation, as [+] on [str] and as the pieces of an f-string. *)
Infix "^^" := String.append (at level 60, right associativity).

(** ** Python strings *)

Module PyStr.

Definition squote : ascii := ascii_of_nat 39.
Definition dquote : ascii := ascii_of_nat 34.
Definition backslash : ascii := ascii_of_nat 92.
Definition backtick : ascii := ascii_of_nat 96.

Definition char (c : ascii) : string := String c EmptyString.

(** [bool(s)]: a string is truthy when it is not empty. *)
Definition truthy (s : string) : bool :=
  match s with EmptyString => false | String _ _ => true end.

(** [c.lower()] and [s.lower()] on ASCII letters. *)
Definition lower_char (c : ascii) : ascii :=
  let n := nat_of_ascii c in
  if ((65 <=? n) && (n <=? 90))%nat then ascii_of_nat (n + 32) else c.

Fixpoint lower (s : string) : string :=
  match s with
  | EmptyString => EmptyString
  | String c s' => String (lower_char c) (lower s')
  end.

(** [sub in s]. *)
Fixpoint contains (sub s : string) : bool :=
  prefix sub s ||
  match s with
  | EmptyString => false
  | String _ s' => contains sub s'
  end.

(** [s.replace(c, rep)] for a one-character [c]. *)
Fixpoint replace_char (c : ascii) (rep : string) (s : string) : string :=
  match s with
  | EmptyString => EmptyString
  | String a s' =>
      (if Ascii.eqb a c then rep else char a) ^^ replace_char c rep s'
  end.

(** [sep.join(parts)]. *)
Fixpoint join (sep : string) (parts : list string) : string :=
  match parts with
  | [] => EmptyString
  | [p] => p
  | p :: ps => p ^^ sep ^^ join sep ps
  end.

Definition is_space (c : ascii) : bool :=
  let n := nat_of_ascii c in
  (((9 <=? n) && (n <=? 13)) || ((28 <=? n) && (n <=? 32)))%nat.

(** [bool(s.strip())]: some character of [s] is not white space. *)
Fixpoint strip_truthy (s : string) : bool :=
  match s with
  | EmptyString => false
  | String c s' => negb (is_space c) || strip_truthy s'
  end.

(** [str(n)] for a non-negative [int]. *)
Definition of_nat (n : nat) : string := NilZero.string_of_uint (Nat.to_uint n).

(** [str(z)] for an [int]. *)
Definition of_Z (z : Z) : string := NilZero.string_of_int (Z.to_int z).

End PyStr.

(** ** Exceptions and results *)

Inductive exn_class :=
| UnboundLocalError | ZeroDivisionError | KeyError | TypeError | ValueError
| AttributeError | NameError | SyntaxError | ReError.

Record exn := Exn { exn_cls : exn_class; exn_msg : string }.

(** What running a piece of Python gives: a value, or a raised exception. *)
Inductive outcome (A : Type) :=
| Ret (a : A)
| Raise (e : exn).
Arguments Ret {A} a.
Arguments Raise {A} e.

Definition obind {A B} (o : outcome A) (k : A -> outcome B) : outcome B :=
  match o with
  | Ret a => k a
  | Raise e => Raise e
  end.

Fixpoint omap {A B} (f : A -> outcome B) (l : list A) : outcome (list B) :=
  match l with
  | [] => Ret []
  | x :: xs => obind (f x) (fun y => obind (omap f xs) (fun ys => Ret (y :: ys)))
  end.

(** ** Cells, columns and frames *)

(** binary64 *)
Definition float := spec_float.
Definition prec : Z := 53.
Definition emax : Z := 1024.

(** [float(z)] for an [int]: rounding to nearest, ties to even. *)
Definition float_of_Z (z : Z) : float := binary_normalize prec emax z 0 false.

Definition nan : float := S754_nan.

(** Python comparison operators on floats. *)
Definition fle (a b : float) : bool := SFleb a b.
Definition flt (a b : float) : bool := SFltb a b.
Definition fge (a b : float) : bool := SFleb b a.
Definition fgt (a b : float) : bool := SFltb b a.
Definition feq (a b : float) : bool := SFeqb a b.
Definition fne (a b : float) : bool := negb (SFeqb a b).

Definition is_nan (a : float) : bool :=
  match a with S754_nan => true | _ => false end.

(** The place of a float in the order of the comparison: first the class
    (negative infinity, negative, zero, positive, positive infinity), then
    the exponent, then the mantissa.  NaN has no place. *)
Definition rank (f : float) : option (Z * Z * Z) :=
  match f with
  | S754_nan => None
  | S754_infinity true => Some (-2, 0, 0)%Z
  | S754_infinity false => Some (2, 0, 0)%Z
  | S754_zero _ => Some (0, 0, 0)%Z
  | S754_finite true m e => Some (-1, - e, Z.neg m)%Z
  | S754_finite false m e => Some (1, e, Z.pos m)%Z
  end.

Definition lex (a b : Z * Z * Z) : comparison :=
  let '(a1, a2, a3) := a in
  let '(b1, b2, b3) := b in
  match (a1 ?= b1)%Z with
  | Eq => match (a2 ?= b2)%Z with
          | Eq => (a3 ?= b3)%Z
          | c => c
          end
  | c => c
  end.

Definition lex_le (a b : Z * Z * Z) : Prop :=
  let '(a1, a2, a3) := a in
  let '(b1, b2, b3) := b in
  (a1 < b1 \/ (a1 = b1 /\ (a2 < b2 \/ (a2 = b2 /\ a3 <= b3))))%Z.

Definition lex_lt (a b : Z * Z * Z) : Prop :=
  let '(a1, a2, a3) := a in
  let '(b1, b2, b3) := b in
  (a1 < b1 \/ (a1 = b1 /\ (a2 < b2 \/ (a2 = b2 /\ a3 < b3))))%Z.

Inductive dtype :=
| Int64 | Float64 | Int32 | Float32 | Bool | Object | Category | Datetime64.

(** [str(dtype)] *)
Definition dtype_str (d : dtype) : string :=
  match d with
  | Int64 => "int64" | Float64 => "float64"
  | Int32 => "int32" | Float32 => "float32"
  | Bool => "bool" | Object => "object" | Category => "category"
  | Datetime64 => "datetime64[ns]"
  end.

(** A value held in a frame.  [CNone] is [None]; [NaN] is [CFloat nan], in
    a float column and in an object or category column alike, so that the two
    stay apart; a missing timestamp ([NaT]) is [CDate None].  Timestamps are
    nanoseconds since the epoch. *)
Inductive cell :=
| CInt (z : Z)
| CFloat (f : float)
| CStr (s : string)
| CBool (b : bool)
| CDate (t : option Z)
| CNone.

Definition row := list cell.

Record DataFrame := mkDF {
  columns : list (string * dtype);
  rows : list row
}.

(** [df[col]]: the dtype and the values of a column. *)
Record Series := mkSeries {
  s_dtype : dtype;
  s_values : list cell
}.

Fixpoint col_index (col : string) (cols : list (string * dtype)) : option (nat * dtype) :=
  match cols with
  | [] => None
  | (c, d) :: cs =>
      if String.eqb c col then Some (0, d)
      else match col_index col cs with
           | Some (i, d') => Some (S i, d')
           | None => None
           end
  end.

Definition cell_at (i : nat) (r : row) : cell := nth i r CNone.

Definition getitem (df : DataFrame) (col : string) : outcome Series :=
  match col_index col (columns df) with
  | Some (i, d) => Ret (mkSeries d (map (cell_at i) (rows df)))
  | None => Raise (Exn KeyError col)
  end.

(** [len(df)] *)
Definition len (df : DataFrame) : nat := List.length (rows df).

(** [df.empty]: some axis has length 0. *)
Definition df_empty (df : DataFrame) : bool :=
  match columns df, rows df with
  | [], _ | _, [] => true
  | _, _ => false
  end.

(** [df.columns.tolist()] *)
Definition column_names (df : DataFrame) : list string := map fst (columns df).

(** [df[mask]] for a boolean mask aligned with the rows. *)
Fixpoint select (rs : list row) (mask : list bool) : list row :=
  match rs, mask with
  | r :: rs', b :: mask' => if b then r :: select rs' mask' else select rs' mask'
  | _, _ => []
  end.

Definition getitem_mask (df : DataFrame) (mask : list bool) : DataFrame :=
  mkDF (columns df) (select (rows df) mask).

(** [m1 & m2] *)
Fixpoint mask_and (m1 m2 : list bool) : list bool :=
  match m1, m2 with
  | a :: m1', b :: m2' => (a && b) :: mask_and m1' m2'
  | _, _ => []
  end.

(** ** Series operations *)

(** The number a cell stands for in an arithmetic comparison; Python raises
    [TypeError] when a string, a timestamp or [None] is compared with a
    float. *)
Definition cell_float (c : cell) : outcome float :=
  match c with
  | CInt z => Ret (float_of_Z z)
  | CFloat f => Ret f
  | CBool b => Ret (float_of_Z (if b then 1 else 0))
  | CStr _ | CDate _ | CNone =>
      Raise (Exn TypeError "comparison not supported between these types")
  end.

(** [s >= x] and [s <= x] for a float [x]: one boolean per row. *)
Definition ge_test (x : float) (c : cell) : outcome bool :=
  obind (cell_float c) (fun v => Ret (fge v x)).

Definition le_test (x : float) (c : cell) : outcome bool :=
  obind (cell_float c) (fun v => Ret (fle v x)).

Definition series_ge (s : Series) (x : float) : outcome (list bool) :=
  omap (ge_test x) (s_values s).

Definition series_le (s : Series) (x : float) : outcome (list bool) :=
  omap (le_test x) (s_values s).

(** [float(s.min())] and [float(s.max())]: missing values are skipped, an
    empty or all-missing column gives NaN. *)
Definition fmin_step (acc v : float) : float :=
  if is_nan v then acc else if is_nan acc then v
  else if flt v acc then v else acc.

Definition fmax_step (acc v : float) : float :=
  if is_nan v then acc else if is_nan acc then v
  else if flt acc v then v else acc.

Definition series_min (s : Series) : outcome float :=
  obind (omap cell_float (s_values s)) (fun vs => Ret (fold_left fmin_step vs nan)).

Definition series_max (s : Series) : outcome float :=
  obind (omap cell_float (s_values s)) (fun vs => Ret (fold_left fmax_step vs nan)).

(** Equality of cells as [unique] and [isin] see it: like values are one
    value; [None] is equal to [None], [NaN] to [NaN] and [NaT] to [NaT], and
    these three are different values. *)
Definition option_Z_eqb (a b : option Z) : bool :=
  match a, b with
  | Some x, Some y => Z.eqb x y
  | None, None => true
  | _, _ => false
  end.

Definition float_same (a b : float) : bool :=
  match a, b with
  | S754_nan, S754_nan => true
  | _, _ => feq a b
  end.

Definition cell_eqb (a b : cell) : bool :=
  match a, b with
  | CInt x, CInt y => Z.eqb x y
  | CFloat x, CFloat y => float_same x y
  | CStr x, CStr y => String.eqb x y
  | CBool x, CBool y => Bool.eqb x y
  | CDate x, CDate y => option_Z_eqb x y
  | CNone, CNone => true
  | _, _ => false
  end.

Definition cell_in (c : cell) (l : list cell) : bool := existsb (cell_eqb c) l.

(** [s.unique()]: the distinct values in order of first appearance. *)
Fixpoint unique_from (seen : list cell) (l : list cell) : list cell :=
  match l with
  | [] => []
  | c :: l' =>
      if cell_in c seen then unique_from seen l'
      else c :: unique_from (c :: seen) l'
  end.

Definition unique (s : Series) : list cell := unique_from [] (s_values s).

(** [s.isin(values)] *)
Definition isin (s : Series) (values : list cell) : list bool :=
  map (fun c => cell_in c values) (s_values s).

(** What [lib.infer_dtype(values, skipna=True)] goes by.  [None] and [NaN]
    are skipped.  The values are of one kind when one of them is of the
    kind and every other one is of the kind or skipped. *)
Definition is_skipped (c : cell) : bool :=
  match c with
  | CNone => true
  | CFloat f => is_nan f
  | _ => false
  end.

Definition is_number_value (c : cell) : bool :=
  match c with
  | CInt _ => true
  | CFloat f => negb (is_nan f)
  | _ => false
  end.

Definition is_bool_value (c : cell) : bool :=
  match c with CBool _ => true | _ => false end.

Definition is_datetime_value (c : cell) : bool :=
  match c with CDate _ => true | _ => false end.

Definition all_of_kind (kind : cell -> bool) (values : list cell) : bool :=
  existsb kind values && forallb (fun c => kind c || is_skipped c) values.

(** The inference answers integer, floating, mixed-integer-float, boolean or
    datetime, none of which the [.str] accessor takes. *)
Definition infers_other_than_text (values : list cell) : bool :=
  all_of_kind is_number_value values
  || all_of_kind is_bool_value values
  || all_of_kind is_datetime_value values.

(** [s.cat.categories]: the values of a category column that are not
    missing. *)
Definition categories (s : Series) : list cell :=
  filter (fun c => negb (is_skipped c || match c with CDate None => true | _ => false end))
         (s_values s).

Definition ns_per_day : Z := 86400000000000.

(** [ts.date()] as a day number. *)
Definition date_of (t : Z) : Z := Z.div t ns_per_day.

(** The least and the greatest timestamp of a datetime column, NaT being
    skipped; [None] is NaT, the answer of [min()] and [max()] for a column
    without a timestamp. *)
Definition opt_min (acc : option Z) (t : Z) : option Z :=
  match acc with
  | None => Some t
  | Some a => Some (Z.min a t)
  end.

Definition opt_max (acc : option Z) (t : Z) : option Z :=
  match acc with
  | None => Some t
  | Some a => Some (Z.max a t)
  end.

Definition cell_timestamp (c : cell) : outcome (option Z) :=
  match c with
  | CDate t => Ret t
  | _ => Raise (Exn AttributeError "Can only use .dt accessor with datetimelike values")
  end.

Definition fold_some (f : option Z -> Z -> option Z) (ts : list (option Z)) : option Z :=
  fold_left (fun acc t => match t with Some x => f acc x | None => acc end) ts None.

(** [ts.date()] of the timestamp [min()] or [max()] answered.  For NaT,
    the answer for a column without a timestamp, there is no date: the call
    ends in ValueError. *)
Definition timestamp_date (t : option Z) : outcome Z :=
  match t with
  | Some x => Ret (date_of x)
  | None => Raise (Exn ValueError "NaTType does not support date")
  end.

(** [s.min().date()] and [s.max().date()] *)
Definition series_min_date (s : Series) : outcome Z :=
  obind (omap cell_timestamp (s_values s))
        (fun ts => timestamp_date (fold_some opt_min ts)).

Definition series_max_date (s : Series) : outcome Z :=
  obind (omap cell_timestamp (s_values s))
        (fun ts => timestamp_date (fold_some opt_max ts)).

Definition is_nat (t : option Z) : bool :=
  match t with None => true | Some _ => false end.

(** [(s.dt.date >= start) & (s.dt.date <= end)].  [s.dt.date] is an object
    column of dates in which NaT compares false; but when the column has rows
    and holds nothing but NaT, pandas reads it back as datetime64, and the
    comparison of such a column with a date raises. *)
Definition series_date_between (s : Series) (start_date end_date : Z) : outcome (list bool) :=
  obind (omap cell_timestamp (s_values s)) (fun ts =>
    match ts with
    | _ :: _ =>
        if forallb is_nat ts
        then Raise (Exn TypeError
                        "Invalid comparison between dtype=datetime64[ns] and date")
        else Ret (map (fun t => match t with
                                | Some x => Z.leb start_date (date_of x)
                                            && Z.leb (date_of x) end_date
                                | None => false
                                end) ts)
    | [] => Ret []
    end).

(** ** What Python and pandas compute *)

Inductive how := Inner | Left | Right | Outer.

Class Runtime := {
  (** [str(x)] of a float, as an f-string prints it *)
  float_str : float -> string;
  (** [str(d)] of a [datetime.date] given as a day number *)
  date_str : Z -> string;
  (** [str(ts)] of a timestamp *)
  timestamp_str : Z -> string;
  (** [re.compile(pat, re.IGNORECASE)]; the function returned is
      [lambda x: regex.search(x) is not None] *)
  re_compile_ignorecase : string -> outcome (string -> bool);
  (** [pd.merge(left, right, left_on=, right_on=, how=,
      suffixes=('_left', '_right'))] *)
  pd_merge : DataFrame -> DataFrame -> string -> string -> how -> outcome DataFrame;
  (** [df.query(expr)] *)
  df_query : DataFrame -> string -> outcome DataFrame
}.

(** ** The session: attributes of [DataFilter], the page, the monad *)

(** The label chosen in the radio of [render_filter_ui]. *)
Inductive filter_type := SimpleFilters | QueryBuilder | JoinDatasets.

Record FilterInfo := mkInfo {
  active : bool;
  type_ : option filter_type;
  original_count : nat;
  filtered_count : nat;
  filters_applied : list string
}.

Record DataFilter := mkDataFilter {
  original_df : DataFrame;
  filtered_df : DataFrame;
  filter_info : FilterInfo
}.

(** [DataFilter.__init__] *)
Definition init (df : DataFrame) : DataFilter :=
  mkDataFilter df df (mkInfo false None (len df) (len df) []).

Inductive level := LError | LWarning | LInfo | LSuccess.

(** The messages of [st.error], [st.warning], [st.info] and [st.success],
    with the values their text is formatted from. *)
Inductive message :=
| NeedTwoDatasets                      (* Need at least 2 datasets to perform join *)
| CompatibleTypes (d : string)         (* Compatible types: d *)
| TypeMismatch (l r : string)          (* Type mismatch: l vs r *)
| ConversionFailed (e : exn)           (* Type conversion failed: e *)
| JoinFailed (e : exn)                 (* Join failed: e *)
| TryAutoFix                           (* Try: Enable 'Auto-fix types' option *)
| MinGreaterThanMax (lo hi : float)    (* Minimum (lo) cannot be greater than maximum (hi) *)
| FilterApplied (rows_after : nat)     (* Filter applied: n rows (p% filtered) *)
| NoData                               (* No data available for querying *)
| NoColumns                            (* No columns available for querying *)
| ColumnType (d : string)              (* Column type: d *)
| QueryApplied (n : nat)               (* Query applied: n rows returned *)
| QueryError (e : exn)                 (* Query error: e *)
| TryAdjusting                         (* Try adjusting your conditions or check data types *)
| Filtered (n : nat).                  (* Filtered: n rows (p% reduction) *)

Inductive event :=
| St (l : level) (m : message)          (* a message written to the page *)
| Query (df : DataFrame) (expr : string). (* an evaluation of [df.query(expr)] started *)

Record world := mkWorld {
  self : DataFilter;
  page : list event
}.

Definition M (A : Type) : Type := world -> outcome A * world.

Definition ret {A} (a : A) : M A := fun w => (Ret a, w).

Definition bind {A B} (c : M A) (k : A -> M B) : M B :=
  fun w => match c w with
           | (Ret a, w') => k a w'
           | (Raise e, w') => (Raise e, w')
           end.

Definition raise {A} (e : exn) : M A := fun w => (Raise e, w).

(** [try: body  except Exception as e: handler e] *)
Definition try_except {A} (body : M A) (handler : exn -> M A) : M A :=
  fun w => match body w with
           | (Ret a, w') => (Ret a, w')
           | (Raise e, w') => handler e w'
           end.

Definition lift {A} (o : outcome A) : M A := fun w => (o, w).

Definition get_original : M DataFrame := fun w => (Ret (original_df (self w)), w).

Definition set_original (df : DataFrame) : M unit :=
  fun w => (Ret tt, mkWorld (mkDataFilter df (filtered_df (self w)) (filter_info (self w))) (page w)).

Definition set_filtered (df : DataFrame) : M unit :=
  fun w => (Ret tt, mkWorld (mkDataFilter (original_df (self w)) df (filter_info (self w))) (page w)).

Definition set_filter_info (i : FilterInfo) : M unit :=
  fun w => (Ret tt, mkWorld (mkDataFilter (original_df (self w)) (filtered_df (self w)) i) (page w)).

Definition emit (ev : event) : M unit :=
  fun w => (Ret tt, mkWorld (self w) (page w ++ [ev])).

Definition st_error (m : message) : M unit := emit (St LError m).
Definition st_warning (m : message) : M unit := emit (St LWarning m).
Definition st_info (m : message) : M unit := emit (St LInfo m).
Definition st_success (m : message) : M unit := emit (St LSuccess m).

Declare Scope py_scope.
Delimit Scope py_scope with py.
Notation "x <- c ;; k" := (bind c (fun x => k))
  (at level 61, c at next level, right associativity) : py_scope.
Notation "c ;;; k" := (bind c (fun _ => k))
  (at level 61, right associativity) : py_scope.
Local Open Scope py_scope.

(** ** Widgets: what the user chose *)

Inductive filter_method := Slider | ManualInput | Both.

(** The widgets [_simple_filters] draws for one column.  The keys of the
    widgets carry the column name, so the choices are per column. *)
Record column_widgets := mkColumnWidgets {
  selected_values : list cell;      (* st.multiselect "Select values:" *)
  search_term : string;             (* st.text_input "Search in col:" *)
  method : filter_method;           (* st.radio "Filter method:" *)
  selected_range : float * float;   (* st.slider *)
  manual_min : float;               (* st.number_input "Minimum:" / "Exact minimum:" *)
  manual_max : float;               (* st.number_input "Maximum:" / "Exact maximum:" *)
  date_range : list Z               (* st.date_input "Date range:", as day numbers *)
}.

Record simple_widgets := mkSimpleWidgets {
  filter_columns : list string;     (* st.multiselect "Select columns to filter:" *)
  column_widget : string -> column_widgets
}.

(** The widgets of one condition of the query builder. *)
Record condition_widgets := mkCondition {
  q_column : string;                (* st.selectbox "Column:" *)
  q_operator : string;              (* st.selectbox "Operator:" *)
  q_number : float;                 (* st.number_input "Value:" *)
  q_text : string;                  (* st.text_input "Value:" *)
  q_logic : string                  (* st.selectbox "Logic:", drawn for all but the last *)
}.

Record query_widgets := mkQueryWidgets {
  conditions : list condition_widgets; (* as many as "Number of conditions:" *)
  apply_query : bool                   (* st.button "Apply Query" *)
}.

Record join_widgets := mkJoinWidgets {
  left_dataset : string;
  right_dataset : string;
  join_type : how;
  left_key : string;
  right_key : string;
  auto_fix : bool;                  (* st.checkbox "Auto-fix types" *)
  join_button : bool                (* st.button "Join Datasets" *)
}.

Record widgets := mkWidgets {
  radio : filter_type;
  simple : simple_widgets;
  query : query_widgets;
  join : join_widgets
}.

(** [st.session_state['datasets']]: a dict, in insertion order. *)
Definition pool := list (string * DataFrame).

Fixpoint pool_get (name : string) (p : pool) : outcome DataFrame :=
  match p with
  | [] => Raise (Exn KeyError name)
  | (n, df) :: p' => if String.eqb n name then Ret df else pool_get name p'
  end.

(** The result every operation hands back. *)
Definition result (D : Type) : Type := DataFrame * bool * D.

Definition string_in (s : string) (l : list string) : bool := existsb (String.eqb s) l.

(** ** The methods of [DataFilter] *)

Section Methods.
Context {RT : Runtime}.

(** [s.str]: the accessor is refused unless the column is of object or
    category dtype and [lib.infer_dtype(values, skipna=True)] answers string,
    empty, mixed or mixed-integer, the values being those of an object
    column and the categories of a category column.  With [None] and [NaN]
    skipped, that inference finds another type exactly when the values are
    all numbers, all booleans, or all timestamps (NaT among them). *)
Definition str_accessor (s : Series) : outcome unit :=
  let refused := Raise (Exn AttributeError
                            "Can only use .str accessor with string values!") in
  match s_dtype s with
  | Object => if infers_other_than_text (s_values s) then refused else Ret tt
  | Category => if infers_other_than_text (categories s) then refused else Ret tt
  | _ => refused
  end.

(** [s.str.contains(pat, case=False, na=False)]: the accessor first; then
    the pattern, a regular expression, is compiled once; an entry that is
    missing or not a string gives [False]. *)
Definition str_contains (s : Series) (pat : string) : outcome (list bool) :=
  obind (str_accessor s) (fun _ =>
    obind (re_compile_ignorecase pat) (fun search =>
      Ret (map (fun c => match c with CStr x => search x | _ => false end)
               (s_values s)))).

(** [_handle_categorical_filter] *)
Definition handle_categorical_filter (df : DataFrame) (col : string)
    (w : column_widgets) : M (result string) :=
  original <- get_original ;;
  s0 <- lift (getitem original col) ;;
  let unique_values := unique s0 in
  if (List.length unique_values <=? 50)%nat then
    if (List.length (selected_values w) <? List.length unique_values)%nat then
      s <- lift (getitem df col) ;;
      ret (getitem_mask df (isin s (selected_values w)), true,
           col ^^ ": " ^^ PyStr.of_nat (List.length (selected_values w)) ^^ "/"
               ^^ PyStr.of_nat (List.length unique_values) ^^ " values")
    else ret (df, false, EmptyString)
  else
    if PyStr.truthy (search_term w) then
      s <- lift (getitem df col) ;;
      mask <- lift (str_contains s (search_term w)) ;;
      ret (getitem_mask df mask, true,
           col ^^ ": contains '" ^^ search_term w ^^ "'")
    else ret (df, false, EmptyString).

(** The bounds the three input methods end with. *)
Definition final_bounds (w : column_widgets) : float * float :=
  match method w with
  | Slider => selected_range w
  | ManualInput => (manual_min w, manual_max w)
  | Both => (manual_min w, manual_max w)
  end.

(** [_handle_numeric_filter] *)
Definition handle_numeric_filter (df : DataFrame) (col : string)
    (w : column_widgets) : M (result string) :=
  original <- get_original ;;
  s0 <- lift (getitem original col) ;;
  min_val <- lift (series_min s0) ;;
  max_val <- lift (series_max s0) ;;
  let final_min := fst (final_bounds w) in
  let final_max := snd (final_bounds w) in
  if fgt final_min final_max then
    st_error (MinGreaterThanMax final_min final_max) ;;;
    ret (df, false, EmptyString)
  else if fne final_min min_val || fne final_max max_val then
    s <- lift (getitem df col) ;;
    ge <- lift (series_ge s final_min) ;;
    le <- lift (series_le s final_max) ;;
    let filtered := getitem_mask df (mask_and ge le) in
    st_success (FilterApplied (len filtered)) ;;;
    ret (filtered, true,
         col ^^ ": " ^^ float_str final_min ^^ " to " ^^ float_str final_max)
  else ret (df, false, EmptyString).

Definition date_ne (d m : Z) : bool := negb (Z.eqb d m).

(** [_handle_datetime_filter] *)
Definition handle_datetime_filter (df : DataFrame) (col : string)
    (w : column_widgets) : M (result string) :=
  original <- get_original ;;
  s0 <- lift (getitem original col) ;;
  min_date <- lift (series_min_date s0) ;;
  max_date <- lift (series_max_date s0) ;;
  match date_range w with
  | [start_date; end_date] =>
      if date_ne start_date min_date || date_ne end_date max_date then
        s <- lift (getitem df col) ;;
        mask <- lift (series_date_between s start_date end_date) ;;
        ret (getitem_mask df mask, true,
             col ^^ ": " ^^ date_str start_date ^^ " to " ^^ date_str end_date)
      else ret (df, false, EmptyString)
  | _ => ret (df, false, EmptyString)
  end.

(** The local variables of [_simple_filters] that live across the loop.
    [col_filtered] and [filter_detail] are bound by the first branch of the
    dispatch that runs; until then reading them is an error. *)
Record simple_locals := mkLocals {
  l_filtered_df : DataFrame;
  l_filters_applied : bool;
  l_applied_filter_details : list string;
  l_col_filtered : option bool;
  l_filter_detail : option string
}.

Definition read_local {A} (name : string) (v : option A) : M A :=
  match v with
  | Some a => ret a
  | None => raise (Exn UnboundLocalError
                       ("local variable '" ^^ name ^^ "' referenced before assignment"))
  end.

Definition bind_result (l : simple_locals) (r : result string) : simple_locals :=
  let '(df, col_filtered, filter_detail) := r in
  mkLocals df (l_filters_applied l) (l_applied_filter_details l)
           (Some col_filtered) (Some filter_detail).

(** The body of the loop of [_simple_filters] for one column. *)
Definition simple_filters_step (w : simple_widgets) (l : simple_locals)
    (col : string) : M simple_locals :=
  original <- get_original ;;
  s0 <- lift (getitem original col) ;;
  l1 <- match s_dtype s0 with
        | Object | Category =>
            r <- handle_categorical_filter (l_filtered_df l) col (column_widget w col) ;;
            ret (bind_result l r)
        | Int64 | Float64 =>
            r <- handle_numeric_filter (l_filtered_df l) col (column_widget w col) ;;
            ret (bind_result l r)
        | d =>
            if PyStr.contains "datetime" (dtype_str d) then
              r <- handle_datetime_filter (l_filtered_df l) col (column_widget w col) ;;
              ret (bind_result l r)
            else ret l
        end ;;
  col_filtered <- read_local "col_filtered" (l_col_filtered l1) ;;
  if (col_filtered : bool) then
    filter_detail <- read_local "filter_detail" (l_filter_detail l1) ;;
    ret (mkLocals (l_filtered_df l1) true
                  (l_applied_filter_details l1 ++ [filter_detail])
                  (l_col_filtered l1) (l_filter_detail l1))
  else ret l1.

Fixpoint simple_filters_loop (w : simple_widgets) (l : simple_locals)
    (cols : list string) : M simple_locals :=
  match cols with
  | [] => ret l
  | col :: cols' =>
      l' <- simple_filters_step w l col ;;
      simple_filters_loop w l' cols'
  end.

(** [_simple_filters] *)
Definition simple_filters (w : simple_widgets) : M (result (list string)) :=
  original <- get_original ;;
  match filter_columns w with
  | [] => ret (original, false, [])
  | _ =>
      l <- simple_filters_loop w (mkLocals original false [] None None)
                               (filter_columns w) ;;
      ret (l_filtered_df l, l_filters_applied l, l_applied_filter_details l)
  end.

(** [df[col] = df[col].astype(...)]: every value of the column converted,
    the column's dtype replaced. *)
Fixpoint set_nth {A} (i : nat) (x : A) (l : list A) : list A :=
  match i, l with
  | _, [] => []
  | O, _ :: l' => x :: l'
  | S i', y :: l' => y :: set_nth i' x l'
  end.

Definition set_dtype (i : nat) (d : dtype) (cols : list (string * dtype)) :=
  match nth_error cols i with
  | Some (c, _) => set_nth i (c, d) cols
  | None => cols
  end.

Definition astype_column (df : DataFrame) (col : string) (d : dtype)
    (conv : cell -> outcome cell) : outcome DataFrame :=
  obind (getitem df col) (fun _ =>
    match col_index col (columns df) with
    | Some (i, _) =>
        obind (omap (fun r => obind (conv (cell_at i r)) (fun c => Ret (set_nth i c r)))
                    (rows df))
              (fun rs => Ret (mkDF (set_dtype i d (columns df)) rs))
    | None => Raise (Exn KeyError col)
    end).

(** [x.astype(str)], element by element: [str(x)], which is 'nan' for NaN and
    'None' for [None]. *)
Definition cell_to_str (c : cell) : outcome cell :=
  Ret (CStr (match c with
             | CInt z => PyStr.of_Z z
             | CFloat f => if is_nan f then "nan" else float_str f
             | CStr s => s
             | CBool b => if b then "True" else "False"
             | CDate (Some t) => timestamp_str t
             | CDate None => "NaT"
             | CNone => "None"
             end)).

(** [x.astype(float)], element by element *)
Definition cell_to_float (c : cell) : outcome cell :=
  match c with
  | CInt z => Ret (CFloat (float_of_Z z))
  | CFloat f => Ret (CFloat f)
  | CBool b => Ret (CFloat (float_of_Z (if b then 1 else 0)))
  | CNone => Ret (CFloat nan)
  | CStr s => Raise (Exn ValueError ("could not convert string to float: '" ^^ s ^^ "'"))
  | CDate _ => Raise (Exn TypeError "cannot astype a datetimelike to float64")
  end.

(** The auto-fix block of [_join_datasets]: the inner [try] with its
    [except], on the two local copies [left_prep] and [right_prep]. *)
Definition auto_fix_types (left_prep right_prep : DataFrame)
    (left_key right_key left_dtype right_dtype : string)
    : M (DataFrame * DataFrame) :=
  if string_in "object" [left_dtype; right_dtype] then
    match astype_column left_prep left_key Object cell_to_str with
    | Raise conv_error => st_warning (ConversionFailed conv_error) ;;; ret (left_prep, right_prep)
    | Ret left_prep' =>
        match astype_column right_prep right_key Object cell_to_str with
        | Raise conv_error =>
            st_warning (ConversionFailed conv_error) ;;; ret (left_prep', right_prep)
        | Ret right_prep' => ret (left_prep', right_prep')
        end
    end
  else if PyStr.contains "int" left_dtype && PyStr.contains "float" right_dtype then
    match astype_column left_prep left_key Float64 cell_to_float with
    | Raise conv_error => st_warning (ConversionFailed conv_error) ;;; ret (left_prep, right_prep)
    | Ret left_prep' => ret (left_prep', right_prep)
    end
  else if PyStr.contains "float" left_dtype && PyStr.contains "int" right_dtype then
    match astype_column right_prep right_key Float64 cell_to_float with
    | Raise conv_error => st_warning (ConversionFailed conv_error) ;;; ret (left_prep, right_prep)
    | Ret right_prep' => ret (left_prep, right_prep')
    end
  else ret (left_prep, right_prep).

(** [len(joined_df) / max(len(left_df), len(right_df)) * 100]: only whether
    the division is defined matters to the control flow. *)
Definition efficiency (joined_df left_df right_df : DataFrame) : M unit :=
  if (Nat.max (len left_df) (len right_df) =? 0)%nat
  then raise (Exn ZeroDivisionError "division by zero")
  else ret tt.

(** [if auto_fix and not compatibility:] the auto-fix block; otherwise the
    two copies as they are. *)
Definition prepare_keys (w : join_widgets) (left_df right_df : DataFrame)
    (left_dtype right_dtype : string) (compatibility : bool)
    : M (DataFrame * DataFrame) :=
  if auto_fix w && negb compatibility
  then auto_fix_types left_df right_df (left_key w) (right_key w) left_dtype right_dtype
  else ret (left_df, right_df).

Definition join_description (w : join_widgets) : string :=
  "Joined " ^^ left_dataset w ^^ " + " ^^ right_dataset w ^^ " on "
    ^^ left_key w ^^ "/" ^^ right_key w.

(** The body of the [try] of [_join_datasets]: prepare the keys, merge,
    show the metrics, replace the original, return. *)
Definition join_attempt (w : join_widgets) (left_df right_df : DataFrame)
    (left_dtype right_dtype : string) (compatibility : bool)
    : M (result (list string)) :=
  prep <- prepare_keys w left_df right_df left_dtype right_dtype compatibility ;;
  joined_df <- lift (pd_merge (fst prep) (snd prep)
                              (left_key w) (right_key w) (join_type w)) ;;
  efficiency joined_df left_df right_df ;;;
  set_original joined_df ;;;
  ret (joined_df, true, [join_description w]).

(** The last line of [_join_datasets] and of [_query_builder]:
    [return self.original_df.copy(), False, []] *)
Definition return_original : M (result (list string)) :=
  original <- get_original ;; ret (original, false, []).

(** The [except] of [_join_datasets], which then falls to the last line. *)
Definition join_failed (e : exn) : M (result (list string)) :=
  st_error (JoinFailed e) ;;;
  (if PyStr.contains "dtype" (PyStr.lower (exn_msg e))
   then st_info TryAutoFix else ret tt) ;;;
  return_original.

(** [_join_datasets].  The search for the name of the current dataset only
    sets the default of the left selectbox; the datasets and keys chosen are
    in [w]. *)
Definition join_datasets (datasets : pool) (w : join_widgets)
    : M (result (list string)) :=
  let dataset_names := map fst datasets in
  if (List.length dataset_names <? 2)%nat then
    st_warning NeedTwoDatasets ;;;
    return_original
  else
  if PyStr.truthy (left_dataset w) && PyStr.truthy (right_dataset w) then
    left_df <- lift (pool_get (left_dataset w) datasets) ;;
    right_df <- lift (pool_get (right_dataset w) datasets) ;;
    if PyStr.truthy (left_key w) && PyStr.truthy (right_key w) then
      ls <- lift (getitem left_df (left_key w)) ;;
      rs <- lift (getitem right_df (right_key w)) ;;
      let left_dtype := dtype_str (s_dtype ls) in
      let right_dtype := dtype_str (s_dtype rs) in
      let compatibility := String.eqb left_dtype right_dtype in
      (if compatibility then st_success (CompatibleTypes left_dtype)
       else st_warning (TypeMismatch left_dtype right_dtype)) ;;;
      if join_button w then
        try_except
          (join_attempt w left_df right_df left_dtype right_dtype compatibility)
          join_failed
      else return_original
    else return_original
  else return_original.

(** [select_dtypes(include=[np.number])] and
    [select_dtypes(include=['object', 'category'])] *)
Definition is_number_dtype (d : dtype) : bool :=
  match d with Int64 | Float64 | Int32 | Float32 => true | _ => false end.

Definition is_categorical_dtype (d : dtype) : bool :=
  match d with Object | Category => true | _ => false end.

Definition select_dtypes (p : dtype -> bool) (df : DataFrame) : list string :=
  map fst (filter (fun cd => p (snd cd)) (columns df)).

Definition is_datetime_dtype (d : dtype) : bool :=
  match d with Datetime64 => true | _ => false end.

(** [get_column_info]: the numeric, the categorical, the datetime and all
    the column names. *)
Definition get_column_info
    : M (list string * list string * list string * list string) :=
  original <- get_original ;;
  ret (select_dtypes is_number_dtype original,
       select_dtypes is_categorical_dtype original,
       select_dtypes is_datetime_dtype original,
       column_names original).

(** [value.replace("'", "\\'").replace('"', '\\"')] *)
Definition escape (value : string) : string :=
  PyStr.replace_char PyStr.dquote (String PyStr.backslash (PyStr.char PyStr.dquote))
    (PyStr.replace_char PyStr.squote (String PyStr.backslash (PyStr.char PyStr.squote))
       value).

Definition quoted_column (column : string) : string :=
  PyStr.char PyStr.backtick ^^ column ^^ PyStr.char PyStr.backtick.

(** The fragment of a text condition: [contains], or a comparison. *)
Definition text_fragment (column operator value : string) : string :=
  if String.eqb operator "contains"
  then quoted_column column ^^ ".str.contains('" ^^ escape value
         ^^ "', case=False, na=False)"
  else quoted_column column ^^ " " ^^ operator ^^ " '" ^^ escape value ^^ "'".

(** The body of the loop of [_query_builder] for condition [i]: what is
    appended to [query_parts]. *)
Definition query_builder_step (numeric_cols categorical_cols : list string)
    (num_conditions i : nat) (c : condition_widgets) (query_parts : list string)
    : M (list string) :=
  let column := q_column c in
  parts1 <-
    (if PyStr.truthy column && string_in column numeric_cols then
       ret (query_parts ++
              [quoted_column column ^^ " " ^^ q_operator c ^^ " " ^^ float_str (q_number c)])
     else if PyStr.truthy column && string_in column categorical_cols then
       if PyStr.truthy (q_text c)
       then ret (query_parts ++ [text_fragment column (q_operator c) (q_text c)])
       else ret query_parts
     else
       (if PyStr.truthy column then
          original <- get_original ;;
          s <- lift (getitem original column) ;;
          st_info (ColumnType (dtype_str (s_dtype s)))
        else st_info (ColumnType "Unknown")) ;;;
       if PyStr.truthy (q_text c)
       then ret (query_parts ++
                   [quoted_column column ^^ " " ^^ q_operator c ^^ " '"
                      ^^ escape (q_text c) ^^ "'"])
       else ret query_parts) ;;
  if (i <? num_conditions - 1)%nat then
    if (0 <? List.length parts1)%nat then ret (parts1 ++ [q_logic c]) else ret parts1
  else ret parts1.

Fixpoint query_builder_loop (numeric_cols categorical_cols : list string)
    (num_conditions i : nat) (cs : list condition_widgets) (query_parts : list string)
    : M (list string) :=
  match cs with
  | [] => ret query_parts
  | c :: cs' =>
      parts <- query_builder_step numeric_cols categorical_cols num_conditions i c
                                  query_parts ;;
      query_builder_loop numeric_cols categorical_cols num_conditions (S i) cs' parts
  end.

(** [if query_parts[-1] in ["and", "or"]: query_parts.pop()] *)
Definition pop_trailing_logic (query_parts : list string) : list string :=
  if string_in (last query_parts EmptyString) ["and"; "or"]
  then removelast query_parts else query_parts.

Definition final_query (query_parts : list string) : string :=
  PyStr.join " " (pop_trailing_logic query_parts).

(** The [try] of [_query_builder] and its [except]. *)
Definition run_query (q : string) : M (result (list string)) :=
  original <- get_original ;;
  emit (Query original q) ;;;
  filtered <- lift (df_query original q) ;;
  st_success (QueryApplied (len filtered)) ;;;
  ret (filtered, true, ["Safe Query: " ^^ q]).

Definition query_failed (e : exn) : M (result (list string)) :=
  st_error (QueryError e) ;;;
  st_info TryAdjusting ;;;
  return_original.

(** [_query_builder] *)
Definition query_builder (w : query_widgets) : M (result (list string)) :=
  original <- get_original ;;
  if df_empty original then
    st_warning NoData ;;; ret (original, false, [])
  else
  let numeric_cols := select_dtypes is_number_dtype original in
  let categorical_cols := select_dtypes is_categorical_dtype original in
  let all_cols := column_names original in
  match all_cols with
  | [] => st_warning NoColumns ;;; ret (original, false, [])
  | _ =>
      query_parts <- query_builder_loop numeric_cols categorical_cols
                       (List.length (conditions w)) 0 (conditions w) [] ;;
      match query_parts with
      | [] => return_original
      | _ =>
          let q := final_query query_parts in
          if PyStr.strip_truthy q then
            if apply_query w then try_except (run_query q) query_failed
            else return_original
          else return_original
      end
  end.

(** [st.radio]: the choice is one of the options offered. *)
Definition filter_type_eqb (a b : filter_type) : bool :=
  match a, b with
  | SimpleFilters, SimpleFilters | QueryBuilder, QueryBuilder
  | JoinDatasets, JoinDatasets => true
  | _, _ => false
  end.

Definition st_radio (options : list filter_type) (choice : filter_type) : filter_type :=
  if existsb (filter_type_eqb choice) options then choice else hd choice options.

(** [render_filter_ui] *)
Definition render_filter_ui (datasets : pool) (w : widgets) : M (DataFrame * bool) :=
  let filter_type :=
    if (1 <? List.length datasets)%nat
    then st_radio [SimpleFilters; QueryBuilder; JoinDatasets] (radio w)
    else st_radio [SimpleFilters; QueryBuilder] (radio w) in
  r <- match filter_type with
       | SimpleFilters => simple_filters (simple w)
       | QueryBuilder => query_builder (query w)
       | JoinDatasets => join_datasets datasets (join w)
       end ;;
  let '(filtered, applied, applied_filter_details) := r in
  set_filtered filtered ;;;
  original <- get_original ;;
  set_filter_info (mkInfo applied (Some filter_type) (len original) (len filtered)
                          applied_filter_details) ;;;
  (if (applied : bool) then
     if (len original =? 0)%nat
     then raise (Exn ZeroDivisionError "division by zero")
     else st_info (Filtered (len filtered))
   else ret tt) ;;;
  ret (filtered, applied).

(** [get_filtered_data], [get_filter_info] *)
Definition get_filtered_data : M DataFrame := fun w => (Ret (filtered_df (self w)), w).
Definition get_filter_info : M FilterInfo := fun w => (Ret (filter_info (self w)), w).

(** [clear_filters] *)
Definition clear_filters : M DataFrame :=
  original <- get_original ;;
  set_filtered original ;;;
  original' <- get_original ;;
  set_filter_info (mkInfo false None (len original') (len original') []) ;;;
  get_filtered_data.

End Methods.

(** ** A reference runtime

    An executable stand-in for Python and pandas, used to run the methods on
    concrete data.  It covers the part of each library function that the
    examples exercise; the general theorems do not depend on it. *)

Module Reference.

(** *** Formatting *)

Fixpoint drop_zeros (s : string) : string :=
  match s with
  | String "0" s' => drop_zeros s'
  | _ => s
  end.

Fixpoint rev_string (s acc : string) : string :=
  match s with
  | EmptyString => acc
  | String c s' => rev_string s' (String c acc)
  end.

Fixpoint zeros (n : nat) : string :=
  match n with O => EmptyString | S n' => String "0" (zeros n') end.

Definition pad_left (width : nat) (s : string) : string :=
  zeros (width - String.length s) ^^ s.

(** The [k] digits after the point of [fp / 10^k], without trailing zeros. *)
Definition frac_digits (k : nat) (fp : Z) : string :=
  match rev_string (drop_zeros (rev_string (pad_left k (PyStr.of_Z fp)) EmptyString))
                   EmptyString with
  | EmptyString => "0"
  | s => s
  end.

(** The exact decimal expansion of a float; it is what Python prints for
    values such as 25.0 or 0.5. *)
Definition float_str (f : float) : string :=
  match f with
  | S754_zero s => if s then "-0.0" else "0.0"
  | S754_infinity s => if s then "-inf" else "inf"
  | S754_nan => "nan"
  | S754_finite s m e =>
      (if s then "-" else EmptyString) ^^
      match e with
      | Zneg k =>
          let scaled := (Zpos m * 5 ^ Zpos k)%Z in
          let unit := (10 ^ Zpos k)%Z in
          PyStr.of_Z (scaled / unit) ^^ "." ^^ frac_digits (Pos.to_nat k) (scaled mod unit)
      | _ => PyStr.of_Z (Zpos m * 2 ^ e) ^^ ".0"
      end
  end.

(** Year, month and day of a day number (proleptic Gregorian calendar). *)
Definition civil (day : Z) : Z * Z * Z :=
  (let z := day + 719468 in
   let era := z / 146097 in
   let doe := z - era * 146097 in
   let yoe := (doe - doe / 1460 + doe / 36524 - doe / 146096) / 365 in
   let doy := doe - (365 * yoe + yoe / 4 - yoe / 100) in
   let mp := (5 * doy + 2) / 153 in
   let d := doy - (153 * mp + 2) / 5 + 1 in
   let m := if mp <? 10 then mp + 3 else mp - 9 in
   let y := yoe + era * 400 + (if m <=? 2 then 1 else 0) in
   (y, m, d))%Z.

Definition date_str (day : Z) : string :=
  let '(y, m, d) := civil day in
  pad_left 4 (PyStr.of_Z y) ^^ "-" ^^ pad_left 2 (PyStr.of_Z m) ^^ "-"
    ^^ pad_left 2 (PyStr.of_Z d).

Definition timestamp_str (t : Z) : string :=
  (let secs := (t mod ns_per_day) / 1000000000 in
   date_str (date_of t) ^^ " " ^^ pad_left 2 (PyStr.of_Z (secs / 3600)) ^^ ":"
     ^^ pad_left 2 (PyStr.of_Z ((secs / 60) mod 60)) ^^ ":"
     ^^ pad_left 2 (PyStr.of_Z (secs mod 60)))%Z.

(** *** Regular expressions: ordinary characters and the dot *)

Definition is_special (c : ascii) : bool :=
  existsb (Ascii.eqb c)
    ["\"; "^"; "$"; "*"; "+"; "?"; "{"; "}"; "["; "]"; "|"; "("; ")"]%char.

Fixpoint has_special (pat : string) : bool :=
  match pat with
  | EmptyString => false
  | String c pat' => is_special c || has_special pat'
  end.

Definition newline : ascii := ascii_of_nat 10.

Definition char_matches (p c : ascii) : bool :=
  if Ascii.eqb p "."%char then negb (Ascii.eqb c newline)
  else Ascii.eqb (PyStr.lower_char p) (PyStr.lower_char c).

Fixpoint match_here (pat s : string) : bool :=
  match pat, s with
  | EmptyString, _ => true
  | String p pat', String c s' => char_matches p c && match_here pat' s'
  | String _ _, EmptyString => false
  end.

Fixpoint search (pat s : string) : bool :=
  match_here pat s ||
  match s with
  | EmptyString => false
  | String _ s' => search pat s'
  end.

Definition re_compile_ignorecase (pat : string) : outcome (string -> bool) :=
  if has_special pat
  then Raise (Exn ReError "pattern outside the supported subset")
  else Ret (search pat).

(** A pattern of ordinary characters only. *)
Fixpoint plain (pat : string) : bool :=
  match pat with
  | EmptyString => true
  | String c pat' => negb (is_special c) && negb (Ascii.eqb c "."%char) && plain pat'
  end.

(** *** [pandas.merge]

    The check of the key dtypes follows pandas' [_maybe_coerce_merge_keys];
    the rows are joined by a nested loop, in the order of the left frame
    (of the right frame for a right join; an outer join is not sorted by
    key here).  The cells of a row without a match are NaN. *)

Definition is_str (c : cell) : bool := match c with CStr _ => true | _ => false end.
Definition is_int (c : cell) : bool := match c with CInt _ => true | _ => false end.
Definition is_float (c : cell) : bool := match c with CFloat _ => true | _ => false end.
Definition is_bool (c : cell) : bool := match c with CBool _ => true | _ => false end.

(** [lib.infer_dtype(values, skipna=False)] *)
Definition infer_dtype (vs : list cell) : string :=
  match vs with
  | [] => "empty"
  | _ => if forallb is_str vs then "string"
         else if forallb is_int vs then "integer"
         else if forallb is_float vs then "floating"
         else if forallb is_bool vs then "boolean"
         else "mixed"
  end.

Definition is_numeric_dtype (d : dtype) : bool :=
  match d with Int64 | Float64 | Int32 | Float32 | Bool => true | _ => false end.

Definition dtype_eqb (a b : dtype) : bool := String.eqb (dtype_str a) (dtype_str b).

Definition bool_types : list string := ["integer"; "mixed-integer"; "boolean"; "empty"].
Definition string_types : list string := ["string"; "unicode"; "mixed"; "bytes"; "empty"].

(** Whether pandas accepts [lk] and [rk] as a pair of join keys. *)
Definition keys_accepted (lk rk : Series) : bool :=
  let ld := s_dtype lk in
  let rd := s_dtype rk in
  let nl := List.length (s_values lk) in
  let nr := List.length (s_values rk) in
  if ((0 <? nl) && (nr =? 0) || (nl =? 0) && (0 <? nr))%nat then true
  else if dtype_eqb ld rd then true
  else if dtype_eqb ld Category || dtype_eqb rd Category then true
  else if is_numeric_dtype ld && is_numeric_dtype rd then true
  else if dtype_eqb ld Object && dtype_eqb rd Bool
          || dtype_eqb ld Bool && dtype_eqb rd Object then true
  else if dtype_eqb ld Object && is_numeric_dtype rd
          || is_numeric_dtype ld && dtype_eqb rd Object then
    let il := infer_dtype (s_values lk) in
    let ir := infer_dtype (s_values rk) in
    if string_in il bool_types && string_in ir bool_types then true
    else negb (string_in il string_types && negb (string_in ir string_types)
               || string_in ir string_types && negb (string_in il string_types))
  else if dtype_eqb ld Datetime64 || dtype_eqb rd Datetime64 then false
  else true.

Definition key_eqb (a b : cell) : bool :=
  match cell_float a, cell_float b with
  | Ret x, Ret y => float_same x y
  | _, _ => cell_eqb a b
  end.

Definition drop_nth (i : nat) (r : row) : row := firstn i r ++ skipn (S i) r.

Definition merged_rows (h : how) (li ri : nat) (same_key : bool)
    (lrows rrows : list row) (lw rw : nat) : list row :=
  let right_part r := if same_key then drop_nth ri r else r in
  let right_blank := repeat (CFloat nan) (if same_key then rw - 1 else rw) in
  let left_blank r :=
    if same_key then set_nth li (cell_at ri r) (repeat (CFloat nan) lw) else repeat (CFloat nan) lw in
  let r_matches l := filter (fun r => key_eqb (cell_at li l) (cell_at ri r)) rrows in
  let l_matches r := filter (fun l => key_eqb (cell_at li l) (cell_at ri r)) lrows in
  let inner_of l := map (fun r => l ++ right_part r) (r_matches l) in
  let left_of l :=
    match r_matches l with [] => [l ++ right_blank] | _ => inner_of l end in
  let right_of r :=
    match l_matches r with
    | [] => [left_blank r ++ right_part r]
    | ls => map (fun l => l ++ right_part r) ls
    end in
  let right_only r :=
    match l_matches r with [] => [left_blank r ++ right_part r] | _ => [] end in
  match h with
  | Inner => flat_map inner_of lrows
  | Left => flat_map left_of lrows
  | Right => flat_map right_of rrows
  | Outer => flat_map left_of lrows ++ flat_map right_only rrows
  end.

Definition merged_columns (left_on right_on : string)
    (lcols rcols : list (string * dtype)) : list (string * dtype) :=
  let same_key := String.eqb left_on right_on in
  let rcols' :=
    if same_key then filter (fun cd => negb (String.eqb (fst cd) right_on)) rcols
    else rcols in
  let overlap c := string_in c (map fst lcols) && string_in c (map fst rcols') in
  map (fun cd => (if overlap (fst cd) then fst cd ^^ "_left" else fst cd, snd cd)) lcols
  ++ map (fun cd => (if overlap (fst cd) then fst cd ^^ "_right" else fst cd, snd cd)) rcols'.

Definition pd_merge (left right : DataFrame) (left_on right_on : string) (h : how)
    : outcome DataFrame :=
  obind (getitem left left_on) (fun lk =>
  obind (getitem right right_on) (fun rk =>
    if keys_accepted lk rk then
      match col_index left_on (columns left), col_index right_on (columns right) with
      | Some (li, _), Some (ri, _) =>
          Ret (mkDF (merged_columns left_on right_on (columns left) (columns right))
                    (merged_rows h li ri (String.eqb left_on right_on)
                                 (rows left) (rows right)
                                 (List.length (columns left))
                                 (List.length (columns right))))
      | _, _ => Raise (Exn KeyError left_on)
      end
    else
      Raise (Exn ValueError
               ("You are trying to merge on " ^^ dtype_str (s_dtype lk) ^^ " and "
                  ^^ dtype_str (s_dtype rk) ^^ " columns for key '" ^^ left_on
                  ^^ "'. If you wish to proceed you should use pd.concat")))).

(** *** [DataFrame.query]

    The expressions understood are the ones the query builder assembles:
    comparisons of a back-quoted column with a number or a quoted text,
    [.str.contains('...', case=False, na=False)], joined by [and] and [or]
    with Python's precedence. *)

Inductive token :=
| TCol (name : string)
| TStr (s : string)
| TWord (w : string).

Inductive lex_mode := Outside | InCol | InStr | InEsc.

Definition flush (acc : string) (ts : list token) : list token :=
  if PyStr.truthy acc then TWord acc :: ts else ts.

Definition snoc (s : string) (c : ascii) : string := s ^^ PyStr.char c.

Fixpoint lex (mode : lex_mode) (acc : string) (s : string) : outcome (list token) :=
  match s with
  | EmptyString =>
      match mode with
      | Outside => Ret (flush acc [])
      | _ => Raise (Exn SyntaxError "unterminated string literal")
      end
  | String c s' =>
      match mode with
      | Outside =>
          if Ascii.eqb c PyStr.backtick then
            obind (lex InCol EmptyString s') (fun ts => Ret (flush acc ts))
          else if Ascii.eqb c PyStr.squote then
            obind (lex InStr EmptyString s') (fun ts => Ret (flush acc ts))
          else if PyStr.is_space c then
            obind (lex Outside EmptyString s') (fun ts => Ret (flush acc ts))
          else lex Outside (snoc acc c) s'
      | InCol =>
          if Ascii.eqb c PyStr.backtick
          then obind (lex Outside EmptyString s') (fun ts => Ret (TCol acc :: ts))
          else lex InCol (snoc acc c) s'
      | InStr =>
          if Ascii.eqb c PyStr.backslash then lex InEsc acc s'
          else if Ascii.eqb c PyStr.squote
          then obind (lex Outside EmptyString s') (fun ts => Ret (TStr acc :: ts))
          else lex InStr (snoc acc c) s'
      | InEsc =>
          if Ascii.eqb c PyStr.squote || Ascii.eqb c PyStr.dquote
             || Ascii.eqb c PyStr.backslash
          then lex InStr (snoc acc c) s'
          else lex InStr (snoc (snoc acc PyStr.backslash) c) s'
      end
  end.

Definition is_word (w : string) (t : token) : bool :=
  match t with TWord x => String.eqb x w | _ => false end.

(** The pieces of [ts] between the occurrences of the word [w]. *)
Fixpoint split_on (w : string) (ts : list token) : list (list token) :=
  match ts with
  | [] => [[]]
  | t :: ts' =>
      match split_on w ts' with
      | [] => [[]]
      | g :: gs => if is_word w t then [] :: g :: gs else (t :: g) :: gs
      end
  end.

Inductive literal :=
| LNum (n : Z) (k : nat)       (* the number n / 10^k *)
| LText (s : string).

Inductive atom :=
| Compare (column operator : string) (value : literal)
| Contains (column pattern : string).

Definition digit_of (c : ascii) : option Z :=
  let n := nat_of_ascii c in
  if ((48 <=? n) && (n <=? 57))%nat then Some (Z.of_nat (n - 48)) else None.

(** Digits with at most one point: the value read so far, the number of
    digits after the point, whether the point and a digit were seen. *)
Fixpoint parse_digits (s : string) (n : Z) (k : nat) (dot seen : bool)
    : option (Z * nat) :=
  match s with
  | EmptyString => if seen then Some (n, k) else None
  | String c s' =>
      if Ascii.eqb c "."%char then
        if dot then None else parse_digits s' n k true seen
      else match digit_of c with
           | Some d => parse_digits s' (10 * n + d)%Z (if dot then S k else k) dot true
           | None => None
           end
  end.

Definition parse_number (w : string) : option literal :=
  match w with
  | String "-" w' =>
      option_map (fun nk => LNum (- fst nk) (snd nk)) (parse_digits w' 0 0 false false)
  | _ => option_map (fun nk => LNum (fst nk) (snd nk)) (parse_digits w 0 0 false false)
  end.

Definition comparison_operators : list string := [">"; "<"; ">="; "<="; "=="; "!="].

Definition parse_atom (ts : list token) : outcome atom :=
  match ts with
  | [TCol c; TWord op; TStr v] =>
      if string_in op comparison_operators then Ret (Compare c op (LText v))
      else Raise (Exn SyntaxError "invalid syntax")
  | [TCol c; TWord op; TWord n] =>
      if string_in op comparison_operators then
        match parse_number n with
        | Some l => Ret (Compare c op l)
        | None => Raise (Exn NameError ("name '" ^^ n ^^ "' is not defined"))
        end
      else Raise (Exn SyntaxError "invalid syntax")
  | [TCol c; TWord ".str.contains("; TStr v; TWord ","; TWord "case=False,";
     TWord "na=False)"] => Ret (Contains c v)
  | _ => Raise (Exn SyntaxError "invalid syntax")
  end.

(** A disjunction of conjunctions of atoms. *)
Definition parse (ts : list token) : outcome (list (list atom)) :=
  omap (fun g => omap parse_atom (split_on "and" g)) (split_on "or" ts).

(** How a cell compares with the number n / 10^k; [None] when unordered. *)
Definition compare_number (c : cell) (n : Z) (k : nat) : outcome (option comparison) :=
  let unit := (10 ^ Z.of_nat k)%Z in
  match c with
  | CInt z => Ret (Some (z * unit ?= n)%Z)
  | CBool b => Ret (Some ((if b then 1 else 0) * unit ?= n)%Z)
  | CFloat (S754_zero _) => Ret (Some (0 ?= n)%Z)
  | CFloat (S754_infinity s) => Ret (Some (if s then Lt else Gt))
  | CFloat S754_nan => Ret None
  | CFloat (S754_finite s m e) =>
      let sm := if s then Zneg m else Zpos m in
      Ret (Some (match e with
                 | Zneg p => (sm * unit ?= n * 2 ^ Zpos p)%Z
                 | _ => (sm * 2 ^ e * unit ?= n)%Z
                 end))
  | CStr _ | CDate _ | CNone =>
      Raise (Exn TypeError "comparison not supported between these types")
  end.

Definition holds (op : string) (o : option comparison) : bool :=
  match o with
  | None => String.eqb op "!="
  | Some Lt => string_in op ["<"; "<="; "!="]
  | Some Eq => string_in op ["<="; ">="; "=="]
  | Some Gt => string_in op [">"; ">="; "!="]
  end.

Definition compare_text (op : string) (c : cell) (v : string) : outcome bool :=
  match c with
  | CStr s => Ret (holds op (Some (String.compare s v)))
  | _ =>
      if String.eqb op "==" then Ret false
      else if String.eqb op "!=" then Ret true
      else Raise (Exn TypeError "comparison not supported between these types")
  end.

Definition eval_atom (df : DataFrame) (a : atom) : outcome (list bool) :=
  match a with
  | Compare column op (LNum n k) =>
      match getitem df column with
      | Ret s => omap (fun c => obind (compare_number c n k) (fun o => Ret (holds op o)))
                      (s_values s)
      | Raise _ => Raise (Exn NameError ("name '" ^^ column ^^ "' is not defined"))
      end
  | Compare column op (LText v) =>
      match getitem df column with
      | Ret s => omap (fun c => compare_text op c v) (s_values s)
      | Raise _ => Raise (Exn NameError ("name '" ^^ column ^^ "' is not defined"))
      end
  | Contains column pat =>
      match getitem df column with
      | Ret s =>
          match s_dtype s with
          | Object | Category =>
              obind (re_compile_ignorecase pat) (fun f =>
                Ret (map (fun c => match c with CStr x => f x | _ => false end)
                         (s_values s)))
          | _ => Raise (Exn AttributeError
                          "Can only use .str accessor with string values!")
          end
      | Raise _ => Raise (Exn NameError ("name '" ^^ column ^^ "' is not defined"))
      end
  end.

Fixpoint mask_or (m1 m2 : list bool) : list bool :=
  match m1, m2 with
  | a :: m1', b :: m2' => (a || b) :: mask_or m1' m2'
  | _, _ => []
  end.

Definition eval_and (df : DataFrame) (atoms : list atom) : outcome (list bool) :=
  obind (omap (eval_atom df) atoms) (fun ms =>
    Ret (fold_left mask_and ms (map (fun _ => true) (rows df)))).

Definition eval_or (df : DataFrame) (groups : list (list atom)) : outcome (list bool) :=
  obind (omap (eval_and df) groups) (fun ms =>
    Ret (fold_left mask_or ms (map (fun _ => false) (rows df)))).

Definition df_query (df : DataFrame) (expr : string) : outcome DataFrame :=
  obind (lex Outside EmptyString expr) (fun ts =>
  obind (parse ts) (fun groups =>
  obind (eval_or df groups) (fun mask => Ret (getitem_mask df mask)))).

End Reference.

Definition reference_runtime : Runtime := {|
  float_str := Reference.float_str;
  date_str := Reference.date_str;
  timestamp_str := Reference.timestamp_str;
  re_compile_ignorecase := Reference.re_compile_ignorecase;
  pd_merge := Reference.pd_merge;
  df_query := Reference.df_query
|}.

(** ** Vocabulary of the statements *)

(** The value a row holds in column [col] of [df]. *)
Definition value_at (df : DataFrame) (col : string) (r : row) : cell :=
  match col_index col (columns df) with
  | Some (i, _) => cell_at i r
  | None => CNone
  end.

(** The dtype of column [col]. *)
Definition column_dtype (df : DataFrame) (col : string) : option dtype :=
  option_map snd (col_index col (columns df)).

Definition is_number (c : cell) : bool :=
  match c with CInt _ | CFloat _ => true | _ => false end.

(** Column [col] exists in [df] and holds numbers, as an int64 or float64
    column does. *)
Definition numeric_column (df : DataFrame) (col : string) : bool :=
  match col_index col (columns df) with
  | Some _ => forallb (fun r => is_number (value_at df col r)) (rows df)
  | None => false
  end.

(** Column [col] exists in [df] with an object or category dtype. *)
Definition text_column (df : DataFrame) (col : string) : bool :=
  match column_dtype df col with
  | Some Object | Some Category => true
  | _ => false
  end.

(** Column [col] exists in [df] and the [.str] accessor takes it. *)
Definition searchable (df : DataFrame) (col : string) : bool :=
  match getitem df col with
  | Ret s => match str_accessor s with Ret _ => true | Raise _ => false end
  | Raise _ => false
  end.

(** A missing value: NaN, NaT or None. *)
Definition is_missing (c : cell) : bool :=
  match c with
  | CFloat f => is_nan f
  | CDate None => true
  | CNone => true
  | _ => false
  end.

(** [lo <= v <= hi] as the comparison of a column with a float computes it:
    [v] is the float64 of the cell, so that an int64 is first converted,
    rounding to the nearest float64 when its magnitude is above 2^53. *)
Definition in_range (lo hi : float) (c : cell) : bool :=
  match cell_float c with
  | Ret v => fle lo v && fle v hi
  | Raise _ => false
  end.







(** The rows of [df] that satisfy [p], in their order. *)
Definition rows_where (p : row -> bool) (df : DataFrame) : DataFrame :=
  mkDF (columns df) (filter p (rows df)).

(** The world after one more event on the page. *)
Definition say (st : world) (ev : event) : world :=
  mkWorld (self st) (page st ++ [ev]).

(** [s] contains [term], letter case ignored. *)
Definition contains_ignorecase (term s : string) : bool :=
  PyStr.contains (PyStr.lower term) (PyStr.lower s).

(** The text of a cell contains [term], letter case ignored. *)
Definition cell_contains (term : string) (c : cell) : bool :=
  match c with
  | CStr s => contains_ignorecase term s
  | _ => false
  end.

(** The text of a cell is matched by [search]. *)
Definition cell_matches (search : string -> bool) (c : cell) : bool :=
  match c with
  | CStr s => search s
  | _ => false
  end.

(** The number of evaluations of a query the page records. *)
Definition is_query (ev : event) : bool :=
  match ev with Query _ _ => true | St _ _ => false end.

Definition queries_run (st : world) : nat := List.length (filter is_query (page st)).

(** The dtypes the dispatch of [_simple_filters] has a branch for. *)
Definition has_branch (d : dtype) : bool :=
  match d with
  | Object | Category | Int64 | Float64 | Datetime64 => true
  | _ => false
  end.

(** The parts of an expression read well when fragments and connectives
    alternate, starting and ending with a fragment. *)
Definition is_connective (p : string) : bool := string_in p ["and"; "or"].

Fixpoint alternates (fragment_next : bool) (parts : list string) : bool :=
  match parts with
  | [] => negb fragment_next
  | p :: ps =>
      if fragment_next then negb (is_connective p) && alternates false ps
      else is_connective p && alternates true ps
  end.

Definition well_joined (parts : list string) : bool :=
  match parts with
  | [] => true
  | _ => alternates true parts
  end.

(** ** Data for the examples *)

Module Examples.

Definition no_choice : column_widgets :=
  mkColumnWidgets [] EmptyString Slider (nan, nan) nan nan [].

(** The slider moved to [lo .. hi]. *)
Definition slider (lo hi : Z) : column_widgets :=
  mkColumnWidgets [] EmptyString Slider (float_of_Z lo, float_of_Z hi) nan nan [].

(** The values ticked in the multiselect. *)
Definition ticked (values : list cell) : column_widgets :=
  mkColumnWidgets values EmptyString Slider (nan, nan) nan nan [].

(** The text typed in the search box. *)
Definition typed (term : string) : column_widgets :=
  mkColumnWidgets [] term Slider (nan, nan) nan nan [].

Definition session (df : DataFrame) : world := mkWorld (init df) [].

Definition people : DataFrame :=
  mkDF [("age", Int64); ("city", Object); ("subscribed", Bool)]
       [[CInt 18; CStr "NY"; CBool true];
        [CInt 25; CStr "LA"; CBool false];
        [CInt 40; CStr "NY"; CBool true];
        [CInt 60; CStr "SF"; CBool false]].

(** A float column with a missing reading. *)
Definition readings : DataFrame :=
  mkDF [("level", Float64)]
       [[CFloat (float_of_Z 1)]; [CFloat nan]; [CFloat (float_of_Z 3)]].

(** A text column with 51 distinct values and one missing entry. *)
Definition codes : DataFrame :=
  mkDF [("code", Object)]
       (map (fun n => [CStr (PyStr.of_nat n)]) (seq 0 51) ++ [[CNone]]).

Definition orders : DataFrame :=
  mkDF [("customer_id", Int64); ("amount", Float64)]
       [[CInt 1; CFloat (float_of_Z 10)];
        [CInt 2; CFloat (float_of_Z 20)];
        [CInt 1; CFloat (float_of_Z 30)]].

Definition customers : DataFrame :=
  mkDF [("id", Int64); ("name", Object)]
       [[CInt 1; CStr "Ann"]; [CInt 2; CStr "Bob"]; [CInt 3; CStr "Cy"]].

(** The same customers with the key read as float64, and as text. *)
Definition customers_float : DataFrame :=
  mkDF [("id", Float64); ("name", Object)]
       [[CFloat (float_of_Z 1); CStr "Ann"]; [CFloat (float_of_Z 2); CStr "Bob"];
        [CFloat (float_of_Z 3); CStr "Cy"]].

Definition customers_text : DataFrame :=
  mkDF [("id", Object); ("name", Object)]
       [[CStr "1"; CStr "Ann"]; [CStr "2"; CStr "Bob"]; [CStr "3"; CStr "Cy"]].

(** Customers none of whom has an order. *)
Definition strangers : DataFrame :=
  mkDF [("id", Int64); ("name", Object)]
       [[CInt 7; CStr "Di"]; [CInt 8; CStr "Ed"]].

(** Two tables that have their header and no rows, as read from files
    with a header line only. *)
Definition no_orders : DataFrame :=
  mkDF [("customer_id", Object); ("amount", Object)] [].

Definition no_customers : DataFrame :=
  mkDF [("id", Object); ("name", Object)] [].

(** The first days of the demo time series: [Month] and [DayOfWeek] come
    from the date accessors and are int32. *)
Definition day : Z := ns_per_day.

Definition time_series : DataFrame :=
  mkDF [("Date", Datetime64); ("Sales", Float64); ("Month", Int32);
        ("DayOfWeek", Int32); ("IsWeekend", Int64)]
       [[CDate (Some (19358 * day)%Z); CFloat (float_of_Z 1025); CInt 1; CInt 6; CInt 1];
        [CDate (Some (19359 * day)%Z); CFloat (float_of_Z 1003); CInt 1; CInt 0; CInt 0];
        [CDate (Some (19390 * day)%Z); CFloat (float_of_Z 1100); CInt 2; CInt 3; CInt 0]].

Definition join_on_customer (autofix : bool) : join_widgets :=
  mkJoinWidgets "orders" "customers" Inner "customer_id" "id" autofix true.

(** A condition on the text column [city]. *)
Definition city (operator value logic : string) : condition_widgets :=
  mkCondition "city" operator nan value logic.

(** Three conditions, the middle one left empty. *)
Definition middle_empty : query_widgets :=
  mkQueryWidgets [city "==" "NY" "and"; city "==" EmptyString "or";
                  city "==" "LA" "and"] true.

(** Three conditions, the last two left empty. *)
Definition last_two_empty : query_widgets :=
  mkQueryWidgets [city "==" "NY" "and"; city "==" EmptyString "or";
                  city "==" EmptyString "and"] true.

(** Two conditions, both left empty. *)
Definition all_empty : query_widgets :=
  mkQueryWidgets [city "==" EmptyString "and"; city "contains" EmptyString "and"] true.

Definition no_simple : simple_widgets := mkSimpleWidgets [] (fun _ => no_choice).
Definition no_query : query_widgets := mkQueryWidgets [] false.
Definition no_join : join_widgets :=
  mkJoinWidgets EmptyString EmptyString Inner EmptyString EmptyString false false.

End Examples.

(** ** Requests *)

(** A join request as the widgets of [_join_datasets] can produce it: two
    datasets of the pool are named, a column of each is chosen as key, and
    the button is pressed. *)
Definition join_request (datasets : pool) (w : join_widgets)
    (left_df right_df : DataFrame) (ls rs : Series) : Prop :=
  2 <= List.length datasets /\
  left_dataset w <> EmptyString /\ right_dataset w <> EmptyString /\
  left_key w <> EmptyString /\ right_key w <> EmptyString /\
  pool_get (left_dataset w) datasets = Ret left_df /\
  pool_get (right_dataset w) datasets = Ret right_df /\
  getitem left_df (left_key w) = Ret ls /\
  getitem right_df (right_key w) = Ret rs /\
  join_button w = true.

(** The message about the key dtypes that precedes the button. *)
Definition compatibility_message (ls rs : Series) : event :=
  if String.eqb (dtype_str (s_dtype ls)) (dtype_str (s_dtype rs))
  then St LSuccess (CompatibleTypes (dtype_str (s_dtype ls)))
  else St LWarning (TypeMismatch (dtype_str (s_dtype ls)) (dtype_str (s_dtype rs))).

(** What the [except] of [_join_datasets] writes for [e]. *)
Definition join_failure_report (e : exn) : list event :=
  St LError (JoinFailed e) ::
  (if PyStr.contains "dtype" (PyStr.lower (exn_msg e))
   then [St LInfo TryAutoFix] else []).

(** A condition of the query builder that emits no fragment: its column is
    not numeric and its text value is empty. *)
Definition dropped (original : DataFrame) (c : condition_widgets) : bool :=
  negb (PyStr.truthy (q_column c)
        && string_in (q_column c) (select_dtypes is_number_dtype original))
  && negb (PyStr.truthy (q_text c)).

(** The column of a condition is one the selectbox offers. *)
Definition column_offered (original : DataFrame) (c : condition_widgets) : Prop :=
  In (q_column c) (column_names original).

(** The loop of [_query_builder] on the conditions of [w]. *)
Definition assemble {RT : Runtime} (original : DataFrame) (w : query_widgets)
    : M (list string) :=
  query_builder_loop (select_dtypes is_number_dtype original)
                     (select_dtypes is_categorical_dtype original)
                     (List.length (conditions w)) 0 (conditions w) [].

(** ** The summary line and the demo catalog *)

(** [render_filter_summary]; [clear_pressed] is the button "Clear All
    Filters".  The percentage divides by the original count. *)
Definition render_filter_summary (clear_pressed : bool) : M bool :=
  info <- get_filter_info ;;
  if active info then
    (if (original_count info =? 0)%nat
     then raise (Exn ZeroDivisionError "division by zero")
     else ret tt) ;;;
    if clear_pressed then ret true else ret false
  else ret false.

Module DemoDatasets.

(** The private loaders of [DemoDatasets]. *)
Inductive loader :=
| load_iris | load_wine | load_california_housing
| create_time_series | create_ecommerce_data.

Record dataset_card := mkCard {
  card_type : string;
  samples : Z;
  features : Z;
  target : string
}.

(** [get_available_datasets]: the catalog, in the order of the dict (the
    descriptions and use cases are left out). *)
Definition get_available_datasets : list (string * dataset_card) :=
  [("🌸 Iris Flowers", mkCard "Classification" 150 4 "Species");
   ("🍷 Wine Quality", mkCard "Classification" 178 13 "Wine Type");
   ("🏠 California Housing", mkCard "Regression" 20640 8 "House Price");
   ("📈 Sales Time Series", mkCard "Time Series" 365 3 "Sales");
   ("🛒 E-commerce Transactions", mkCard "Transactional" 1000 8 "Purchase Amount")].

(** [load_dataset]: the loader a name is dispatched to. *)
Definition load_dataset (dataset_name : string) : outcome loader :=
  if String.eqb dataset_name "🌸 Iris Flowers" then Ret load_iris
  else if String.eqb dataset_name "🍷 Wine Quality" then Ret load_wine
  else if String.eqb dataset_name "🏠 California Housing" then Ret load_california_housing
  else if String.eqb dataset_name "📈 Sales Time Series" then Ret create_time_series
  else if String.eqb dataset_name "🛒 E-commerce Transactions"
  then Ret create_ecommerce_data
  else Raise (Exn ValueError ("Unknown dataset: " ^^ dataset_name)).

End DemoDatasets.

(** ** More vocabulary *)

Definition is_quote (c : ascii) : bool :=
  Ascii.eqb c PyStr.squote || Ascii.eqb c PyStr.dquote.

(** Every quote of [s] stands right after a backslash; [after_backslash]
    tells whether the character before [s] was one. *)
Fixpoint quotes_guarded (after_backslash : bool) (s : string) : bool :=
  match s with
  | EmptyString => true
  | String c s' =>
      (if is_quote c then after_backslash else true)
      && quotes_guarded (Ascii.eqb c PyStr.backslash) s'
  end.

(** [s] without the backslashes that stand right before a quote. *)
Fixpoint unescape (s : string) : string :=
  match s with
  | EmptyString => EmptyString
  | String c t =>
      match t with
      | String d s' =>
          if Ascii.eqb c PyStr.backslash && is_quote d
          then String d (unescape s')
          else String c (unescape t)
      | EmptyString => String c EmptyString
      end
  end.

(** Column [col] exists in [df] and holds timestamps, as a datetime64
    column does. *)
Definition is_timestamp (c : cell) : bool :=
  match c with CDate _ => true | _ => false end.

Definition datetime_column (df : DataFrame) (col : string) : bool :=
  match col_index col (columns df) with
  | Some _ => forallb (fun r => is_timestamp (value_at df col r)) (rows df)
  | None => false
  end.

(** The timestamp of a cell; NaT for a cell that holds none. *)
Definition stamp (c : cell) : option Z :=
  match c with CDate t => t | _ => None end.

(** The days of timestamps, NaT left out. *)
Definition days_of (ts : list (option Z)) : list Z :=
  flat_map (fun t => match t with Some x => [date_of x] | None => [] end) ts.

(** The days of the timestamps of column [col]. *)
Definition column_days (df : DataFrame) (col : string) : list Z :=
  days_of (map (fun r => stamp (value_at df col r)) (rows df)).

(** [d] is the first, or the last, of the days. *)
Definition is_first_day (d : Z) (days : list Z) : bool :=
  existsb (Z.eqb d) days && forallb (fun x => Z.leb d x) days.

Definition is_last_day (d : Z) (days : list Z) : bool :=
  existsb (Z.eqb d) days && forallb (fun x => Z.leb x d) days.

(** The dates of column [col] compare with a date: the frame has no rows, or
    a row of it holds a timestamp. *)
Definition dates_comparable (df : DataFrame) (col : string) : bool :=
  match rows df with
  | [] => true
  | _ => negb (forallb (fun r => is_nat (stamp (value_at df col r))) (rows df))
  end.

(** The date of a cell lies in [start_date .. end_date]. *)
Definition date_in_range (start_date end_date : Z) (c : cell) : bool :=
  match c with
  | CDate (Some t) => Z.leb start_date (date_of t) && Z.leb (date_of t) end_date
  | _ => false
  end.

(** Every row is as long as the schema. *)
Definition aligned (df : DataFrame) : bool :=
  forallb (fun r => (List.length r =? List.length (columns df))%nat) (rows df).

(** A condition of the query builder that emits a fragment. *)
Definition emits (original : DataFrame) (c : condition_widgets) : bool :=
  negb (dropped original c).

(** The parts [f1; l1; ...; fk; lk] of fragments each followed by its
    connective. *)
Definition interleave (pairs : list (string * string)) : list string :=
  flat_map (fun fl => [fst fl; snd fl]) pairs.

(** What a handler of one column hands back: the session is untouched, the
    frame is the frame passed in when nothing was applied, and otherwise the
    rows of it that pass a test on the row alone. *)
Definition builder_result (st : world) (df : DataFrame)
    (run : outcome (result string) * world) : Prop :=
  forall df' applied detail st',
    run = (Ret (df', applied, detail), st') ->
    self st' = self st /\
    (applied = false -> df' = df) /\
    exists p, df' = rows_where p df.

(** The locals of the loop of [_simple_filters]: the frame is a selection of
    the original by a test on rows; while nothing is applied it is the
    original and there is no description; once something is applied there is
    a description. *)
Definition locals_ok (original : DataFrame) (l : simple_locals) : Prop :=
  (exists p, l_filtered_df l = rows_where p original) /\
  (l_filters_applied l = false ->
   l_filtered_df l = original /\ l_applied_filter_details l = []
   /\ l_col_filtered l <> Some true) /\
  (l_filters_applied l = true -> l_applied_filter_details l <> []).

(** A fragment followed by its connective. *)
Definition fragment_then_connective (fl : string * string) : Prop :=
  is_connective (fst fl) = false /\ is_connective (snd fl) = true.

(** A condition as the widgets give it when it emits a fragment: its column
    is offered and its connective is one of the selectbox. *)
Definition joins (original : DataFrame) (c : condition_widgets) : Prop :=
  column_offered original c /\ emits original c = true
  /\ is_connective (q_logic c) = true.

(** The operation the radio of [render_filter_ui] yields. *)
Definition chosen_operation (datasets : pool) (w : widgets) : filter_type :=
  if (1 <? List.length datasets)%nat
  then st_radio [SimpleFilters; QueryBuilder; JoinDatasets] (radio w)
  else st_radio [SimpleFilters; QueryBuilder] (radio w).




(** The cell [astype(float)] makes of a number: an integer becomes the
    float64 nearest to it, a float stays. *)
Definition float64_of (c : cell) : cell :=
  match c with
  | CInt z => CFloat (float_of_Z z)
  | _ => c
  end.

Definition is_text (c : cell) : bool :=
  match c with CStr _ => true | _ => false end.

(** Column [col] of [df] has dtype object and holds a text in every row. *)
Definition text_key (df : DataFrame) (col : string) : bool :=
  match column_dtype df col with
  | Some Object => forallb (fun r => is_text (value_at df col r)) (rows df)
  | _ => false
  end.

(** ** More data for the examples *)

Module Cases.

(** The date picker set to the days [first .. last]. *)
Definition dates (first last : Z) : column_widgets :=
  mkColumnWidgets [] EmptyString Slider (nan, nan) nan nan [first; last].

(** One column selected, with its slider moved. *)
Definition age_25_to_40 : simple_widgets :=
  mkSimpleWidgets ["age"] (fun _ => Examples.slider 25 40).

(** The same, followed by the bool column. *)
Definition age_then_subscribed : simple_widgets :=
  mkSimpleWidgets ["age"; "subscribed"] (fun _ => Examples.slider 25 40).


(** An open parenthesis typed in the search box. *)
Definition search_paren : simple_widgets :=
  mkSimpleWidgets ["code"] (fun _ => Examples.typed "(").

(** Four conditions: the first and the last left empty. *)
Definition ends_empty : query_widgets :=
  mkQueryWidgets [Examples.city "==" EmptyString "and"; Examples.city "==" "NY" "and";
                  Examples.city "==" "LA" "or"; Examples.city "==" EmptyString "and"]
                 true.



(** Rows of the time series left with no date. *)
Definition undated : DataFrame :=
  mkDF (columns Examples.time_series)
       [[CDate None; CFloat (float_of_Z 990); CInt 3; CInt 2; CInt 0]].

(** Orders of the customers 2^53 and 2^53 + 1. *)
Definition big_orders : DataFrame :=
  mkDF [("customer_id", Int64); ("amount", Float64)]
       [[CInt 9007199254740992; CFloat (float_of_Z 10)];
        [CInt 9007199254740993; CFloat (float_of_Z 20)]].

Definition simple_on_age : widgets :=
  mkWidgets SimpleFilters age_25_to_40 Examples.no_query Examples.no_join.

Definition join_customers : widgets :=
  mkWidgets JoinDatasets Examples.no_simple Examples.no_query
            (Examples.join_on_customer false).

End Cases.

(** * Properties *)

(** Case analysis on the next scrutinee of a run that is known to have
    ended in a given result. *)
Ltac run_step H :=
  match type of H with
  | context [match ?x with _ => _ end] =>
      let E := fresh "E" in destruct x eqn:E; simpl in H; try discriminate H
  | context [if ?x then _ else _] =>
      let E := fresh "E" in destruct x eqn:E; simpl in H; try discriminate H
  end.

(** ** Floats *)

Lemma SFcompare_antisym (a b : float) :
  SFcompare b a = option_map CompOpp (SFcompare a b).
Proof.
  destruct a as [sa|sa| |sa ma ea], b as [sb|sb| |sb mb eb]; simpl;
    try reflexivity;
    try (destruct sa; reflexivity); try (destruct sb; reflexivity);
    try (destruct sa, sb; reflexivity).
  destruct sa, sb; simpl; try reflexivity;
    rewrite (Z.compare_antisym ea eb); destruct (ea ?= eb)%Z; simpl; try reflexivity.
  - pose proof (Pos.compare_cont_antisym ma mb Eq) as H; simpl in H.
    rewrite <- H. reflexivity.
  - pose proof (Pos.compare_cont_antisym ma mb Eq) as H; simpl in H.
    rewrite <- H. reflexivity.
Qed.

Lemma fle_not_fgt (a b : float) : fle a b = true -> fgt a b = false.
Proof.
  unfold fle, fgt, SFleb, SFltb. rewrite (SFcompare_antisym a b).
  destruct (SFcompare a b) as [[]|]; simpl; congruence.
Qed.

Lemma fgt_not_fle (a b : float) : fgt a b = true -> fle a b = false.
Proof.
  intros H. destruct (fle a b) eqn:E; [|reflexivity].
  apply fle_not_fgt in E. congruence.
Qed.

Lemma fle_nan_l (x : float) : fle nan x = false.
Proof. reflexivity. Qed.

Lemma fle_nan_r (x : float) : fle x nan = false.
Proof. destruct x; reflexivity. Qed.


Lemma float_same_refl (f : float) : float_same f f = true.
Proof.
  destruct f as [s|s| |s m e]; simpl; try reflexivity; try (destruct s; reflexivity).
  unfold feq, SFeqb; simpl.
  destruct s; rewrite Z.compare_refl, Pos.compare_cont_refl; reflexivity.
Qed.

Lemma cell_eqb_refl (c : cell) : cell_eqb c c = true.
Proof.
  destruct c as [z|f|s|b|[t|]|]; simpl; auto.
  - apply Z.eqb_refl.
  - apply float_same_refl.
  - apply String.eqb_refl.
  - destruct b; reflexivity.
  - apply Z.eqb_refl.
Qed.

(** ** The order of floats *)

Lemma Zcompare_opp (n m : Z) : (- n ?= - m)%Z = CompOpp (n ?= m)%Z.
Proof. rewrite Z.compare_opp. apply Z.compare_antisym. Qed.

Lemma SFcompare_rank (a b : float) :
  SFcompare a b =
  match rank a, rank b with
  | Some ka, Some kb => Some (lex ka kb)
  | _, _ => None
  end.
Proof.
  destruct a as [[|]|[|]| |[|] ma ea], b as [[|]|[|]| |[|] mb eb]; simpl;
    try reflexivity.
  all: try rewrite Zcompare_opp.
  all: destruct (ea ?= eb)%Z; simpl; try reflexivity.
Qed.

Lemma lex_spec (a b : Z * Z * Z) :
  match lex a b with
  | Lt => lex_lt a b
  | Eq => a = b
  | Gt => lex_lt b a
  end.
Proof.
  destruct a as [[a1 a2] a3], b as [[b1 b2] b3]. unfold lex, lex_lt.
  destruct (Z.compare_spec a1 b1); [|lia|lia].
  destruct (Z.compare_spec a2 b2); [|lia|lia].
  destruct (Z.compare_spec a3 b3); [|lia|lia].
  congruence.
Qed.

Ltac ranked a b :=
  let ka := fresh "ka" in let kb := fresh "kb" in
  destruct (rank a) as [ka|], (rank b) as [kb|];
  [ | split; [discriminate | intros [? [? [? [? ?]]]]; discriminate] ..].

Lemma fle_rank (a b : float) :
  fle a b = true <-> exists ka kb, rank a = Some ka /\ rank b = Some kb /\ lex_le ka kb.
Proof.
  unfold fle, SFleb. rewrite SFcompare_rank. ranked a b.
  pose proof (lex_spec ka kb) as H.
  destruct ka as [[a1 a2] a3], kb as [[b1 b2] b3]. split.
  - intros H'. exists (a1, a2, a3), (b1, b2, b3).
    split; [reflexivity|]. split; [reflexivity|].
    destruct (lex _ _); try discriminate; simpl in *; [injection H as -> -> ->|]; lia.
  - intros [x [y [Hx [Hy Hle]]]]. injection Hx as <-. injection Hy as <-.
    destruct (lex _ _); try reflexivity. simpl in *. lia.
Qed.


Lemma feq_rank (a b : float) :
  feq a b = true <-> exists k, rank a = Some k /\ rank b = Some k.
Proof.
  unfold feq, SFeqb. rewrite SFcompare_rank.
  destruct (rank a) as [ka|], (rank b) as [kb|];
    try (split; [discriminate | intros [x [H1 H2]]; discriminate]).
  pose proof (lex_spec ka kb) as H.
  destruct ka as [[a1 a2] a3], kb as [[b1 b2] b3]. split.
  - intros H'. destruct (lex _ _); try discriminate. rewrite H. eauto.
  - intros [x [Hx Hy]]. injection Hx as <-. injection Hy as -> -> ->.
    destruct (lex _ _); try reflexivity; simpl in *; lia.
Qed.

Lemma rank_nan (a : float) : rank a = None <-> is_nan a = true.
Proof. destruct a as [[|]|[|]| |[|] m e]; simpl; split; congruence. Qed.





Lemma feq_sym (a b : float) : feq a b = feq b a.
Proof.
  destruct (feq a b) eqn:E, (feq b a) eqn:E'; try reflexivity.
  - apply feq_rank in E. destruct E as [k [Ha Hb]].
    assert (feq b a = true) by (apply feq_rank; eauto). congruence.
  - apply feq_rank in E'. destruct E' as [k [Ha Hb]].
    assert (feq a b = true) by (apply feq_rank; eauto). congruence.
Qed.

(** Floats that compare equal compare alike with every float. *)
Lemma feq_compare (a b c : float) : feq a b = true -> SFcompare c a = SFcompare c b.
Proof.
  rewrite feq_rank. intros [k [Ha Hb]]. rewrite !SFcompare_rank, Ha, Hb. reflexivity.
Qed.

Lemma feq_feq (a b c : float) : feq a b = true -> feq c a = feq c b.
Proof. intros H. unfold feq, SFeqb. rewrite (feq_compare a b c H). reflexivity. Qed.

Lemma feq_fle_r (a b c : float) : feq a b = true -> fle c a = fle c b.
Proof. intros H. unfold fle, SFleb. rewrite (feq_compare a b c H). reflexivity. Qed.


Lemma fle_not_nan (a b : float) : fle a b = true -> is_nan a = false /\ is_nan b = false.
Proof.
  rewrite fle_rank. intros [ka [kb [Ha [Hb _]]]].
  split; [destruct (is_nan a) eqn:E | destruct (is_nan b) eqn:E]; try reflexivity;
    apply rank_nan in E; congruence.
Qed.




(** ** The least and the greatest value *)







(** ** Results of element-wise operations *)

Lemma omap_total {A B} (f : A -> outcome B) (g : A -> B) (l : list A) :
  Forall (fun x => f x = Ret (g x)) l -> omap f l = Ret (map g l).
Proof.
  induction 1 as [|x l Hx _ IH]; simpl; [reflexivity|].
  rewrite Hx; simpl. rewrite IH. reflexivity.
Qed.

Lemma omap_Ret_inv {A B} (f : A -> outcome B) (l : list A) (ys : list B) :
  omap f l = Ret ys -> Forall2 (fun x y => f x = Ret y) l ys.
Proof.
  revert ys. induction l as [|x l IH]; simpl; intros ys H.
  - injection H as <-. constructor.
  - destruct (f x) as [y|e] eqn:Hx; simpl in H; [|discriminate].
    destruct (omap f l) as [ys'|e]; simpl in H; [|discriminate].
    injection H as <-. constructor; auto.
Qed.

(** Selecting with the mask an element-wise test produced keeps the rows
    that pass the test. *)
Lemma select_mask {A} (g : row -> A) (t : A -> outcome bool) (rs : list row)
    (mask : list bool) :
  omap t (map g rs) = Ret mask ->
  select rs mask =
  filter (fun r => match t (g r) with Ret b => b | Raise _ => false end) rs.
Proof.
  revert mask. induction rs as [|r rs IH]; simpl; intros mask H.
  - injection H as <-. reflexivity.
  - destruct (t (g r)) as [b|e]; simpl in H; [|discriminate].
    destruct (omap t (map g rs)) as [mask'|e]; simpl in H; [|discriminate].
    injection H as <-. rewrite (IH mask' eq_refl). reflexivity.
Qed.

Lemma select_mask_and {A} (g : row -> A) (t1 t2 : A -> outcome bool)
    (rs : list row) (m1 m2 : list bool) :
  omap t1 (map g rs) = Ret m1 ->
  omap t2 (map g rs) = Ret m2 ->
  select rs (mask_and m1 m2) =
  filter (fun r => match t1 (g r), t2 (g r) with
                   | Ret a, Ret b => a && b
                   | _, _ => false
                   end) rs.
Proof.
  revert m1 m2. induction rs as [|r rs IH]; simpl; intros m1 m2 H1 H2.
  - injection H1 as <-. reflexivity.
  - destruct (t1 (g r)) as [a|e]; simpl in H1; [|discriminate].
    destruct (omap t1 (map g rs)) as [m1'|e]; simpl in H1; [|discriminate].
    destruct (t2 (g r)) as [b|e]; simpl in H2; [|discriminate].
    destruct (omap t2 (map g rs)) as [m2'|e]; simpl in H2; [|discriminate].
    injection H1 as <-. injection H2 as <-. simpl.
    rewrite (IH m1' m2' eq_refl eq_refl). reflexivity.
Qed.

Lemma select_map (p : row -> bool) (rs : list row) :
  select rs (map p rs) = filter p rs.
Proof.
  induction rs as [|r rs IH]; simpl; [reflexivity|]. rewrite IH. reflexivity.
Qed.

(** ** Columns *)

Lemma getitem_value_at (df : DataFrame) (col : string) (s : Series) :
  getitem df col = Ret s -> s_values s = map (value_at df col) (rows df).
Proof.
  unfold getitem, value_at. destruct (col_index col (columns df)) as [[i d]|].
  - intros H. injection H as <-. reflexivity.
  - discriminate.
Qed.

Lemma getitem_dtype (df : DataFrame) (col : string) (s : Series) :
  getitem df col = Ret s -> column_dtype df col = Some (s_dtype s).
Proof.
  unfold getitem, column_dtype. destruct (col_index col (columns df)) as [[i d]|].
  - intros H. injection H as <-. reflexivity.
  - discriminate.
Qed.

Lemma numeric_column_getitem (df : DataFrame) (col : string) :
  numeric_column df col = true ->
  exists s, getitem df col = Ret s /\
            Forall (fun c => is_number c = true) (s_values s).
Proof.
  unfold numeric_column. intros H.
  destruct (getitem df col) as [s|e] eqn:G.
  - exists s. split; [reflexivity|].
    rewrite (getitem_value_at _ _ _ G).
    unfold getitem in G. destruct (col_index col (columns df)); [|discriminate].
    rewrite forallb_forall in H. apply Forall_forall. intros c Hc.
    apply in_map_iff in Hc. destruct Hc as [r [<- Hr]]. auto.
  - unfold getitem in G. destruct (col_index col (columns df)) as [[i d]|]; discriminate.
Qed.


Section NumericFilter.
Context {RT : Runtime}.

Lemma range_tests (lo hi : float) (c : cell) :
  match ge_test lo c, le_test hi c with
  | Ret a, Ret b => a && b
  | _, _ => false
  end = in_range lo hi c.
Proof.
  unfold ge_test, le_test, in_range. destruct (cell_float c); reflexivity.
Qed.








End NumericFilter.




Section SimpleFilters.
Context {RT : Runtime}.

(** C8. A numeric column filter with final_min > final_max is refused: the
    error is written to the page, the accumulated frame passed in is
    returned as it is with applied False, and in the loop of the simple
    filters the frame, the applied flag and the descriptions gathered from
    the other columns stay as they were. *)
Theorem numeric_filter_rejects_inverted_range (st : world) (sw : simple_widgets)
    (l : simple_locals) (col : string) (s0 : Series) (min_val max_val : float) :
  let w := column_widget sw col in
  let final_min := fst (final_bounds w) in
  let final_max := snd (final_bounds w) in
  let reported := say st (St LError (MinGreaterThanMax final_min final_max)) in
  getitem (original_df (self st)) col = Ret s0 ->
  s_dtype s0 = Int64 \/ s_dtype s0 = Float64 ->
  series_min s0 = Ret min_val ->
  series_max s0 = Ret max_val ->
  fgt final_min final_max = true ->
  handle_numeric_filter (l_filtered_df l) col w st
    = (Ret (l_filtered_df l, false, EmptyString), reported)
  /\ simple_filters_step sw l col st
    = (Ret (mkLocals (l_filtered_df l) (l_filters_applied l)
                     (l_applied_filter_details l) (Some false) (Some EmptyString)),
       reported).
Proof.
  intros w final_min final_max reported G0 Hd Hmin Hmax Hgt.
  assert (Hn : handle_numeric_filter (l_filtered_df l) col w st
               = (Ret (l_filtered_df l, false, EmptyString), reported)).
  { unfold handle_numeric_filter, bind, get_original, lift.
    rewrite G0, Hmin, Hmax. fold w. fold final_min. fold final_max.
    rewrite Hgt. reflexivity. }
  split; [exact Hn|].
  unfold simple_filters_step, bind, get_original, lift. rewrite G0.
  assert (Hreported : original_df (self reported) = original_df (self st)) by reflexivity.
  destruct Hd as [Hd | Hd]; rewrite Hd; fold w. all: rewrite Hn; reflexivity.
Qed.

Lemma in_range_not_missing (lo hi : float) (c : cell) :
  in_range lo hi c = true -> is_missing c = false.
Proof.
  unfold in_range. destruct c as [z|f|s|b|t|]; simpl; try discriminate; auto.
  intros H. destruct f; auto. rewrite fle_nan_r in H. discriminate.
Qed.

Lemma cell_matches_not_missing (search : string -> bool) (c : cell) :
  cell_matches search c = true -> is_missing c = false.
Proof. destruct c; simpl; try discriminate; auto. Qed.

Lemma numeric_filter_applied (st st' : world) (df df' : DataFrame) (col : string)
    (w : column_widgets) (detail : string) :
  handle_numeric_filter df col w st = (Ret (df', true, detail), st') ->
  rows df' = filter (fun r => in_range (fst (final_bounds w)) (snd (final_bounds w))
                                       (value_at df col r)) (rows df).
Proof.
  unfold handle_numeric_filter, bind, get_original, lift. intros H.
  do 5 run_step H. do 3 run_step H.
  injection H as <- _ _. simpl.
  unfold series_ge, series_le in *.
  rewrite (getitem_value_at _ _ _ E4) in E5, E6.
  rewrite (select_mask_and (value_at df col) _ _ _ _ _ E5 E6).
  apply filter_ext. intros r. apply range_tests.
Qed.

Lemma str_contains_mask (s : Series) (pat : string) (mask : list bool) :
  str_contains s pat = Ret mask ->
  exists search, re_compile_ignorecase pat = Ret search /\
                 mask = map (cell_matches search) (s_values s).
Proof.
  unfold str_contains. intros H.
  destruct (str_accessor s) as [[]|e]; [|discriminate]. simpl in H.
  destruct (re_compile_ignorecase pat) as [search|e]; [|discriminate].
  simpl in H. injection H as <-. exists search. split; reflexivity.
Qed.

Lemma categorical_search_applied (st st' : world) (df df' : DataFrame) (col : string)
    (w : column_widgets) (detail : string) (s0 : Series) :
  getitem (original_df (self st)) col = Ret s0 ->
  50 < List.length (unique s0) ->
  handle_categorical_filter df col w st = (Ret (df', true, detail), st') ->
  exists search,
    re_compile_ignorecase (search_term w) = Ret search /\
    rows df' = filter (fun r => cell_matches search (value_at df col r)) (rows df).
Proof.
  intros G0 Hmany. unfold handle_categorical_filter, bind, get_original, lift.
  rewrite G0. destruct (Nat.leb_spec (List.length (unique s0)) 50) as [Hle|_]; [lia|].
  intros H. do 3 run_step H. injection H as <- _ _.
  destruct (str_contains_mask _ _ _ E1) as [search [Hc ->]].
  exists search. split; [exact Hc|]. simpl.
  rewrite (getitem_value_at _ _ _ E0), map_map. apply select_map.
Qed.

(** C10. Whenever the numeric range filter, or the substring search of the
    categorical filter, is applied, every row of the result is a row of the
    frame passed in whose value in the filtered column is not missing. *)
Theorem applied_filter_excludes_missing (st st' : world) (df df' : DataFrame)
    (col : string) (w : column_widgets) (detail : string) :
  handle_numeric_filter df col w st = (Ret (df', true, detail), st')
  \/ (exists s0, getitem (original_df (self st)) col = Ret s0 /\
                 50 < List.length (unique s0) /\
                 handle_categorical_filter df col w st = (Ret (df', true, detail), st')) ->
  forall r, In r (rows df') ->
            In r (rows df) /\ is_missing (value_at df col r) = false.
Proof.
  intros [H | [s0 [G0 [Hmany H]]]] r Hr.
  - rewrite (numeric_filter_applied _ _ _ _ _ _ _ H) in Hr.
    apply filter_In in Hr. destruct Hr as [Hin Hp]. split; [exact Hin|].
    eapply in_range_not_missing; eauto.
  - destruct (categorical_search_applied _ _ _ _ _ _ _ _ G0 Hmany H) as [search [_ Hrows]].
    rewrite Hrows in Hr. apply filter_In in Hr. destruct Hr as [Hin Hp].
    split; [exact Hin|]. eapply cell_matches_not_missing; eauto.
Qed.

End SimpleFilters.

Lemma numeric_filter_rejects_inverted_range_witness :
  let st := Examples.session Examples.people in
  let sw := mkSimpleWidgets ["age"] (fun _ => Examples.slider 40 25) in
  let kept := rows_where (fun r => cell_in (value_at Examples.people "city" r) [CStr "NY"])
                         Examples.people in
  let l := mkLocals kept true ["city: 1/3 values"] (Some true) (Some "city: 1/3 values") in
  let reported :=
    say st (St LError (MinGreaterThanMax (float_of_Z 40) (float_of_Z 25))) in
  handle_numeric_filter (RT := reference_runtime) kept "age" (Examples.slider 40 25) st
    = (Ret (kept, false, EmptyString), reported)
  /\ simple_filters_step (RT := reference_runtime) sw l "age" st
    = (Ret (mkLocals kept true ["city: 1/3 values"] (Some false) (Some EmptyString)),
       reported).
Proof.
  exact (numeric_filter_rejects_inverted_range (RT := reference_runtime)
           (Examples.session Examples.people)
           (mkSimpleWidgets ["age"] (fun _ => Examples.slider 40 25))
           (mkLocals (rows_where (fun r => cell_in (value_at Examples.people "city" r)
                                                  [CStr "NY"]) Examples.people)
                     true ["city: 1/3 values"] (Some true) (Some "city: 1/3 values"))
           "age" _ _ _ eq_refl (or_introl eq_refl) eq_refl eq_refl eq_refl).
Defined.

Lemma applied_filter_excludes_missing_witness :
  (forall r, In r [[CFloat (float_of_Z 1)]] ->
             In r (rows Examples.readings) /\
             is_missing (value_at Examples.readings "level" r) = false)
  /\ (forall r, In r [[CStr "5"]; [CStr "15"]; [CStr "25"]; [CStr "35"]; [CStr "45"];
                      [CStr "50"]] ->
                In r (rows Examples.codes) /\
                is_missing (value_at Examples.codes "code" r) = false).
Proof.
  split.
  - exact (applied_filter_excludes_missing (RT := reference_runtime)
             (Examples.session Examples.readings) _ Examples.readings _ "level"
             (Examples.slider 1 2) _ (or_introl eq_refl)).
  - refine (applied_filter_excludes_missing (RT := reference_runtime)
              (Examples.session Examples.codes) _ Examples.codes _ "code"
              (Examples.typed "5") _ (or_intror (ex_intro _ _ (conj eq_refl (conj _ eq_refl))))).
    apply Nat.ltb_lt. reflexivity.
Defined.


(** C9. In every state of the session, [clear_filters] returns the current
    original frame, leaves it the original, makes it the filtered frame, and
    resets the metadata: inactive, no type, original count the length of the
    original, filtered count equal to the original count, no descriptions.
    Nothing is written to the page. *)
Theorem clear_filters_resets (st : world) :
  let original := original_df (self st) in
  let after := snd (clear_filters st) in
  let info := filter_info (self after) in
  fst (clear_filters st) = Ret original
  /\ original_df (self after) = original
  /\ filtered_df (self after) = original
  /\ active info = false
  /\ type_ info = None
  /\ original_count info = len original
  /\ filtered_count info = original_count info
  /\ filters_applied info = []
  /\ page after = page st.
Proof.
  intros original after info. subst info after.
  unfold clear_filters, bind, get_original, set_filtered, set_filter_info,
    get_filtered_data.
  simpl. fold original.
  split; [reflexivity|]. split; [reflexivity|]. split; [reflexivity|].
  split; [reflexivity|]. split; [reflexivity|]. split; [reflexivity|].
  split; [reflexivity|]. split; reflexivity.
Qed.

(** ** Distinct values *)

Lemma cell_in_In (c : cell) (l : list cell) : In c l -> cell_in c l = true.
Proof.
  unfold cell_in. intros H. apply existsb_exists. exists c. split; [exact H|].
  apply cell_eqb_refl.
Qed.

Lemma unique_from_spec (l seen : list cell) :
  NoDup (unique_from seen l) /\
  forall c, In c (unique_from seen l) -> cell_in c seen = false.
Proof.
  revert seen. induction l as [|c l IH]; intros seen; simpl.
  - split; [constructor | intros c []].
  - destruct (cell_in c seen) eqn:E; [apply IH|].
    destruct (IH (c :: seen)) as [Hnd Hout]. split.
    + constructor; [|exact Hnd]. intros Hin. apply Hout in Hin.
      simpl in Hin. rewrite cell_eqb_refl in Hin. discriminate.
    + intros x [<- | Hx]; [exact E|].
      apply Hout in Hx. simpl in Hx. apply orb_false_iff in Hx. apply Hx.
Qed.

Lemma unique_NoDup (s : Series) : NoDup (unique s).
Proof. apply unique_from_spec. Qed.

Lemma strict_subset_shorter {A} (sel all : list A) (x : A) :
  NoDup sel -> incl sel all -> In x all -> ~ In x sel ->
  List.length sel < List.length all.
Proof.
  intros Hnd Hincl Hx Hnx.
  assert (H : List.length (x :: sel) <= List.length all).
  { apply NoDup_incl_length.
    - constructor; assumption.
    - intros y [<- | Hy]; auto. }
  simpl in H. lia.
Qed.

Lemma truthy_iff (s : string) : PyStr.truthy s = false <-> s = EmptyString.
Proof. destruct s; simpl; split; congruence. Qed.

Section Categorical.
Context {RT : Runtime}.

Lemma text_column_getitem (df : DataFrame) (col : string) :
  text_column df col = true ->
  exists s, getitem df col = Ret s /\ (s_dtype s = Object \/ s_dtype s = Category).
Proof.
  unfold text_column, column_dtype, getitem.
  destruct (col_index col (columns df)) as [[i d]|]; simpl; [|discriminate].
  intros H. eexists. split; [reflexivity|]. simpl.
  destruct d; try discriminate; auto.
Qed.

Lemma searchable_getitem (df : DataFrame) (col : string) :
  searchable df col = true ->
  exists s, getitem df col = Ret s /\ str_accessor s = Ret tt.
Proof.
  unfold searchable. destruct (getitem df col) as [s|e]; [|discriminate].
  destruct (str_accessor s) as [[]|e] eqn:E; [|discriminate].
  intros _. exists s. auto.
Qed.

Lemma str_contains_compiled (s : Series) (pat : string) (search : string -> bool) :
  str_accessor s = Ret tt ->
  re_compile_ignorecase pat = Ret search ->
  str_contains s pat = Ret (map (cell_matches search) (s_values s)).
Proof.
  unfold str_contains. intros -> ->. reflexivity.
Qed.

(** The multiselect with fewer values ticked than there are. *)
Lemma categorical_subset_runs (st : world) (df : DataFrame) (col : string)
    (w : column_widgets) (s0 : Series) :
  getitem (original_df (self st)) col = Ret s0 ->
  text_column df col = true ->
  List.length (unique s0) <= 50 ->
  List.length (selected_values w) < List.length (unique s0) ->
  handle_categorical_filter df col w st =
    (Ret (rows_where (fun r => cell_in (value_at df col r) (selected_values w)) df, true,
          col ^^ ": " ^^ PyStr.of_nat (List.length (selected_values w)) ^^ "/"
              ^^ PyStr.of_nat (List.length (unique s0)) ^^ " values"),
     st).
Proof.
  intros G0 Htext Hfew Hlt.
  destruct (text_column_getitem df col Htext) as [s [G Hd]].
  unfold handle_categorical_filter, bind, get_original, lift. rewrite G0.
  destruct (Nat.leb_spec (List.length (unique s0)) 50) as [_|Hgt]; [|lia].
  destruct (Nat.ltb_spec (List.length (selected_values w)) (List.length (unique s0)));
    [|lia].
  rewrite G. simpl. unfold getitem_mask, rows_where, isin.
  rewrite (getitem_value_at _ _ _ G), map_map, select_map. reflexivity.
Qed.

(** The multiselect with as many values ticked as there are. *)
Lemma categorical_all_ticked (st : world) (df : DataFrame) (col : string)
    (w : column_widgets) (s0 : Series) :
  getitem (original_df (self st)) col = Ret s0 ->
  List.length (unique s0) <= 50 ->
  List.length (unique s0) <= List.length (selected_values w) ->
  handle_categorical_filter df col w st = (Ret (df, false, EmptyString), st).
Proof.
  intros G0 Hfew Hall.
  unfold handle_categorical_filter, bind, get_original, lift. rewrite G0.
  destruct (Nat.leb_spec (List.length (unique s0)) 50) as [_|Hgt]; [|lia].
  destruct (Nat.ltb_spec (List.length (selected_values w)) (List.length (unique s0)));
    [lia|].
  reflexivity.
Qed.

(** The search box left empty. *)
Lemma categorical_search_empty (st : world) (df : DataFrame) (col : string)
    (w : column_widgets) (s0 : Series) :
  getitem (original_df (self st)) col = Ret s0 ->
  50 < List.length (unique s0) ->
  search_term w = EmptyString ->
  handle_categorical_filter df col w st = (Ret (df, false, EmptyString), st).
Proof.
  intros G0 Hmany Hempty.
  unfold handle_categorical_filter, bind, get_original, lift. rewrite G0.
  destruct (Nat.leb_spec (List.length (unique s0)) 50) as [Hle|_]; [lia|].
  rewrite Hempty. reflexivity.
Qed.

(** The search box with a term that compiles to [search]. *)
Lemma categorical_search_runs (st : world) (df : DataFrame) (col : string)
    (w : column_widgets) (s0 : Series) (search : string -> bool) :
  getitem (original_df (self st)) col = Ret s0 ->
  searchable df col = true ->
  50 < List.length (unique s0) ->
  search_term w <> EmptyString ->
  re_compile_ignorecase (search_term w) = Ret search ->
  handle_categorical_filter df col w st =
    (Ret (rows_where (fun r => cell_matches search (value_at df col r)) df, true,
          col ^^ ": contains '" ^^ search_term w ^^ "'"),
     st).
Proof.
  intros G0 Htext Hmany Hterm Hc.
  destruct (searchable_getitem df col Htext) as [s [G Hd]].
  unfold handle_categorical_filter, bind, get_original, lift. rewrite G0.
  destruct (Nat.leb_spec (List.length (unique s0)) 50) as [Hle|_]; [lia|].
  destruct (PyStr.truthy (search_term w)) eqn:T; [|apply truthy_iff in T; contradiction].
  rewrite G. rewrite (str_contains_compiled s _ search Hd Hc). simpl.
  unfold getitem_mask, rows_where.
  rewrite (getitem_value_at _ _ _ G), map_map, select_map. reflexivity.
Qed.

(** What the categorical filter computes on a text column: with at most 50
    distinct values, ticking all of them is a no-op and ticking a strict
    subset returns exactly the rows whose value is in the subset; with more
    than 50 distinct values, an empty search term is a no-op, and on a
    column the [.str] accessor takes, a non-empty term that compiles as a
    regular expression returns exactly the rows whose text the expression
    matches somewhere. *)
Lemma categorical_filter_selects (st : world) (df : DataFrame) (col : string)
    (w : column_widgets) (s0 : Series) :
  let distinct := unique s0 in
  let chosen := selected_values w in
  let term := search_term w in
  let run := handle_categorical_filter df col w st in
  getitem (original_df (self st)) col = Ret s0 ->
  text_column df col = true ->
  (List.length distinct <= 50 -> NoDup chosen -> incl chosen distinct ->
     (incl distinct chosen -> run = (Ret (df, false, EmptyString), st))
     /\ ((exists c, In c distinct /\ ~ In c chosen) ->
         run = (Ret (rows_where (fun r => cell_in (value_at df col r) chosen) df, true,
                     col ^^ ": " ^^ PyStr.of_nat (List.length chosen) ^^ "/"
                         ^^ PyStr.of_nat (List.length distinct) ^^ " values"),
                st)))
  /\ (50 < List.length distinct ->
     (term = EmptyString -> run = (Ret (df, false, EmptyString), st))
     /\ (term <> EmptyString -> searchable df col = true ->
         forall search, re_compile_ignorecase term = Ret search ->
         run = (Ret (rows_where (fun r => cell_matches search (value_at df col r)) df,
                     true, col ^^ ": contains '" ^^ term ^^ "'"),
                st))).
Proof.
  intros distinct chosen term run G0 Htext. subst run. split.
  - intros Hfew Hnd Hsub. split.
    + intros Hall. apply (categorical_all_ticked st df col w s0 G0 Hfew).
      apply NoDup_incl_length; [apply unique_NoDup | exact Hall].
    + intros [c [Hc Hnc]].
      apply (categorical_subset_runs st df col w s0 G0 Htext Hfew).
      exact (strict_subset_shorter chosen distinct c Hnd Hsub Hc Hnc).
  - intros Hmany. split.
    + apply (categorical_search_empty st df col w s0 G0 Hmany).
    + intros Hterm Hsearch search Hc.
      exact (categorical_search_runs st df col w s0 search G0 Hsearch Hmany Hterm Hc).
Qed.

End Categorical.

Lemma categorical_filter_selects_witness :
  let st := Examples.session Examples.people in
  let st' := Examples.session Examples.codes in
  handle_categorical_filter (RT := reference_runtime) Examples.people "city"
                            (Examples.ticked [CStr "NY"]) st
  = (Ret (mkDF (columns Examples.people)
               [[CInt 18; CStr "NY"; CBool true]; [CInt 40; CStr "NY"; CBool true]],
          true, "city: 1/3 values"), st)
  /\ handle_categorical_filter (RT := reference_runtime) Examples.people "city"
                               (Examples.ticked [CStr "SF"; CStr "NY"; CStr "LA"]) st
     = (Ret (Examples.people, false, EmptyString), st)
  /\ handle_categorical_filter (RT := reference_runtime) Examples.codes "code"
                               (Examples.typed EmptyString) st'
     = (Ret (Examples.codes, false, EmptyString), st')
  /\ handle_categorical_filter (RT := reference_runtime) Examples.codes "code"
                               (Examples.typed "5") st'
     = (Ret (mkDF (columns Examples.codes)
                  [[CStr "5"]; [CStr "15"]; [CStr "25"]; [CStr "35"]; [CStr "45"];
                   [CStr "50"]],
             true, "code: contains '5'"), st').
Proof.
  intros st st'.
  assert (Hfew : List.length (unique (mkSeries Object (map (value_at Examples.people "city")
                                                        (rows Examples.people)))) <= 50)
    by (apply Nat.leb_le; reflexivity).
  assert (Hmany : 50 < List.length (unique (mkSeries Object (map (value_at Examples.codes "code")
                                                            (rows Examples.codes)))))
    by (apply Nat.ltb_lt; reflexivity).
  split; [|split; [|split]].
  - refine (proj2 (proj1 (categorical_filter_selects (RT := reference_runtime) st
                            Examples.people "city" (Examples.ticked [CStr "NY"]) _
                            eq_refl eq_refl) Hfew _ _) _).
    + repeat constructor. intros [].
    + intros c [<- | []]. left; reflexivity.
    + exists (CStr "LA"). split; [right; left; reflexivity|].
      intros [H | []]. discriminate H.
  - refine (proj1 (proj1 (categorical_filter_selects (RT := reference_runtime) st
                            Examples.people "city"
                            (Examples.ticked [CStr "SF"; CStr "NY"; CStr "LA"]) _
                            eq_refl eq_refl) Hfew _ _) _).
    + repeat constructor; simpl; intuition discriminate.
    + intros c H. simpl in H. vm_compute. intuition.
    + intros c H. vm_compute in H. simpl. intuition.
  - exact (proj1 (proj2 (categorical_filter_selects (RT := reference_runtime) st'
                           Examples.codes "code" (Examples.typed EmptyString) _
                           eq_refl eq_refl) Hmany) eq_refl).
  - refine (proj2 (proj2 (categorical_filter_selects (RT := reference_runtime) st'
                            Examples.codes "code" (Examples.typed "5") _
                            eq_refl eq_refl) Hmany) _ eq_refl _ eq_refl).
    discriminate.
Defined.

(** C7 at the failing inputs.  The search box of the categorical filter is
    described by the code as "contains", but the term goes to str.contains
    as a regular expression.  On a column with 51 distinct values, none of
    which contains a dot or a parenthesis: the term "." keeps every row that
    holds a text, where no row contains it; and the term "(", which is no
    regular expression, raises out of the filter, where a substring search
    would answer with no row. *)
Theorem search_term_read_as_pattern :
  let st := Examples.session Examples.codes in
  let run term :=
    handle_categorical_filter (RT := reference_runtime) Examples.codes "code"
                              (Examples.typed term) st in
  let containing term :=
    rows_where (fun r => cell_contains term (value_at Examples.codes "code" r))
               Examples.codes in
  (exists s0, getitem (original_df (self st)) "code" = Ret s0
              /\ 50 < List.length (unique s0))
  /\ rows (containing ".") = []
  /\ (exists kept,
        run "." = (Ret (kept, true, "code: contains '.'"), st)
        /\ List.length (rows kept) = 51
        /\ kept <> containing ".")
  /\ rows (containing "(") = []
  /\ (exists e, run "(" = (Raise e, st) /\ exn_cls e = ReError).
Proof.
  cbv zeta. split.
  { eexists. split; [reflexivity|]. apply Nat.ltb_lt. reflexivity. }
  split; [reflexivity|]. split.
  { eexists. split; [vm_compute; reflexivity|]. split; [reflexivity|].
    vm_compute. discriminate. }
  split; [reflexivity|].
  eexists. split; [vm_compute; reflexivity|]. reflexivity.
Qed.


(** ** The reference regular expressions on literal patterns *)

Lemma plain_not_special (pat : string) :
  Reference.plain pat = true -> Reference.has_special pat = false.
Proof.
  induction pat as [|c pat IH]; simpl; [reflexivity|].
  intros H. apply andb_true_iff in H. destruct H as [H Hl].
  apply andb_true_iff in H. destruct H as [Hs _].
  apply negb_true_iff in Hs. rewrite Hs. simpl. auto.
Qed.

Lemma plain_match_here (pat : string) :
  Reference.plain pat = true ->
  forall s, Reference.match_here pat s = prefix (PyStr.lower pat) (PyStr.lower s).
Proof.
  induction pat as [|c pat IH]; simpl; intros H s.
  - destruct s; reflexivity.
  - apply andb_true_iff in H. destruct H as [H Hl].
    apply andb_true_iff in H. destruct H as [_ Hdot].
    apply negb_true_iff in Hdot.
    destruct s as [|a s]; simpl; [reflexivity|].
    unfold Reference.char_matches. rewrite Hdot.
    destruct (ascii_dec (PyStr.lower_char c) (PyStr.lower_char a)) as [E|N].
    + rewrite E, Ascii.eqb_refl. simpl. apply IH. exact Hl.
    + apply Ascii.eqb_neq in N. rewrite N. reflexivity.
Qed.

Lemma plain_search (pat : string) :
  Reference.plain pat = true ->
  forall s, Reference.search pat s = contains_ignorecase pat s.
Proof.
  intros H s. unfold contains_ignorecase.
  induction s as [|a s IH]; simpl.
  - rewrite (plain_match_here pat H EmptyString). reflexivity.
  - rewrite (plain_match_here pat H (String a s)). simpl. rewrite IH. reflexivity.
Qed.

(** With the reference runtime, a search term of ordinary characters keeps
    the rows that contain it, letter case ignored. *)
Lemma plain_term_searches_substring (st : world) (df : DataFrame) (col : string)
    (w : column_widgets) (s0 : Series) :
  getitem (original_df (self st)) col = Ret s0 ->
  searchable df col = true ->
  50 < List.length (unique s0) ->
  search_term w <> EmptyString ->
  Reference.plain (search_term w) = true ->
  handle_categorical_filter (RT := reference_runtime) df col w st =
    (Ret (rows_where (fun r => cell_contains (search_term w) (value_at df col r)) df,
          true, col ^^ ": contains '" ^^ search_term w ^^ "'"),
     st).
Proof.
  intros G0 Htext Hmany Hterm Hlit.
  rewrite (categorical_search_runs (RT := reference_runtime) st df col w s0
             (Reference.search (search_term w)) G0 Htext Hmany Hterm).
  - unfold rows_where.
    rewrite (filter_ext _ (fun r => cell_contains (search_term w) (value_at df col r)));
      [reflexivity|].
    intros r. unfold cell_matches, cell_contains.
    destruct (value_at df col r); try reflexivity.
    apply plain_search. exact Hlit.
  - simpl. unfold Reference.re_compile_ignorecase.
    rewrite (plain_not_special _ Hlit). reflexivity.
Qed.

(** ** Columns without a branch *)

(** When the first column selected has a dtype without a branch,
    [_simple_filters] reads [col_filtered] before anything bound it. *)
Lemma unhandled_dtype_raises {RT : Runtime} (st : world) (sw : simple_widgets)
    (col : string) (rest : list string) (s0 : Series) :
  filter_columns sw = col :: rest ->
  getitem (original_df (self st)) col = Ret s0 ->
  has_branch (s_dtype s0) = false ->
  simple_filters sw st =
    (Raise (Exn UnboundLocalError
                "local variable 'col_filtered' referenced before assignment"), st).
Proof.
  intros Hcols G0 Hd.
  unfold simple_filters, bind, get_original. rewrite Hcols. simpl.
  unfold bind at 1. unfold simple_filters_step at 1, bind, get_original, lift.
  simpl. rewrite G0.
  destruct (s_dtype s0); try discriminate Hd; reflexivity.
Qed.

(** C4 at the failing inputs.  An int32 column (the Month of the demo time
    series) or a bool column is none of object, category, int64, float64 or
    datetime: no branch of the dispatch binds [col_filtered], and reading it
    raises UnboundLocalError out of [_simple_filters] and out of
    [render_filter_ui]. *)
Theorem simple_filter_on_other_dtype_raises (RT : Runtime) :
  let unbound :=
    Exn UnboundLocalError "local variable 'col_filtered' referenced before assignment" in
  let on_month := mkSimpleWidgets ["Month"] (fun _ => Examples.no_choice) in
  let on_subscribed := mkSimpleWidgets ["subscribed"] (fun _ => Examples.no_choice) in
  let st := Examples.session Examples.time_series in
  let st' := Examples.session Examples.people in
  column_dtype Examples.time_series "Month" = Some Int32
  /\ simple_filters on_month st = (Raise unbound, st)
  /\ render_filter_ui [("Time Series", Examples.time_series)]
                      (mkWidgets SimpleFilters on_month Examples.no_query Examples.no_join)
                      st
     = (Raise unbound, st)
  /\ column_dtype Examples.people "subscribed" = Some Bool
  /\ simple_filters on_subscribed st' = (Raise unbound, st').
Proof. repeat split. Qed.

Lemma truthy_ne (s : string) : s <> EmptyString -> PyStr.truthy s = true.
Proof. destruct s; simpl; congruence. Qed.

Section Join.
Context {RT : Runtime}.

(** Up to the button, a join request only writes the message about the
    key dtypes. *)
Lemma join_request_runs (st : world) (datasets : pool) (w : join_widgets)
    (left_df right_df : DataFrame) (ls rs : Series) :
  join_request datasets w left_df right_df ls rs ->
  join_datasets datasets w st =
    try_except
      (join_attempt w left_df right_df (dtype_str (s_dtype ls)) (dtype_str (s_dtype rs))
                    (String.eqb (dtype_str (s_dtype ls)) (dtype_str (s_dtype rs))))
      join_failed
      (say st (compatibility_message ls rs)).
Proof.
  intros (Hn & Hl & Hr & Hlk & Hrk & Gl & Gr & Kl & Kr & Hb).
  unfold join_datasets. rewrite length_map.
  destruct (Nat.ltb_spec (List.length datasets) 2) as [Hlt|_]; [lia|].
  rewrite (truthy_ne _ Hl), (truthy_ne _ Hr). simpl.
  unfold bind at 1, lift at 1. rewrite Gl.
  unfold bind at 1, lift at 1. rewrite Gr.
  rewrite (truthy_ne _ Hlk), (truthy_ne _ Hrk). simpl.
  unfold bind at 1, lift at 1. rewrite Kl.
  unfold bind at 1, lift at 1. rewrite Kr.
  rewrite Hb. unfold bind at 1, compatibility_message.
  destruct (String.eqb (dtype_str (s_dtype ls)) (dtype_str (s_dtype rs))); reflexivity.
Qed.

(** C5, amended.  For a join request whose key columns have different
    dtypes, with auto-fix declined: the merge is attempted on the keys as
    they are, and when the merge raises, the join is blocked: the error is
    written to the page (after the warning about the mismatch), the
    original frame is returned with applied False, and the session
    (original frame, filtered frame and metadata) is as it was. *)
Theorem mismatched_join_without_fix (st : world) (datasets : pool) (w : join_widgets)
    (left_df right_df : DataFrame) (ls rs : Series) (e : exn) :
  join_request datasets w left_df right_df ls rs ->
  dtype_str (s_dtype ls) <> dtype_str (s_dtype rs) ->
  auto_fix w = false ->
  pd_merge left_df right_df (left_key w) (right_key w) (join_type w) = Raise e ->
  join_datasets datasets w st =
    (Ret (original_df (self st), false, []),
     mkWorld (self st)
             (page st ++ St LWarning (TypeMismatch (dtype_str (s_dtype ls))
                                                  (dtype_str (s_dtype rs)))
                      :: join_failure_report e)).
Proof.
  intros Hreq Hne Hfix Hmerge.
  rewrite (join_request_runs st datasets w left_df right_df ls rs Hreq).
  unfold compatibility_message. apply String.eqb_neq in Hne. rewrite Hne.
  unfold try_except, join_attempt, prepare_keys. rewrite Hfix. simpl.
  unfold bind at 1, ret at 1, lift. simpl. rewrite Hmerge.
  unfold join_failed, join_failure_report, return_original, bind, st_error, st_info,
    emit, get_original, ret. simpl.
  destruct (PyStr.contains "dtype" (PyStr.lower (exn_msg e))); simpl;
    rewrite <- ?app_assoc; reflexivity.
Qed.

(** A join whose merge succeeds, on tables that are not both empty. *)
Lemma join_replaces_original (st st2 : world) (datasets : pool) (w : join_widgets)
    (left_df right_df : DataFrame) (ls rs : Series) (prep : DataFrame * DataFrame)
    (joined : DataFrame) :
  join_request datasets w left_df right_df ls rs ->
  prepare_keys w left_df right_df (dtype_str (s_dtype ls)) (dtype_str (s_dtype rs))
               (String.eqb (dtype_str (s_dtype ls)) (dtype_str (s_dtype rs)))
               (say st (compatibility_message ls rs)) = (Ret prep, st2) ->
  pd_merge (fst prep) (snd prep) (left_key w) (right_key w) (join_type w) = Ret joined ->
  0 < Nat.max (len left_df) (len right_df) ->
  join_datasets datasets w st =
    (Ret (joined, true, [join_description w]),
     mkWorld (mkDataFilter joined (filtered_df (self st2)) (filter_info (self st2)))
             (page st2)).
Proof.
  intros Hreq Hprep Hmerge Hrows.
  rewrite (join_request_runs st datasets w left_df right_df ls rs Hreq).
  unfold try_except, join_attempt. unfold bind at 1. rewrite Hprep.
  unfold bind at 1, lift. rewrite Hmerge.
  unfold bind at 1, efficiency.
  destruct (Nat.eqb_spec (Nat.max (len left_df) (len right_df)) 0) as [Hz|_]; [lia|].
  reflexivity.
Qed.

(** A join whose merge succeeds on two tables without rows. *)
Lemma empty_tables_divide_by_zero (st st2 : world) (datasets : pool) (w : join_widgets)
    (left_df right_df : DataFrame) (ls rs : Series) (prep : DataFrame * DataFrame)
    (joined : DataFrame) :
  join_request datasets w left_df right_df ls rs ->
  prepare_keys w left_df right_df (dtype_str (s_dtype ls)) (dtype_str (s_dtype rs))
               (String.eqb (dtype_str (s_dtype ls)) (dtype_str (s_dtype rs)))
               (say st (compatibility_message ls rs)) = (Ret prep, st2) ->
  pd_merge (fst prep) (snd prep) (left_key w) (right_key w) (join_type w) = Ret joined ->
  len left_df = 0 -> len right_df = 0 ->
  join_datasets datasets w st =
    (Ret (original_df (self st2), false, []),
     mkWorld (self st2)
             (page st2 ++ [St LError (JoinFailed (Exn ZeroDivisionError "division by zero"))])).
Proof.
  intros Hreq Hprep Hmerge Hl Hr.
  rewrite (join_request_runs st datasets w left_df right_df ls rs Hreq).
  unfold try_except, join_attempt. unfold bind at 1. rewrite Hprep.
  unfold bind at 1, lift. rewrite Hmerge.
  unfold bind at 1, efficiency. rewrite Hl, Hr. reflexivity.
Qed.

(** After a join that succeeded on a non-empty result, the metadata is
    that of a join. *)
Lemma render_join_metadata (st st' : world) (datasets : pool)
    (w : widgets) (joined : DataFrame) (details : list string) :
  1 < List.length datasets ->
  radio w = JoinDatasets ->
  join_datasets datasets (join w) st = (Ret (joined, true, details), st') ->
  original_df (self st') = joined ->
  0 < len joined ->
  render_filter_ui datasets w st =
    (Ret (joined, true),
     mkWorld (mkDataFilter joined joined
                (mkInfo true (Some JoinDatasets) (len joined) (len joined) details))
             (page st' ++ [St LInfo (Filtered (len joined))])).
Proof.
  intros Hn Hradio Hjoin Horig Hrows.
  unfold render_filter_ui.
  destruct (Nat.ltb_spec 1 (List.length datasets)) as [_|Hle]; [|lia].
  rewrite Hradio. simpl. unfold bind at 1. rewrite Hjoin.
  unfold bind, set_filtered, get_original, set_filter_info, st_info, emit, ret. simpl.
  rewrite Horig.
  destruct (Nat.eqb_spec (len joined) 0) as [Hz|_]; [lia|]. reflexivity.
Qed.

End Join.

Lemma mismatched_join_without_fix_witness :
  let st := Examples.session Examples.orders in
  join_datasets (RT := reference_runtime)
                [("orders", Examples.orders); ("customers", Examples.customers_text)]
                (Examples.join_on_customer false) st
  = (Ret (Examples.orders, false, []),
     mkWorld (self st)
       [St LWarning (TypeMismatch "int64" "object");
        St LError (JoinFailed (Exn ValueError
          "You are trying to merge on int64 and object columns for key 'customer_id'. If you wish to proceed you should use pd.concat"))]).
Proof.
  refine (mismatched_join_without_fix (RT := reference_runtime)
            (Examples.session Examples.orders)
            [("orders", Examples.orders); ("customers", Examples.customers_text)]
            (Examples.join_on_customer false) Examples.orders Examples.customers_text
            (mkSeries Int64 (map (cell_at 0) (rows Examples.orders)))
            (mkSeries Object (map (cell_at 0) (rows Examples.customers_text)))
            _ _ _ eq_refl eq_refl).
  - unfold join_request. simpl.
    repeat (split; [first [reflexivity | discriminate | apply le_n]|]). reflexivity.
  - discriminate.
Defined.

(** C5 as stated fails: a mismatch that the merge accepts is not blocked.
    With an int64 key on the left, a float64 key on the right and auto-fix
    declined, the join is applied and replaces the original frame. *)
Lemma mismatched_join_goes_through :
  let datasets := [("orders", Examples.orders); ("customers", Examples.customers_float)] in
  let w := Examples.join_on_customer false in
  let st := Examples.session Examples.orders in
  column_dtype Examples.orders (left_key w) = Some Int64
  /\ column_dtype Examples.customers_float (right_key w) = Some Float64
  /\ dtype_str Int64 <> dtype_str Float64
  /\ auto_fix w = false
  /\ exists joined st',
       join_datasets (RT := reference_runtime) datasets w st
         = (Ret (joined, true, [join_description w]), st')
       /\ original_df (self st') = joined
       /\ original_df (self st') <> original_df (self st).
Proof.
  cbv zeta. repeat (split; [first [reflexivity | discriminate]|]).
  eexists. eexists. split; [vm_compute; reflexivity|].
  split; [reflexivity|]. discriminate.
Qed.

(** C3 at the failing input.  Two tables with a header and no rows: the
    merge completes without error, then the efficiency metric divides by
    max(0, 0); the [except] reports the join as failed, the original frame
    is not replaced and applied is False. *)
Theorem join_of_empty_tables_reported_failed :
  let datasets := [("orders", Examples.no_orders); ("customers", Examples.no_customers)] in
  let w := Examples.join_on_customer false in
  let st := Examples.session Examples.no_orders in
  pd_merge (Runtime := reference_runtime) Examples.no_orders Examples.no_customers
           "customer_id" "id" Inner
    = Ret (mkDF [("customer_id", Object); ("amount", Object); ("id", Object);
                 ("name", Object)] [])
  /\ join_datasets (RT := reference_runtime) datasets w st
     = (Ret (Examples.no_orders, false, []),
        mkWorld (self st)
                [St LSuccess (CompatibleTypes "object");
                 St LError (JoinFailed (Exn ZeroDivisionError "division by zero"))]).
Proof. split; reflexivity. Qed.

(** The join of the examples: three orders of two customers. *)
Lemma render_join_example :
  let datasets := [("orders", Examples.orders); ("customers", Examples.customers)] in
  let w := mkWidgets JoinDatasets Examples.no_simple Examples.no_query
                     (Examples.join_on_customer false) in
  let run := render_filter_ui (RT := reference_runtime) datasets w
                              (Examples.session Examples.orders) in
  exists joined,
    fst run = Ret (joined, true)
    /\ original_df (self (snd run)) = joined
    /\ filtered_df (self (snd run)) = joined
    /\ filter_info (self (snd run))
       = mkInfo true (Some JoinDatasets) 3 3
                ["Joined orders + customers on customer_id/id"].
Proof. eexists. vm_compute. repeat split. Qed.

(** An inner join without a matching key succeeds with no rows; the
    percentage [render_filter_ui] then computes divides by the new
    original's length. *)
Lemma render_after_empty_join_raises :
  let datasets := [("orders", Examples.orders); ("customers", Examples.strangers)] in
  let w := mkWidgets JoinDatasets Examples.no_simple Examples.no_query
                     (Examples.join_on_customer false) in
  let st := Examples.session Examples.orders in
  (exists joined st',
     join_datasets (RT := reference_runtime) datasets (join w) st
       = (Ret (joined, true, [join_description (join w)]), st')
     /\ len joined = 0)
  /\ fst (render_filter_ui (RT := reference_runtime) datasets w st)
     = Raise (Exn ZeroDivisionError "division by zero").
Proof.
  cbv zeta. split; [|reflexivity].
  eexists. eexists. split; [vm_compute; reflexivity|reflexivity].
Qed.


(** ** The page *)

Lemma queries_run_say_St (st : world) (l : level) (m : message) :
  queries_run (say st (St l m)) = queries_run st.
Proof.
  unfold queries_run, say. simpl. rewrite filter_app. simpl.
  rewrite app_nil_r. reflexivity.
Qed.

Lemma queries_run_app (s : DataFilter) (evs more : list event) :
  queries_run (mkWorld s (evs ++ more)) =
  queries_run (mkWorld s evs) + List.length (filter is_query more).
Proof. unfold queries_run. simpl. rewrite filter_app, length_app. reflexivity. Qed.

Lemma col_index_In (col : string) (cols : list (string * dtype)) :
  In col (map fst cols) -> exists i d, col_index col cols = Some (i, d).
Proof.
  induction cols as [|[c d] cols IH]; simpl; [intros []|].
  intros H. destruct (String.eqb_spec c col) as [->|Hne]; [eauto|].
  destruct H as [H|H]; [contradiction|].
  destruct (IH H) as [i [d' ->]]. eauto.
Qed.

Lemma getitem_offered (df : DataFrame) (col : string) :
  In col (column_names df) -> exists s, getitem df col = Ret s.
Proof.
  intros H. destruct (col_index_In col (columns df) H) as [i [d E]].
  unfold getitem. rewrite E. eauto.
Qed.

Section Query.
Context {RT : Runtime}.

(** One turn of the loop leaves the session alone and evaluates nothing. *)
Lemma query_builder_step_quiet (nc cc : list string) (n i : nat)
    (c : condition_widgets) (parts : list string) (st st' : world)
    (o : outcome (list string)) :
  query_builder_step nc cc n i c parts st = (o, st') ->
  self st' = self st /\ queries_run st' = queries_run st.
Proof.
  unfold query_builder_step, bind, get_original, lift, st_info, emit, ret.
  destruct (PyStr.truthy (q_column c) && string_in (q_column c) nc).
  { destruct (i <? n - 1)%nat; [destruct (0 <? _)%nat|];
      intros H; injection H as <- <-; auto. }
  destruct (PyStr.truthy (q_column c) && string_in (q_column c) cc).
  { destruct (PyStr.truthy (q_text c));
      (destruct (i <? n - 1)%nat; [destruct (0 <? _)%nat|]);
      intros H; injection H as <- <-; auto. }
  destruct (PyStr.truthy (q_column c)).
  - destruct (getitem (original_df (self st)) (q_column c)) as [s|e].
    + simpl. destruct (PyStr.truthy (q_text c));
        (destruct (i <? n - 1)%nat; [destruct (0 <? _)%nat|]);
        intros H; injection H as <- <-; split; try reflexivity;
        apply (queries_run_say_St st).
    + intros H; injection H as <- <-; auto.
  - simpl. destruct (PyStr.truthy (q_text c));
      (destruct (i <? n - 1)%nat; [destruct (0 <? _)%nat|]);
      intros H; injection H as <- <-; split; try reflexivity;
      apply (queries_run_say_St st).
Qed.

Lemma query_builder_loop_quiet (nc cc : list string) (n : nat)
    (cs : list condition_widgets) :
  forall (i : nat) (parts : list string) (st st' : world) (o : outcome (list string)),
  query_builder_loop nc cc n i cs parts st = (o, st') ->
  self st' = self st /\ queries_run st' = queries_run st.
Proof.
  induction cs as [|c cs IH]; simpl; intros i parts st st' o H.
  - injection H as <- <-. auto.
  - unfold bind in H.
    destruct (query_builder_step nc cc n i c parts st) as [[parts1|e] st1] eqn:E;
      apply query_builder_step_quiet in E; destruct E as [E1 E2].
    + apply IH in H. destruct H as [H1 H2]. split; congruence.
    + injection H as <- <-. auto.
Qed.

Lemma df_empty_columns (df : DataFrame) :
  df_empty df = false -> column_names df <> [].
Proof.
  unfold df_empty, column_names. destruct (columns df); [discriminate|].
  simpl. discriminate.
Qed.

(** C6. When the query builder has assembled a non-blank expression and
    the button is pressed, the expression is evaluated once, against the
    session's original frame.  If the evaluation raises, the error is
    written to the page, nothing is raised to the caller, and the original
    frame is returned with applied False; if it succeeds, its result is
    returned with applied True.  The session is not modified. *)
Theorem query_evaluated_once (st st1 : world) (w : query_widgets)
    (parts : list string) :
  let original := original_df (self st) in
  let q := final_query parts in
  df_empty original = false ->
  assemble original w st = (Ret parts, st1) ->
  parts <> [] ->
  PyStr.strip_truthy q = true ->
  apply_query w = true ->
  query_builder w st =
    match df_query original q with
    | Ret filtered =>
        (Ret (filtered, true, ["Safe Query: " ^^ q]),
         mkWorld (self st)
                 (page st1 ++ [Query original q;
                               St LSuccess (QueryApplied (len filtered))]))
    | Raise e =>
        (Ret (original, false, []),
         mkWorld (self st)
                 (page st1 ++ [Query original q; St LError (QueryError e);
                               St LInfo TryAdjusting]))
    end
  /\ queries_run (snd (query_builder w st)) = S (queries_run st).
Proof.
  intros original q Hdata Hloop Hparts Hq Hbutton.
  destruct (query_builder_loop_quiet _ _ _ _ _ _ _ _ _ Hloop) as [Hself Hruns].
  assert (Hrun : query_builder w st =
                 try_except (run_query q) query_failed st1).
  { unfold query_builder. unfold bind at 1, get_original at 1. fold original.
    rewrite Hdata. pose proof (df_empty_columns original Hdata) as Hcols.
    destruct (column_names original) as [|c0 cols]; [contradiction|].
    unfold bind at 1. unfold assemble in Hloop. rewrite Hloop.
    destruct parts as [|p ps]; [contradiction|].
    fold q. rewrite Hq, Hbutton. reflexivity. }
  rewrite Hrun.
  unfold try_except, run_query, query_failed, return_original, bind, get_original,
    emit, st_success, st_error, st_info, emit, lift, ret. simpl.
  rewrite Hself. fold original.
  destruct (df_query original q) as [filtered|e]; simpl;
    rewrite <- ?app_assoc; simpl; (split; [reflexivity|]).
  - rewrite <- Hself, queries_run_app. simpl.
    change (queries_run {| self := self st1; page := page st1 |}) with (queries_run st1).
    lia.
  - rewrite <- Hself, queries_run_app. simpl.
    change (queries_run {| self := self st1; page := page st1 |}) with (queries_run st1).
    lia.
Qed.

(** A dropped condition adds nothing to an empty list of parts. *)
Lemma dropped_step (st : world) (n i : nat) (c : condition_widgets) :
  let original := original_df (self st) in
  column_offered original c ->
  dropped original c = true ->
  exists st',
    query_builder_step (select_dtypes is_number_dtype original)
                       (select_dtypes is_categorical_dtype original) n i c [] st
    = (Ret [], st').
Proof.
  intros original Hcol Hdrop. unfold dropped in Hdrop.
  apply andb_true_iff in Hdrop. destruct Hdrop as [Hnum Htext].
  apply negb_true_iff in Hnum. apply negb_true_iff in Htext.
  unfold query_builder_step, bind, get_original, lift, st_info, emit, ret.
  fold original. rewrite Hnum, Htext.
  destruct (PyStr.truthy (q_column c)
            && string_in (q_column c) (select_dtypes is_categorical_dtype original)).
  { simpl. destruct (i <? n - 1)%nat; eauto. }
  destruct (PyStr.truthy (q_column c)).
  - destruct (getitem_offered original (q_column c) Hcol) as [s G].
    unfold original in G. cbv beta iota. rewrite G. simpl.
    destruct (i <? n - 1)%nat; eauto.
  - simpl. destruct (i <? n - 1)%nat; eauto.
Qed.

(** A dropped condition that is not the last one still appends its
    connective when earlier parts exist. *)
Lemma dropped_condition_keeps_connective (st : world) (n i : nat)
    (c : condition_widgets) (parts : list string) :
  let original := original_df (self st) in
  column_offered original c ->
  dropped original c = true ->
  parts <> [] ->
  i < n - 1 ->
  exists st',
    query_builder_step (select_dtypes is_number_dtype original)
                       (select_dtypes is_categorical_dtype original) n i c parts st
    = (Ret (parts ++ [q_logic c]), st').
Proof.
  intros original Hcol Hdrop Hparts Hi. unfold dropped in Hdrop.
  apply andb_true_iff in Hdrop. destruct Hdrop as [Hnum Htext].
  apply negb_true_iff in Hnum. apply negb_true_iff in Htext.
  assert (Hlen : (0 <? List.length parts)%nat = true).
  { apply Nat.ltb_lt. destruct parts; [contradiction|simpl; lia]. }
  apply Nat.ltb_lt in Hi.
  unfold query_builder_step, bind, get_original, lift, st_info, emit, ret.
  fold original. rewrite Hnum, Htext.
  destruct (PyStr.truthy (q_column c)
            && string_in (q_column c) (select_dtypes is_categorical_dtype original)).
  { simpl. rewrite Hi, Hlen. eauto. }
  destruct (PyStr.truthy (q_column c)).
  - destruct (getitem_offered original (q_column c) Hcol) as [s G].
    unfold original in G. cbv beta iota. rewrite G. simpl.
    rewrite Hi, Hlen. eauto.
  - simpl. rewrite Hi, Hlen. eauto.
Qed.

Lemma dropped_loop (n : nat) (cs : list condition_widgets) :
  forall (i : nat) (st : world),
  let original := original_df (self st) in
  Forall (fun c => column_offered original c /\ dropped original c = true) cs ->
  exists st',
    query_builder_loop (select_dtypes is_number_dtype original)
                       (select_dtypes is_categorical_dtype original) n i cs [] st
    = (Ret [], st').
Proof.
  induction cs as [|c cs IH]; simpl; intros i st Hall.
  - eexists. reflexivity.
  - inversion Hall as [|c' cs' [Hcol Hdrop] Hrest]; subst.
    destruct (dropped_step st n i c Hcol Hdrop) as [st1 E].
    unfold bind. rewrite E.
    destruct (query_builder_step_quiet _ _ _ _ _ _ _ _ _ E) as [Hself _].
    specialize (IH (S i) st1). rewrite Hself in IH. apply IH. exact Hrest.
Qed.

(** When every condition is dropped, no query is run and nothing is applied. *)
Lemma all_dropped_not_applied (st : world) (w : query_widgets) :
  let original := original_df (self st) in
  df_empty original = false ->
  Forall (fun c => column_offered original c /\ dropped original c = true)
         (conditions w) ->
  fst (query_builder w st) = Ret (original, false, []) /\
  self (snd (query_builder w st)) = self st /\
  queries_run (snd (query_builder w st)) = queries_run st.
Proof.
  intros original Hdata Hall.
  destruct (dropped_loop (List.length (conditions w)) (conditions w) 0 st Hall)
    as [st1 Hloop].
  destruct (query_builder_loop_quiet _ _ _ _ _ _ _ _ _ Hloop) as [Hself Hruns].
  assert (Hrun : query_builder w st = (Ret (original, false, []), st1)).
  { unfold query_builder. unfold bind at 1, get_original at 1. fold original.
    rewrite Hdata. pose proof (df_empty_columns original Hdata) as Hcols.
    destruct (column_names original) as [|c0 cols]; [contradiction|].
    unfold bind at 1. fold original in Hloop. rewrite Hloop.
    unfold return_original, bind, get_original, ret. simpl.
    rewrite Hself. reflexivity. }
  rewrite Hrun. simpl. auto.
Qed.

End Query.

Lemma query_evaluated_once_witness :
  let st := Examples.session Examples.people in
  query_builder (RT := reference_runtime) Examples.middle_empty st
  = (Ret (Examples.people, false, []),
     mkWorld (self st)
             [Query Examples.people "`city` == 'NY' and or `city` == 'LA'";
              St LError (QueryError (Exn SyntaxError "invalid syntax"));
              St LInfo TryAdjusting])
  /\ queries_run (snd (query_builder (RT := reference_runtime) Examples.middle_empty st)) = 1.
Proof.
  refine (query_evaluated_once (RT := reference_runtime)
            (Examples.session Examples.people) _ Examples.middle_empty _
            eq_refl eq_refl _ eq_refl eq_refl).
  discriminate.
Defined.

(** C2 at the failing inputs.  Three text conditions on people: when the
    middle one is empty its connective stays behind the first one's, and the
    expression reads "and or"; when the last two are empty, two connectives
    trail and only one is removed. *)
Theorem dropped_condition_leaves_connective (RT : Runtime) :
  let st := Examples.session Examples.people in
  assemble Examples.people Examples.middle_empty st
    = (Ret ["`city` == 'NY'"; "and"; "or"; "`city` == 'LA'"], st)
  /\ final_query ["`city` == 'NY'"; "and"; "or"; "`city` == 'LA'"]
     = "`city` == 'NY' and or `city` == 'LA'"
  /\ well_joined (pop_trailing_logic ["`city` == 'NY'"; "and"; "or"; "`city` == 'LA'"])
     = false
  /\ assemble Examples.people Examples.last_two_empty st
     = (Ret ["`city` == 'NY'"; "and"; "or"], st)
  /\ final_query ["`city` == 'NY'"; "and"; "or"] = "`city` == 'NY' and"
  /\ well_joined (pop_trailing_logic ["`city` == 'NY'"; "and"; "or"]) = false.
Proof. repeat split. Qed.

(** * Further properties *)

(** ** The datetime filter *)

Lemma datetime_column_getitem (df : DataFrame) (col : string) :
  datetime_column df col = true ->
  exists s, getitem df col = Ret s /\
            Forall (fun c => is_timestamp c = true) (s_values s).
Proof.
  unfold datetime_column. intros H.
  destruct (getitem df col) as [s|e] eqn:G.
  - exists s. split; [reflexivity|].
    rewrite (getitem_value_at _ _ _ G).
    unfold getitem in G. destruct (col_index col (columns df)); [|discriminate].
    rewrite forallb_forall in H. apply Forall_forall. intros c Hc.
    apply in_map_iff in Hc. destruct Hc as [r [<- Hr]]. auto.
  - unfold getitem in G. destruct (col_index col (columns df)) as [[i d]|]; discriminate.
Qed.

(** The timestamps of a datetime column. *)
Lemma datetime_column_stamps (df : DataFrame) (col : string) :
  datetime_column df col = true ->
  exists s, getitem df col = Ret s /\
            omap cell_timestamp (s_values s)
            = Ret (map (fun r => stamp (value_at df col r)) (rows df)).
Proof.
  intros H. destruct (datetime_column_getitem df col H) as [s [G T]].
  exists s. split; [exact G|].
  rewrite (getitem_value_at _ _ _ G) in *.
  rewrite <- (map_map (value_at df col) stamp).
  apply omap_total. eapply Forall_impl; [|exact T].
  intros c Hc. destruct c; try discriminate. reflexivity.
Qed.

Lemma date_of_le (a b : Z) : (a <= b)%Z -> (date_of a <= date_of b)%Z.
Proof. intros H. unfold date_of. apply Z.div_le_mono; [reflexivity|exact H]. Qed.

(** The fold of [min()] over the timestamps: from [Some a] it ends on the
    least of [a] and the timestamps. *)
Lemma fold_opt_min_some (ts : list (option Z)) :
  forall a : Z,
  exists m,
    fold_left (fun acc t => match t with Some x => opt_min acc x | None => acc end)
              ts (Some a) = Some m
    /\ (m <= a)%Z /\ (m = a \/ In (Some m) ts)
    /\ forall x, In (Some x) ts -> (m <= x)%Z.
Proof.
  induction ts as [|[x|] ts IH]; intros a; simpl.
  - exists a. split; [reflexivity|]. split; [lia|]. split; [auto|]. intros x [].
  - destruct (IH (Z.min a x)) as [m [E [Hle [Hin Hall]]]]. exists m.
    split; [exact E|]. split; [lia|]. split.
    + destruct Hin as [->|Hin]; [|auto].
      destruct (Z.min_spec a x) as [[_ ->]|[_ ->]]; auto.
    + intros y [Hy|Hy]; [injection Hy as <-; lia|auto].
  - destruct (IH a) as [m [E [Hle [Hin Hall]]]]. exists m.
    split; [exact E|]. split; [exact Hle|]. split; [tauto|].
    intros y [Hy|Hy]; [discriminate|auto].
Qed.

Lemma fold_opt_max_some (ts : list (option Z)) :
  forall a : Z,
  exists m,
    fold_left (fun acc t => match t with Some x => opt_max acc x | None => acc end)
              ts (Some a) = Some m
    /\ (a <= m)%Z /\ (m = a \/ In (Some m) ts)
    /\ forall x, In (Some x) ts -> (x <= m)%Z.
Proof.
  induction ts as [|[x|] ts IH]; intros a; simpl.
  - exists a. split; [reflexivity|]. split; [lia|]. split; [auto|]. intros x [].
  - destruct (IH (Z.max a x)) as [m [E [Hle [Hin Hall]]]]. exists m.
    split; [exact E|]. split; [lia|]. split.
    + destruct Hin as [->|Hin]; [|auto].
      destruct (Z.max_spec a x) as [[_ ->]|[_ ->]]; auto.
    + intros y [Hy|Hy]; [injection Hy as <-; lia|auto].
  - destruct (IH a) as [m [E [Hle [Hin Hall]]]]. exists m.
    split; [exact E|]. split; [exact Hle|]. split; [tauto|].
    intros y [Hy|Hy]; [discriminate|auto].
Qed.

Lemma days_of_In (ts : list (option Z)) (d : Z) :
  In d (days_of ts) <-> exists x, In (Some x) ts /\ d = date_of x.
Proof.
  unfold days_of. rewrite in_flat_map. split.
  - intros [[x|] [Hin Hd]]; simpl in Hd; [|contradiction].
    destruct Hd as [<-|[]]. eauto.
  - intros [x [Hin ->]]. exists (Some x). simpl. auto.
Qed.

(** [min()] over the timestamps: NaT when there is no day, and otherwise a
    timestamp whose day is the first of the days. *)
Lemma fold_min_first_day (ts : list (option Z)) :
  match fold_some opt_min ts with
  | None => days_of ts = []
  | Some m => days_of ts <> []
              /\ forall d, Z.eqb d (date_of m) = is_first_day d (days_of ts)
  end.
Proof.
  unfold fold_some. induction ts as [|[x|] ts IH]; simpl; [reflexivity| |exact IH].
  destruct (fold_opt_min_some ts x) as [m [-> [Hle [Hin Hall]]]].
  split; [discriminate|]. intros d.
  assert (Hm : In (date_of m) (date_of x :: days_of ts)).
  { destruct Hin as [->|Hin]; [left; reflexivity|].
    right. apply days_of_In. eauto. }
  assert (Hlow : forall y, In y (date_of x :: days_of ts) -> (date_of m <= y)%Z).
  { intros y [<-|Hy]; [apply date_of_le; exact Hle|].
    apply days_of_In in Hy. destruct Hy as [z [Hz ->]]. apply date_of_le. auto. }
  unfold is_first_day.
  change (days_of (Some x :: ts)) with (date_of x :: days_of ts).
  destruct (Z.eqb_spec d (date_of m)) as [->|Hne]; symmetry.
  - apply andb_true_iff. split.
    + apply existsb_exists. exists (date_of m). split; [exact Hm|apply Z.eqb_refl].
    + apply forallb_forall. intros y Hy. apply Z.leb_le. auto.
  - apply not_true_is_false. intros H. apply andb_true_iff in H. destruct H as [Hex Hfa].
    apply existsb_exists in Hex. destruct Hex as [y [Hy Hdy]].
    apply Z.eqb_eq in Hdy. subst y.
    rewrite forallb_forall in Hfa. pose proof (Hfa _ Hm) as H1. apply Z.leb_le in H1.
    pose proof (Hlow _ Hy). lia.
Qed.

Lemma fold_max_last_day (ts : list (option Z)) :
  match fold_some opt_max ts with
  | None => days_of ts = []
  | Some m => days_of ts <> []
              /\ forall d, Z.eqb d (date_of m) = is_last_day d (days_of ts)
  end.
Proof.
  unfold fold_some. induction ts as [|[x|] ts IH]; simpl; [reflexivity| |exact IH].
  destruct (fold_opt_max_some ts x) as [m [-> [Hle [Hin Hall]]]].
  split; [discriminate|]. intros d.
  assert (Hm : In (date_of m) (date_of x :: days_of ts)).
  { destruct Hin as [->|Hin]; [left; reflexivity|].
    right. apply days_of_In. eauto. }
  assert (Hhigh : forall y, In y (date_of x :: days_of ts) -> (y <= date_of m)%Z).
  { intros y [<-|Hy]; [apply date_of_le; exact Hle|].
    apply days_of_In in Hy. destruct Hy as [z [Hz ->]]. apply date_of_le. auto. }
  unfold is_last_day.
  change (days_of (Some x :: ts)) with (date_of x :: days_of ts).
  destruct (Z.eqb_spec d (date_of m)) as [->|Hne]; symmetry.
  - apply andb_true_iff. split.
    + apply existsb_exists. exists (date_of m). split; [exact Hm|apply Z.eqb_refl].
    + apply forallb_forall. intros y Hy. apply Z.leb_le. auto.
  - apply not_true_is_false. intros H. apply andb_true_iff in H. destruct H as [Hex Hfa].
    apply existsb_exists in Hex. destruct Hex as [y [Hy Hdy]].
    apply Z.eqb_eq in Hdy. subst y.
    rewrite forallb_forall in Hfa. pose proof (Hfa _ Hm) as H1. apply Z.leb_le in H1.
    pose proof (Hhigh _ Hy). lia.
Qed.

Lemma forallb_of_map {A B} (f : B -> bool) (g : A -> B) (l : list A) :
  forallb f (map g l) = forallb (fun x => f (g x)) l.
Proof. induction l as [|x l IH]; simpl; [reflexivity|]. rewrite IH. reflexivity. Qed.

(** A mask of dates, when one is computed, tells row by row whether the
    date lies in the range. *)
Lemma series_date_between_mask (s : Series) (start_date end_date : Z)
    (mask : list bool) :
  series_date_between s start_date end_date = Ret mask ->
  mask = map (date_in_range start_date end_date) (s_values s).
Proof.
  unfold series_date_between.
  destruct (omap cell_timestamp (s_values s)) as [ts|e] eqn:E; [|discriminate].
  apply omap_Ret_inv in E. simpl.
  assert (Hmap : map (fun t => match t with
                               | Some x => Z.leb start_date (date_of x)
                                           && Z.leb (date_of x) end_date
                               | None => false
                               end) ts
                 = map (date_in_range start_date end_date) (s_values s)).
  { induction E as [|c t cs ts' Hc _ IH]; simpl; [reflexivity|].
    rewrite IH. f_equal. destruct c; try discriminate Hc.
    simpl in Hc. injection Hc as <-. reflexivity. }
  destruct ts as [|t ts'].
  - intros H. injection H as <-. exact Hmap.
  - destruct (forallb is_nat (t :: ts')); [discriminate|].
    intros H. injection H as <-. exact Hmap.
Qed.

(** The comparison of the dates of a datetime column with two dates. *)
Lemma date_mask (df : DataFrame) (col : string) (start_date end_date : Z) :
  datetime_column df col = true ->
  exists s,
    getitem df col = Ret s /\
    series_date_between s start_date end_date =
      if dates_comparable df col
      then Ret (map (fun r => date_in_range start_date end_date (value_at df col r))
                    (rows df))
      else Raise (Exn TypeError
                      "Invalid comparison between dtype=datetime64[ns] and date").
Proof.
  intros H. destruct (datetime_column_stamps df col H) as [s [G Hts]].
  destruct (datetime_column_getitem df col H) as [s' [G' T]].
  rewrite G in G'. injection G' as <-.
  exists s. split; [exact G|].
  unfold series_date_between. rewrite Hts. simpl. unfold dates_comparable.
  rewrite (getitem_value_at _ _ _ G) in T.
  destruct (rows df) as [|r rs] eqn:Hrows; [reflexivity|].
  rewrite forallb_of_map. simpl map at 1.
  destruct (forallb _ (r :: rs)); simpl negb; cbv iota; [reflexivity|].
  f_equal. rewrite map_map. apply map_ext_in. intros r' Hr'.
  rewrite Forall_forall in T.
  assert (Hc : is_timestamp (value_at df col r') = true).
  { apply T. apply in_map. exact Hr'. }
  destruct (value_at df col r') as [| | | |[t|]|]; try discriminate; reflexivity.
Qed.

(** X1. The date filter, for an original column that holds at least one
    timestamp and an accumulated column that holds timestamps or NaT.  With
    anything but two dates picked the filter is a no-op, and so it is with
    two dates that are the first and the last day of the original column.
    With two other dates it returns exactly the rows of the frame passed in
    whose date lies in start .. end, both ends included, a missing timestamp
    being dropped, with applied True and the description of the range;
    unless the frame passed in has rows and nothing but NaT in the column,
    in which case the comparison raises TypeError.  Nothing is written to
    the page. *)
Theorem datetime_filter_range {RT : Runtime} (st : world) (df : DataFrame)
    (col : string) (w : column_widgets) :
  let original := original_df (self st) in
  let days := column_days original col in
  datetime_column original col = true ->
  days <> [] ->
  datetime_column df col = true ->
  handle_datetime_filter df col w st =
    match date_range w with
    | [start_date; end_date] =>
        if is_first_day start_date days && is_last_day end_date days
        then (Ret (df, false, EmptyString), st)
        else if dates_comparable df col
        then (Ret (rows_where (fun r => date_in_range start_date end_date
                                                      (value_at df col r)) df,
                   true, col ^^ ": " ^^ date_str start_date ^^ " to "
                             ^^ date_str end_date),
              st)
        else (Raise (Exn TypeError
                         "Invalid comparison between dtype=datetime64[ns] and date"),
              st)
    | _ => (Ret (df, false, EmptyString), st)
    end.
Proof.
  intros original days Horig Hdays Hcol.
  destruct (datetime_column_stamps original col Horig) as [s0 [G0 Hts]].
  unfold handle_datetime_filter, bind, get_original, lift. fold original.
  rewrite G0. unfold series_min_date, series_max_date. rewrite Hts. simpl.
  pose proof (fold_min_first_day (map (fun r => stamp (value_at original col r))
                                      (rows original))) as Hmin.
  pose proof (fold_max_last_day (map (fun r => stamp (value_at original col r))
                                     (rows original))) as Hmax.
  fold (column_days original col) in Hmin, Hmax. fold days in Hmin, Hmax.
  destruct (fold_some opt_min _) as [lo|]; [|contradiction].
  destruct Hmin as [_ Hfirst].
  destruct (fold_some opt_max _) as [hi|]; [|contradiction].
  destruct Hmax as [_ Hlast]. simpl.
  destruct (date_range w) as [|start_date [|end_date [|x rest]]]; try reflexivity.
  unfold date_ne. rewrite Hfirst, Hlast.
  rewrite <- negb_andb.
  destruct (is_first_day start_date days && is_last_day end_date days); simpl;
    [reflexivity|].
  destruct (date_mask df col start_date end_date Hcol) as [s [G Hm]].
  rewrite G, Hm. destruct (dates_comparable df col); [|reflexivity].
  simpl. unfold getitem_mask, rows_where. rewrite select_map. reflexivity.
Qed.

Lemma datetime_filter_range_witness :
  let st := Examples.session Examples.time_series in
  handle_datetime_filter (RT := reference_runtime) Examples.time_series "Date"
                         (Cases.dates 19358 19359) st
  = (Ret (mkDF (columns Examples.time_series) (firstn 2 (rows Examples.time_series)),
          true, "Date: 2023-01-01 to 2023-01-02"), st)
  /\ handle_datetime_filter (RT := reference_runtime) Examples.time_series "Date"
                            (Cases.dates 19358 19390) st
     = (Ret (Examples.time_series, false, EmptyString), st)
  /\ handle_datetime_filter (RT := reference_runtime) Cases.undated "Date"
                            (Cases.dates 19358 19359) st
     = (Raise (Exn TypeError "Invalid comparison between dtype=datetime64[ns] and date"),
        st).
Proof.
  assert (Hdays : column_days Examples.time_series "Date" <> [])
    by (vm_compute; discriminate).
  split; [|split].
  - exact (datetime_filter_range (RT := reference_runtime)
             (Examples.session Examples.time_series) Examples.time_series "Date"
             (Cases.dates 19358 19359) eq_refl Hdays eq_refl).
  - exact (datetime_filter_range (RT := reference_runtime)
             (Examples.session Examples.time_series) Examples.time_series "Date"
             (Cases.dates 19358 19390) eq_refl Hdays eq_refl).
  - exact (datetime_filter_range (RT := reference_runtime)
             (Examples.session Examples.time_series) Cases.undated "Date"
             (Cases.dates 19358 19359) eq_refl Hdays eq_refl).
Defined.

(** ** Escaping of text values *)

Lemma string_app_assoc (s1 s2 s3 : string) : (s1 ^^ s2) ^^ s3 = s1 ^^ (s2 ^^ s3).
Proof. induction s1 as [|a s1 IH]; simpl; [reflexivity|]. rewrite IH. reflexivity. Qed.

Lemma replace_char_app (c : ascii) (rep s1 s2 : string) :
  PyStr.replace_char c rep (s1 ^^ s2)
  = PyStr.replace_char c rep s1 ^^ PyStr.replace_char c rep s2.
Proof.
  induction s1 as [|a s1 IH]; simpl; [reflexivity|].
  rewrite IH, string_app_assoc. reflexivity.
Qed.

(** What [escape] does to the first character. *)
Lemma escape_cons (a : ascii) (v : string) :
  escape (String a v) =
  (if is_quote a then String PyStr.backslash (String a (escape v))
   else String a (escape v)).
Proof.
  unfold escape, is_quote. simpl PyStr.replace_char at 2.
  rewrite replace_char_app.
  destruct (Ascii.eqb_spec a PyStr.squote) as [->|Hs]; [reflexivity|].
  simpl.
  destruct (Ascii.eqb_spec a PyStr.dquote) as [->|Hd]; reflexivity.
Qed.

Lemma escape_guarded (v : string) (b : bool) : quotes_guarded b (escape v) = true.
Proof.
  revert b. induction v as [|a v IH]; intros b; [reflexivity|].
  rewrite escape_cons. destruct (is_quote a) eqn:Q.
  - simpl. rewrite Q. simpl.
    assert (Hb : Ascii.eqb a PyStr.backslash = false).
    { unfold is_quote in Q. apply orb_true_iff in Q.
      destruct Q as [Q|Q]; apply Ascii.eqb_eq in Q; subst; reflexivity. }
    rewrite Hb. apply IH.
  - simpl. rewrite Q. simpl. apply IH.
Qed.

Lemma escape_starts_unquoted (v : string) :
  match escape v with
  | String c _ => is_quote c = false
  | EmptyString => True
  end.
Proof.
  destruct v as [|a v]; [exact I|]. rewrite escape_cons.
  destruct (is_quote a) eqn:Q; [reflexivity|exact Q].
Qed.

Lemma unescape_escape (v : string) : unescape (escape v) = v.
Proof.
  induction v as [|a v IH]; [reflexivity|].
  rewrite escape_cons. destruct (is_quote a) eqn:Q.
  - simpl. rewrite Q. simpl. rewrite IH. reflexivity.
  - pose proof (escape_starts_unquoted v) as Hq.
    simpl. destruct (escape v) as [|d t] eqn:E.
    + simpl in IH. subst v. reflexivity.
    + rewrite Hq, andb_false_r. rewrite IH. reflexivity.
Qed.

(** X2. The escaping of a text value in the query builder: in the escaped
    text every quote stands right after a backslash; removing those
    backslashes gives the value back, so distinct values give distinct
    texts; the text is at least as long as the value; and a backslash of the
    value is copied as it is, not doubled. *)
Theorem escape_round_trip (v : string) :
  quotes_guarded false (escape v) = true
  /\ unescape (escape v) = v
  /\ String.length v <= String.length (escape v)
  /\ escape (String PyStr.backslash v) = String PyStr.backslash (escape v).
Proof.
  split; [apply escape_guarded|]. split; [apply unescape_escape|]. split.
  - induction v as [|a v IH]; [reflexivity|].
    rewrite escape_cons. destruct (is_quote a); simpl; lia.
  - rewrite escape_cons. reflexivity.
Qed.

(** ** What the simple filters keep *)

Lemma rows_where_all (df : DataFrame) : rows_where (fun _ => true) df = df.
Proof.
  destruct df as [cols rs]. unfold rows_where. simpl. f_equal.
  induction rs as [|r rs IH]; simpl; [reflexivity|]. rewrite IH. reflexivity.
Qed.

Lemma rows_where_twice (p q : row -> bool) (df : DataFrame) :
  rows_where p (rows_where q df) = rows_where (fun r => q r && p r) df.
Proof.
  unfold rows_where. simpl. f_equal.
  induction (rows df) as [|r rs IH]; simpl; [reflexivity|].
  destruct (q r); simpl; [destruct (p r)|]; rewrite IH; reflexivity.
Qed.

Lemma rows_where_len (p : row -> bool) (df : DataFrame) :
  len (rows_where p df) <= len df.
Proof. unfold len, rows_where. simpl. apply filter_length_le. Qed.


Section Builders.
Context {RT : Runtime}.

Lemma numeric_builder (st : world) (df : DataFrame) (col : string) (w : column_widgets) :
  builder_result st df (handle_numeric_filter df col w st).
Proof.
  intros df' applied detail st'.
  unfold handle_numeric_filter, bind, get_original, lift, st_error, st_success, emit, ret.
  destruct (getitem (original_df (self st)) col) as [s0|e]; [|discriminate].
  destruct (series_min s0) as [lo|e]; [|discriminate].
  destruct (series_max s0) as [hi|e]; [|discriminate].
  destruct (fgt _ _).
  { simpl. intros H. injection H as <- <- <- <-.
    repeat split; auto. exists (fun _ => true). symmetry. apply rows_where_all. }
  destruct (fne _ lo || fne _ hi).
  - destruct (getitem df col) as [s|e] eqn:G; [|discriminate].
    destruct (series_ge s _) as [ge|e] eqn:Hge; [|discriminate].
    destruct (series_le s _) as [le|e] eqn:Hle; [|discriminate].
    simpl. intros H. injection H as <- <- <- <-.
    split; [reflexivity|]. split; [discriminate|].
    unfold series_ge, series_le in *.
    rewrite (getitem_value_at _ _ _ G) in Hge, Hle.
    eexists. unfold getitem_mask, rows_where. f_equal.
    exact (select_mask_and (value_at df col) _ _ _ _ _ Hge Hle).
  - simpl. intros H. injection H as <- <- <- <-.
    repeat split; auto. exists (fun _ => true). symmetry. apply rows_where_all.
Qed.

Lemma categorical_builder (st : world) (df : DataFrame) (col : string)
    (w : column_widgets) :
  builder_result st df (handle_categorical_filter df col w st).
Proof.
  intros df' applied detail st'.
  unfold handle_categorical_filter, bind, get_original, lift, ret.
  destruct (getitem (original_df (self st)) col) as [s0|e]; [|discriminate].
  destruct (List.length (unique s0) <=? 50)%nat.
  - destruct (_ <? _)%nat.
    + destruct (getitem df col) as [s|e] eqn:G; [|discriminate].
      intros H. injection H as <- <- <- <-.
      split; [reflexivity|]. split; [discriminate|].
      eexists. unfold getitem_mask, rows_where, isin. f_equal.
      rewrite (getitem_value_at _ _ _ G), map_map. apply select_map.
    + intros H. injection H as <- <- <- <-.
      repeat split; auto. exists (fun _ => true). symmetry. apply rows_where_all.
  - destruct (PyStr.truthy (search_term w)).
    + destruct (getitem df col) as [s|e] eqn:G; [|discriminate].
      destruct (str_contains s (search_term w)) as [mask|e] eqn:Hm; [|discriminate].
      intros H. injection H as <- <- <- <-.
      split; [reflexivity|]. split; [discriminate|].
      destruct (str_contains_mask _ _ _ Hm) as [search [_ ->]].
      eexists. unfold getitem_mask, rows_where. f_equal.
      rewrite (getitem_value_at _ _ _ G), map_map. apply select_map.
    + intros H. injection H as <- <- <- <-.
      repeat split; auto. exists (fun _ => true). symmetry. apply rows_where_all.
Qed.

Lemma datetime_builder (st : world) (df : DataFrame) (col : string)
    (w : column_widgets) :
  builder_result st df (handle_datetime_filter df col w st).
Proof.
  intros df' applied detail st'.
  unfold handle_datetime_filter, bind, get_original, lift, ret.
  destruct (getitem (original_df (self st)) col) as [s0|e]; [|discriminate].
  destruct (series_min_date s0) as [lo|e]; [|discriminate].
  destruct (series_max_date s0) as [hi|e]; [|discriminate].
  assert (Hnoop : (Ret (df, false, EmptyString), st) = (Ret (df', applied, detail), st') ->
                  self st' = self st /\ (applied = false -> df' = df) /\
                  exists p, df' = rows_where p df).
  { intros H. injection H as <- <- <- <-.
    repeat split; auto. exists (fun _ => true). symmetry. apply rows_where_all. }
  destruct (date_range w) as [|start_date [|end_date [|x rest]]]; try exact Hnoop.
  destruct (date_ne _ _ || date_ne _ _); [|exact Hnoop].
  destruct (getitem df col) as [s|e] eqn:G; [|discriminate].
  destruct (series_date_between s start_date end_date) as [mask|e] eqn:Hm; [|discriminate].
  intros H. injection H as <- <- <- <-.
  split; [reflexivity|]. split; [discriminate|].
  rewrite (series_date_between_mask _ _ _ _ Hm), (getitem_value_at _ _ _ G), map_map.
  eexists. unfold getitem_mask, rows_where. f_equal. apply select_map.
Qed.


Lemma bind_result_ok (st : world) (l : simple_locals)
    (run : outcome (result string) * world) (df' : DataFrame) (applied : bool)
    (detail : string) (st' : world) :
  let original := original_df (self st) in
  locals_ok original l ->
  builder_result st (l_filtered_df l) run ->
  run = (Ret (df', applied, detail), st') ->
  self st' = self st /\
  (exists p, df' = rows_where p original) /\
  (applied = false -> df' = l_filtered_df l).
Proof.
  intros original [[p Hp] _] Hb Hrun.
  destruct (Hb _ _ _ _ Hrun) as [Hself [Hsame [q Hq]]].
  split; [exact Hself|]. split; [|exact Hsame].
  exists (fun r => p r && q r). rewrite Hq, Hp. apply rows_where_twice.
Qed.

Lemma finish_step_ok (original : DataFrame) (l : simple_locals) (df' : DataFrame)
    (applied : bool) (detail : string) :
  locals_ok original l ->
  (exists p, df' = rows_where p original) ->
  (applied = false -> df' = l_filtered_df l) ->
  locals_ok original
    (if applied
     then mkLocals df' true (l_applied_filter_details l ++ [detail])
                   (Some applied) (Some detail)
     else mkLocals df' (l_filters_applied l) (l_applied_filter_details l)
                   (Some applied) (Some detail)).
Proof.
  intros [Hp [Hoff Hon]] Hdf Hsame. destruct applied; unfold locals_ok; simpl.
  - split; [exact Hdf|]. split; [discriminate|].
    intros _ H. apply app_eq_nil in H. destruct H as [_ H]. discriminate.
  - split; [exact Hdf|]. rewrite (Hsame eq_refl). split.
    + intros H. destruct (Hoff H) as [H1 [H2 _]]. repeat split; auto. discriminate.
    + exact Hon.
Qed.

Lemma simple_filters_step_ok (sw : simple_widgets) (l l' : simple_locals)
    (col : string) (st st' : world) :
  locals_ok (original_df (self st)) l ->
  simple_filters_step sw l col st = (Ret l', st') ->
  self st' = self st /\ locals_ok (original_df (self st)) l'.
Proof.
  intros Hok. unfold simple_filters_step.
  unfold bind at 1, get_original at 1. unfold bind at 1, lift at 1.
  destruct (getitem (original_df (self st)) col) as [s0|e]; [|discriminate].
  assert (Hhandled : forall run,
    builder_result st (l_filtered_df l) run ->
    (let (o, w') := (let (o, w') := run in
                     match o with
                     | Ret a => ret (bind_result l a) w'
                     | Raise e => (Raise e, w')
                     end) in
     match o with
     | Ret l1 =>
         bind (read_local "col_filtered" (l_col_filtered l1))
           (fun col_filtered : bool =>
            if col_filtered
            then bind (read_local "filter_detail" (l_filter_detail l1))
                   (fun filter_detail =>
                    ret (mkLocals (l_filtered_df l1) true
                           (l_applied_filter_details l1 ++ [filter_detail])
                           (l_col_filtered l1) (l_filter_detail l1)))
            else ret l1) w'
     | Raise e => (Raise e, w')
     end) = (Ret l', st') ->
    self st' = self st /\ locals_ok (original_df (self st)) l').
  { intros run Hb. destruct run as [[[[df' applied] detail]|e] st1] eqn:Hrun;
      [|discriminate].
    destruct (bind_result_ok st l _ df' applied detail st1 Hok Hb eq_refl)
      as [Hself [Hdf Hsame]].
    pose proof (finish_step_ok _ l df' applied detail Hok Hdf Hsame) as Hfin.
    unfold ret, bind, bind_result, read_local. simpl.
    destruct applied; simpl; intros H; injection H as <- <-; auto. }
  destruct (s_dtype s0);
    try (apply Hhandled; first [apply categorical_builder | apply numeric_builder]).
  - (* int32 *)
    simpl. unfold bind, ret, read_local.
    destruct (l_col_filtered l) as [[|]|] eqn:Hc; simpl; try discriminate.
    + destruct (l_filter_detail l) as [d|] eqn:Hd; simpl; [|discriminate].
      intros H. injection H as <- <-. split; [reflexivity|].
      destruct Hok as [Hp [Hoff Hon]]. unfold locals_ok. simpl.
      split; [exact Hp|]. split; [discriminate|].
      intros _ H. apply app_eq_nil in H. destruct H as [_ H]. discriminate.
    + intros H. injection H as <- <-. auto.
  - (* float32 *)
    simpl. unfold bind, ret, read_local.
    destruct (l_col_filtered l) as [[|]|] eqn:Hc; simpl; try discriminate.
    + destruct (l_filter_detail l) as [d|] eqn:Hd; simpl; [|discriminate].
      intros H. injection H as <- <-. split; [reflexivity|].
      destruct Hok as [Hp [Hoff Hon]]. unfold locals_ok. simpl.
      split; [exact Hp|]. split; [discriminate|].
      intros _ H. apply app_eq_nil in H. destruct H as [_ H]. discriminate.
    + intros H. injection H as <- <-. auto.
  - (* bool *)
    simpl. unfold bind, ret, read_local.
    destruct (l_col_filtered l) as [[|]|] eqn:Hc; simpl; try discriminate.
    + destruct (l_filter_detail l) as [d|] eqn:Hd; simpl; [|discriminate].
      intros H. injection H as <- <-. split; [reflexivity|].
      destruct Hok as [Hp [Hoff Hon]]. unfold locals_ok. simpl.
      split; [exact Hp|]. split; [discriminate|].
      intros _ H. apply app_eq_nil in H. destruct H as [_ H]. discriminate.
    + intros H. injection H as <- <-. auto.
  - (* datetime64 *)
    simpl. apply Hhandled. apply datetime_builder.
Qed.

Lemma simple_filters_loop_ok (sw : simple_widgets) (cols : list string) :
  forall (l l' : simple_locals) (st st' : world),
  locals_ok (original_df (self st)) l ->
  simple_filters_loop sw l cols st = (Ret l', st') ->
  self st' = self st /\ locals_ok (original_df (self st)) l'.
Proof.
  induction cols as [|col cols IH]; simpl; intros l l' st st' Hok H.
  - injection H as <- <-. auto.
  - unfold bind in H.
    destruct (simple_filters_step sw l col st) as [[l1|e] st1] eqn:E; [|discriminate].
    destruct (simple_filters_step_ok _ _ _ _ _ _ Hok E) as [Hself Hok1].
    rewrite <- Hself in Hok1. destruct (IH _ _ _ _ Hok1 H) as [Hself' Hok'].
    split; [congruence|]. rewrite Hself in Hok'. exact Hok'.
Qed.

(** X3. Whatever the columns and the widgets, when [_simple_filters] returns
    the session is untouched and the frame returned holds rows of the
    original, selected by a test on the row alone: never more rows than the
    original.  With applied False it is the original and there is no
    description; with applied True there is at least one description. *)
Theorem simple_filters_select_rows (sw : simple_widgets) (st st' : world)
    (df : DataFrame) (applied : bool) (details : list string) :
  let original := original_df (self st) in
  simple_filters sw st = (Ret (df, applied, details), st') ->
  self st' = self st
  /\ (exists p, df = rows_where p original)
  /\ len df <= len original
  /\ (applied = false -> df = original /\ details = [])
  /\ (applied = true -> details <> []).
Proof.
  intros original. unfold simple_filters, bind, get_original.
  destruct (filter_columns sw) as [|c cs] eqn:Hcols.
  - intros H. injection H as <- <- <- <-. fold original.
    split; [reflexivity|]. split; [exists (fun _ => true); symmetry; apply rows_where_all|].
    split; [apply Nat.le_refl|]. split; [auto|discriminate].
  - destruct (simple_filters_loop sw _ (c :: cs) st) as [[l|e] st1] eqn:E; [|discriminate].
    intros H. injection H as <- <- <- <-.
    assert (Hinit : locals_ok (original_df (self st))
                      (mkLocals (original_df (self st)) false [] None None)).
    { unfold locals_ok. simpl. split.
      - exists (fun _ => true). symmetry. apply rows_where_all.
      - split; [intros _; repeat split; discriminate|discriminate]. }
    destruct (simple_filters_loop_ok _ _ _ _ _ _ Hinit E) as [Hself [[p Hp] [Hoff Hon]]].
    fold original in Hp, Hoff. split; [exact Hself|].
    split; [exists p; exact Hp|]. split; [rewrite Hp; apply rows_where_len|].
    split; [|exact Hon]. intros Hf. destruct (Hoff Hf) as [H1 [H2 _]]. auto.
Qed.

End Builders.

Lemma simple_filters_select_rows_witness :
  let st := Examples.session Examples.people in
  let kept := mkDF (columns Examples.people)
                   [[CInt 25; CStr "LA"; CBool false]; [CInt 40; CStr "NY"; CBool true]] in
  let st' := say st (St LSuccess (FilterApplied 2)) in
  simple_filters (RT := reference_runtime) Cases.age_25_to_40 st
    = (Ret (kept, true, ["age: 25.0 to 40.0"]), st')
  /\ (self st' = self st
      /\ (exists p, kept = rows_where p Examples.people)
      /\ len kept <= len Examples.people
      /\ (true = false -> kept = Examples.people /\ ["age: 25.0 to 40.0"] = [])
      /\ (true = true -> ["age: 25.0 to 40.0"] <> [])).
Proof.
  cbv zeta.
  match goal with |- ?A /\ _ => assert (H : A) by (cbv; reflexivity) end.
  exact (conj H (simple_filters_select_rows (RT := reference_runtime) _ _ _ _ _ _ H)).
Defined.

(** ** What a join leaves behind *)

Section JoinOutcome.
Context {RT : Runtime}.

(** The auto-fix block catches what it raises and only writes warnings. *)
Lemma auto_fix_types_quiet (left_prep right_prep : DataFrame)
    (lk rk ld rd : string) (st : world) :
  exists prep st',
    auto_fix_types left_prep right_prep lk rk ld rd st = (Ret prep, st')
    /\ self st' = self st.
Proof.
  unfold auto_fix_types, bind, st_warning, emit, ret.
  destruct (string_in "object" [ld; rd]).
  { destruct (astype_column left_prep lk Object cell_to_str); [|eauto].
    destruct (astype_column right_prep rk Object cell_to_str); eauto. }
  destruct (PyStr.contains "int" ld && PyStr.contains "float" rd).
  { destruct (astype_column left_prep lk Float64 cell_to_float); eauto. }
  destruct (PyStr.contains "float" ld && PyStr.contains "int" rd).
  { destruct (astype_column right_prep rk Float64 cell_to_float); eauto. }
  eauto.
Qed.

Lemma prepare_keys_quiet (w : join_widgets) (left_df right_df : DataFrame)
    (ld rd : string) (compatibility : bool) (st : world) :
  exists prep st',
    prepare_keys w left_df right_df ld rd compatibility st = (Ret prep, st')
    /\ self st' = self st.
Proof.
  unfold prepare_keys. destruct (auto_fix w && negb compatibility).
  - apply auto_fix_types_quiet.
  - unfold ret. eauto.
Qed.

Lemma return_original_runs (st : world) :
  return_original st = (Ret (original_df (self st), false, []), st).
Proof. reflexivity. Qed.

Lemma join_failed_runs (e : exn) (st : world) :
  exists st', join_failed e st = (Ret (original_df (self st), false, []), st')
              /\ self st' = self st.
Proof.
  unfold join_failed, bind, st_error, st_info, emit, ret, return_original, get_original.
  simpl. destruct (PyStr.contains "dtype" (PyStr.lower (exn_msg e))); simpl;
    eexists; split; reflexivity.
Qed.

(** The [try] with its [except]: either the join is applied and the
    original replaced by the frame returned, or the session is as before and
    the original is returned. *)
Lemma join_try_outcome (w : join_widgets) (left_df right_df : DataFrame)
    (ld rd : string) (compatibility : bool) (st : world) :
  exists df applied details st',
    try_except (join_attempt w left_df right_df ld rd compatibility) join_failed st
      = (Ret (df, applied, details), st')
    /\ (if applied
        then details = [join_description w]
             /\ original_df (self st') = df
             /\ filtered_df (self st') = filtered_df (self st)
             /\ filter_info (self st') = filter_info (self st)
        else details = [] /\ df = original_df (self st) /\ self st' = self st).
Proof.
  unfold try_except, join_attempt. unfold bind at 1.
  destruct (prepare_keys_quiet w left_df right_df ld rd compatibility st)
    as [prep [st1 [-> Hself]]].
  unfold bind at 1, lift.
  destruct (pd_merge (fst prep) (snd prep) (left_key w) (right_key w) (join_type w))
    as [joined|e].
  - unfold bind at 1, efficiency.
    destruct (Nat.max (len left_df) (len right_df) =? 0)%nat.
    + cbv beta iota delta [raise].
      destruct (join_failed_runs (Exn ZeroDivisionError "division by zero") st1)
        as [st2 [-> Hself2]].
      exists (original_df (self st1)), false, [], st2.
      split; [reflexivity|]. rewrite Hself2, Hself. auto.
    + exists joined, true, [join_description w].
      eexists. split; [reflexivity|]. simpl. rewrite Hself. auto.
  - destruct (join_failed_runs e st1) as [st2 [-> Hself2]].
    exists (original_df (self st1)), false, [], st2.
    split; [reflexivity|]. rewrite Hself2, Hself. auto.
Qed.

(** X4. When [_join_datasets] returns, either applied is True, the one
    description is that of the join and the session's original is the frame
    returned, the filtered frame and the metadata being as before; or applied
    is False, there is no description, the frame returned is the session's
    original and the session is as before. *)
Theorem join_applied_or_untouched (datasets : pool) (w : join_widgets)
    (st st' : world) (df : DataFrame) (applied : bool) (details : list string) :
  join_datasets datasets w st = (Ret (df, applied, details), st') ->
  if applied
  then details = [join_description w]
       /\ original_df (self st') = df
       /\ filtered_df (self st') = filtered_df (self st)
       /\ filter_info (self st') = filter_info (self st)
  else details = [] /\ df = original_df (self st) /\ self st' = self st.
Proof.
  unfold join_datasets.
  assert (Hback : forall s1, self s1 = self st ->
            return_original s1 = (Ret (df, applied, details), st') ->
            if applied
            then details = [join_description w]
                 /\ original_df (self st') = df
                 /\ filtered_df (self st') = filtered_df (self st)
                 /\ filter_info (self st') = filter_info (self st)
            else details = [] /\ df = original_df (self st) /\ self st' = self st).
  { intros s1 Hs H. rewrite return_original_runs in H.
    injection H as <- <- <- <-. rewrite Hs. auto. }
  destruct (_ <? 2)%nat.
  { unfold bind, st_warning, emit. simpl. apply Hback. reflexivity. }
  destruct (PyStr.truthy (left_dataset w) && PyStr.truthy (right_dataset w));
    [|apply Hback; reflexivity].
  unfold bind at 1, lift at 1.
  destruct (pool_get (left_dataset w) datasets) as [left_df|e]; [|discriminate].
  unfold bind at 1, lift at 1.
  destruct (pool_get (right_dataset w) datasets) as [right_df|e]; [|discriminate].
  destruct (PyStr.truthy (left_key w) && PyStr.truthy (right_key w));
    [|apply Hback; reflexivity].
  unfold bind at 1, lift at 1.
  destruct (getitem left_df (left_key w)) as [ls|e]; [|discriminate].
  unfold bind at 1, lift at 1.
  destruct (getitem right_df (right_key w)) as [rs|e]; [|discriminate].
  cbv zeta. unfold bind at 1.
  set (note := (if String.eqb (dtype_str (s_dtype ls)) (dtype_str (s_dtype rs))
                then st_success (CompatibleTypes (dtype_str (s_dtype ls)))
                else st_warning (TypeMismatch (dtype_str (s_dtype ls))
                                              (dtype_str (s_dtype rs))))).
  assert (Hnote : exists s1, note st = (Ret tt, s1) /\ self s1 = self st).
  { subst note. destruct (String.eqb _ _); unfold st_success, st_warning, emit; eauto. }
  destruct Hnote as [s1 [-> Hs1]].
  destruct (join_button w); [|apply Hback; exact Hs1].
  destruct (join_try_outcome w left_df right_df (dtype_str (s_dtype ls))
              (dtype_str (s_dtype rs))
              (String.eqb (dtype_str (s_dtype ls)) (dtype_str (s_dtype rs))) s1)
    as [df1 [applied1 [details1 [s2 [-> Hout]]]]].
  intros H. injection H as <- <- <- <-. rewrite Hs1 in Hout. exact Hout.
Qed.

(** X5. A join request (two datasets of the pool named, a key of each
    chosen, the button pressed) never lets an exception out of
    [_join_datasets], whatever the conversions and the merge do. *)
Theorem join_request_returns (datasets : pool) (w : join_widgets) (st : world)
    (left_df right_df : DataFrame) (ls rs : Series) :
  join_request datasets w left_df right_df ls rs ->
  exists df applied details st',
    join_datasets datasets w st = (Ret (df, applied, details), st').
Proof.
  intros Hreq. rewrite (join_request_runs st datasets w left_df right_df ls rs Hreq).
  destruct (join_try_outcome w left_df right_df (dtype_str (s_dtype ls))
              (dtype_str (s_dtype rs))
              (String.eqb (dtype_str (s_dtype ls)) (dtype_str (s_dtype rs)))
              (say st (compatibility_message ls rs)))
    as [df [applied [details [st' [H _]]]]].
  eauto.
Qed.

End JoinOutcome.

Lemma join_applied_or_untouched_witness :
  let datasets := [("orders", Examples.orders); ("customers", Examples.customers)] in
  let w := Examples.join_on_customer false in
  let st := Examples.session Examples.orders in
  exists joined st',
    join_datasets (RT := reference_runtime) datasets w st
      = (Ret (joined, true, [join_description w]), st')
    /\ ([join_description w] = [join_description w]
        /\ original_df (self st') = joined
        /\ filtered_df (self st') = filtered_df (self st)
        /\ filter_info (self st') = filter_info (self st)).
Proof.
  cbv zeta. eexists. eexists.
  match goal with |- ?A /\ _ => assert (H : A) by (cbv; reflexivity) end.
  exact (conj H (join_applied_or_untouched (RT := reference_runtime) _ _ _ _ _ _ _ H)).
Defined.

Lemma join_request_returns_witness :
  let datasets := [("orders", Examples.orders); ("customers", Examples.customers_text)] in
  let w := Examples.join_on_customer false in
  let st := Examples.session Examples.orders in
  exists df applied details st',
    join_datasets (RT := reference_runtime) datasets w st
      = (Ret (df, applied, details), st').
Proof.
  refine (join_request_returns (RT := reference_runtime)
            [("orders", Examples.orders); ("customers", Examples.customers_text)]
            (Examples.join_on_customer false) (Examples.session Examples.orders)
            Examples.orders Examples.customers_text
            (mkSeries Int64 (map (cell_at 0) (rows Examples.orders)))
            (mkSeries Object (map (cell_at 0) (rows Examples.customers_text))) _).
  unfold join_request. simpl.
  repeat (split; [first [reflexivity | discriminate | apply le_n]|]). reflexivity.
Defined.

(** ** The query builder as a whole *)

Section QueryWhole.
Context {RT : Runtime}.

(** With a column the selectbox offers, one turn of the loop returns. *)
Lemma query_builder_step_returns (st : world) (n i : nat) (c : condition_widgets)
    (parts : list string) :
  let original := original_df (self st) in
  column_offered original c ->
  exists parts' st',
    query_builder_step (select_dtypes is_number_dtype original)
                       (select_dtypes is_categorical_dtype original) n i c parts st
    = (Ret parts', st').
Proof.
  intros original Hcol.
  unfold query_builder_step, bind, get_original, lift, st_info, emit, ret.
  fold original.
  destruct (PyStr.truthy (q_column c) && string_in (q_column c) _).
  { destruct (i <? n - 1)%nat; [destruct (0 <? _)%nat|]; eauto. }
  destruct (PyStr.truthy (q_column c) && string_in (q_column c) _).
  { destruct (PyStr.truthy (q_text c));
      (destruct (i <? n - 1)%nat; [destruct (0 <? _)%nat|]); eauto. }
  destruct (PyStr.truthy (q_column c)).
  - destruct (getitem_offered original (q_column c) Hcol) as [s G].
    unfold original in G. cbv beta iota. rewrite G. simpl.
    destruct (PyStr.truthy (q_text c));
      (destruct (i <? n - 1)%nat; [destruct (0 <? _)%nat|]); eauto.
  - simpl. destruct (PyStr.truthy (q_text c));
      (destruct (i <? n - 1)%nat; [destruct (0 <? _)%nat|]); eauto.
Qed.

Lemma query_builder_loop_returns (n : nat) (cs : list condition_widgets) :
  forall (i : nat) (parts : list string) (st : world),
  let original := original_df (self st) in
  Forall (column_offered original) cs ->
  exists parts' st',
    query_builder_loop (select_dtypes is_number_dtype original)
                       (select_dtypes is_categorical_dtype original) n i cs parts st
    = (Ret parts', st').
Proof.
  induction cs as [|c cs IH]; simpl; intros i parts st Hall.
  - unfold ret. eauto.
  - inversion Hall as [|c' cs' Hc Hrest]; subst.
    destruct (query_builder_step_returns st n i c parts Hc) as [parts1 [st1 E]].
    unfold bind. rewrite E.
    destruct (query_builder_step_quiet _ _ _ _ _ _ _ _ _ E) as [Hself _].
    specialize (IH (S i) parts1 st1). rewrite Hself in IH. apply IH. exact Hrest.
Qed.

Lemma queries_run_say_Query (st : world) (df : DataFrame) (q : string) :
  queries_run (say st (Query df q)) = S (queries_run st).
Proof.
  unfold queries_run, say. simpl. rewrite filter_app, length_app. simpl. lia.
Qed.

(** The [try] around the evaluation: one evaluation, no exception, and the
    session as it was. *)
Lemma run_query_outcome (q : string) (st : world) :
  exists df applied details st',
    try_except (run_query q) query_failed st = (Ret (df, applied, details), st')
    /\ self st' = self st
    /\ queries_run st' = S (queries_run st)
    /\ (applied = false -> df = original_df (self st) /\ details = []).
Proof.
  unfold try_except, run_query, query_failed, return_original, bind, get_original,
    st_success, st_error, st_info, emit, lift, ret. simpl.
  destruct (df_query (original_df (self st)) q) as [filtered|e]; simpl.
  - eexists. exists true. eexists. eexists. split; [reflexivity|].
    split; [reflexivity|]. split; [|discriminate].
    unfold queries_run. simpl. rewrite !filter_app, !length_app. simpl. lia.
  - eexists. exists false. eexists. eexists. split; [reflexivity|].
    split; [reflexivity|]. split; [|auto].
    unfold queries_run. simpl. rewrite !filter_app, !length_app. simpl. lia.
Qed.

(** X6. With conditions on columns the selectbox offers, [_query_builder]
    returns whatever the evaluator does: no exception gets out, the session
    is untouched, at most one evaluation is run, and with applied False the
    original is returned without a description. *)
Theorem query_builder_returns (w : query_widgets) (st : world) :
  let original := original_df (self st) in
  Forall (column_offered original) (conditions w) ->
  exists df applied details st',
    query_builder w st = (Ret (df, applied, details), st')
    /\ self st' = self st
    /\ queries_run st' <= S (queries_run st)
    /\ (applied = false -> df = original /\ details = [] ).
Proof.
  intros original Hall.
  assert (Hback : forall s1, self s1 = self st -> queries_run s1 = queries_run st ->
            exists df applied details st',
              return_original s1 = (Ret (df, applied, details), st')
              /\ self st' = self st
              /\ queries_run st' <= S (queries_run st)
              /\ (applied = false -> df = original /\ details = [])).
  { intros s1 Hs Hq. exists (original_df (self s1)), false, [], s1.
    split; [reflexivity|]. rewrite Hs, Hq. repeat split; auto. }
  unfold query_builder. unfold bind at 1, get_original at 1. fold original.
  destruct (df_empty original).
  { unfold bind, st_warning, emit, ret. simpl.
    exists original, false, []. eexists. split; [reflexivity|]. simpl.
    split; [reflexivity|]. split; [|auto].
    unfold queries_run. simpl. rewrite filter_app, length_app. simpl. lia. }
  destruct (column_names original) as [|c0 cols].
  { unfold bind, st_warning, emit, ret. simpl.
    exists original, false, []. eexists. split; [reflexivity|]. simpl.
    split; [reflexivity|]. split; [|auto].
    unfold queries_run. simpl. rewrite filter_app, length_app. simpl. lia. }
  destruct (query_builder_loop_returns (List.length (conditions w)) (conditions w) 0 []
              st Hall) as [parts [st1 Hloop]].
  fold original in Hloop. unfold bind at 1. rewrite Hloop.
  destruct (query_builder_loop_quiet _ _ _ _ _ _ _ _ _ Hloop) as [Hself Hruns].
  destruct parts as [|p ps]; [apply Hback; assumption|].
  destruct (PyStr.strip_truthy _); [|apply Hback; assumption].
  destruct (apply_query w); [|apply Hback; assumption].
  destruct (run_query_outcome (final_query (p :: ps)) st1)
    as [df [applied [details [st2 [-> [Hs2 [Hq2 Hoff]]]]]]].
  exists df, applied, details, st2. split; [reflexivity|].
  split; [congruence|]. split; [lia|].
  intros Hf. destruct (Hoff Hf) as [H1 H2]. rewrite Hself in H1. auto.
Qed.

End QueryWhole.

Lemma query_builder_returns_witness :
  let st := Examples.session Examples.people in
  exists df applied details st',
    query_builder (RT := reference_runtime) Cases.ends_empty st
      = (Ret (df, applied, details), st')
    /\ self st' = self st
    /\ queries_run st' <= S (queries_run st)
    /\ (applied = false -> df = Examples.people /\ details = []).
Proof.
  refine (query_builder_returns (RT := reference_runtime) Cases.ends_empty
            (Examples.session Examples.people) _).
  repeat (apply Forall_cons || apply Forall_nil);
    unfold column_offered; simpl; tauto.
Defined.

(** ** Conditions that read well *)


Lemma quoted_not_connective (column rest : string) :
  is_connective (quoted_column column ^^ rest) = false.
Proof. reflexivity. Qed.

Lemma text_fragment_not_connective (column operator value : string) :
  is_connective (text_fragment column operator value) = false.
Proof. unfold text_fragment. destruct (String.eqb operator "contains"); reflexivity. Qed.

Lemma exists_last_or_nil {A : Type} (l : list A) :
  l = [] \/ exists l' a, l = l' ++ [a].
Proof.
  destruct l as [|x l]; [left; reflexivity|right].
  destruct (@exists_last A (x :: l)) as [l' [a E]]; [discriminate|eauto].
Qed.

Lemma interleave_app (a b : list (string * string)) :
  interleave (a ++ b) = interleave a ++ interleave b.
Proof. unfold interleave. apply flat_map_app. Qed.

Lemma interleave_length (pairs : list (string * string)) :
  List.length (interleave pairs) = 2 * List.length pairs.
Proof. induction pairs as [|p ps IH]; simpl in *; lia. Qed.

Lemma alternates_interleave (pairs : list (string * string)) (rest : list string) :
  Forall fragment_then_connective pairs ->
  alternates true (interleave pairs ++ rest) = alternates true rest.
Proof.
  induction 1 as [|[f l] ps [Hf Hl] _ IH]; simpl in *; [reflexivity|].
  rewrite Hf, Hl. simpl. exact IH.
Qed.

(** Parts that end with a fragment are kept as they are. *)
Lemma ends_with_fragment (pairs : list (string * string)) (f : string) :
  Forall fragment_then_connective pairs ->
  is_connective f = false ->
  pop_trailing_logic (interleave pairs ++ [f]) = interleave pairs ++ [f]
  /\ well_joined (interleave pairs ++ [f]) = true.
Proof.
  intros Hp Hf. split.
  - unfold pop_trailing_logic. rewrite last_last.
    unfold is_connective in Hf. rewrite Hf. reflexivity.
  - unfold well_joined.
    destruct (interleave pairs ++ [f]) eqn:E; [reflexivity|]. rewrite <- E.
    rewrite alternates_interleave by assumption. simpl. rewrite Hf. reflexivity.
Qed.

(** Parts that end with a connective lose it. *)
Lemma ends_with_connective (pairs : list (string * string)) :
  Forall fragment_then_connective pairs ->
  well_joined (pop_trailing_logic (interleave pairs)) = true
  /\ List.length (pop_trailing_logic (interleave pairs)) = 2 * List.length pairs - 1.
Proof.
  intros Hp. destruct (exists_last_or_nil pairs) as [->|[ps [[f l] ->]]].
  - split; reflexivity.
  - apply Forall_app in Hp. destruct Hp as [Hps Hfl].
    inversion Hfl as [|x xs [Hf Hl] _]; subst. simpl in Hf, Hl.
    rewrite interleave_app. simpl.
    assert (E : interleave ps ++ [f; l] = (interleave ps ++ [f]) ++ [l])
      by (rewrite <- app_assoc; reflexivity).
    rewrite E. unfold pop_trailing_logic. rewrite last_last.
    unfold is_connective in Hl. rewrite Hl. rewrite removelast_last.
    split.
    + apply ends_with_fragment; assumption.
    + rewrite !length_app, interleave_length. simpl. lia.
Qed.

Section Joined.
Context {RT : Runtime}.

Lemma query_builder_loop_app (nc cc : list string) (n : nat)
    (a b : list condition_widgets) :
  forall (i : nat) (parts : list string) (st : world),
  query_builder_loop nc cc n i (a ++ b) parts st =
  bind (query_builder_loop nc cc n i a parts)
       (fun p => query_builder_loop nc cc n (i + List.length a) b p) st.
Proof.
  induction a as [|c a IH]; simpl; intros i parts st.
  - unfold bind, ret. rewrite Nat.add_0_r. reflexivity.
  - unfold bind.
    destruct (query_builder_step nc cc n i c parts st) as [[p|e] st1]; [|reflexivity].
    rewrite IH. unfold bind. rewrite Nat.add_succ_r. reflexivity.
Qed.

(** A condition that is not dropped appends its fragment, and its connective
    when it is not the last. *)
Lemma emitting_step (original : DataFrame) (st : world) (n i : nat)
    (c : condition_widgets) (parts : list string) :
  original_df (self st) = original ->
  column_offered original c ->
  emits original c = true ->
  exists f st',
    is_connective f = false
    /\ query_builder_step (select_dtypes is_number_dtype original)
                          (select_dtypes is_categorical_dtype original) n i c parts st
       = (Ret (if (i <? n - 1)%nat then parts ++ [f; q_logic c] else parts ++ [f]), st').
Proof.
  intros Hst Hcol Hem. unfold emits, dropped in Hem.
  apply negb_true_iff in Hem. apply andb_false_iff in Hem.
  assert (Hlen : forall f : string, (0 <? List.length (parts ++ [f]))%nat = true).
  { intros f. rewrite length_app. simpl. apply Nat.ltb_lt. lia. }
  assert (Hassoc : forall f l : string, (parts ++ [f]) ++ [l] = parts ++ [f; l]).
  { intros f l. rewrite <- app_assoc. reflexivity. }
  unfold query_builder_step, bind, get_original, lift, st_info, emit, ret.
  destruct (PyStr.truthy (q_column c)
            && string_in (q_column c) (select_dtypes is_number_dtype original)) eqn:Hnum.
  { eexists. eexists. split; [apply (quoted_not_connective (q_column c))|].
    destruct (i <? n - 1)%nat; [rewrite Hlen, Hassoc|]; reflexivity. }
  destruct Hem as [Hem|Hem]; [apply negb_false_iff in Hem; discriminate|].
  apply negb_false_iff in Hem. rewrite Hem.
  destruct (PyStr.truthy (q_column c)
            && string_in (q_column c) (select_dtypes is_categorical_dtype original)).
  { eexists. eexists. split; [apply text_fragment_not_connective|].
    destruct (i <? n - 1)%nat; [rewrite Hlen, Hassoc|]; reflexivity. }
  destruct (PyStr.truthy (q_column c)).
  - destruct (getitem_offered original (q_column c) Hcol) as [s G].
    rewrite Hst. cbv beta iota. rewrite G. simpl.
    eexists. eexists. split; [apply (quoted_not_connective (q_column c))|].
    destruct (i <? n - 1)%nat; [rewrite Hlen, Hassoc|]; reflexivity.
  - simpl. eexists. eexists. split; [apply (quoted_not_connective (q_column c))|].
    destruct (i <? n - 1)%nat; [rewrite Hlen, Hassoc|]; reflexivity.
Qed.

(** A dropped condition in the last place appends nothing. *)
Lemma dropped_last_step (original : DataFrame) (st : world) (n i : nat)
    (c : condition_widgets) (parts : list string) :
  original_df (self st) = original ->
  column_offered original c ->
  dropped original c = true ->
  (i <? n - 1)%nat = false ->
  exists st',
    query_builder_step (select_dtypes is_number_dtype original)
                       (select_dtypes is_categorical_dtype original) n i c parts st
    = (Ret parts, st').
Proof.
  intros Hst Hcol Hdrop Hlast. unfold dropped in Hdrop.
  apply andb_true_iff in Hdrop. destruct Hdrop as [Hnum Htext].
  apply negb_true_iff in Hnum. apply negb_true_iff in Htext.
  unfold query_builder_step, bind, get_original, lift, st_info, emit, ret.
  rewrite Hnum, Htext, Hlast.
  destruct (PyStr.truthy (q_column c)
            && string_in (q_column c) (select_dtypes is_categorical_dtype original)).
  { eauto. }
  destruct (PyStr.truthy (q_column c)).
  - destruct (getitem_offered original (q_column c) Hcol) as [s G].
    rewrite Hst. cbv beta iota. rewrite G. simpl. eauto.
  - simpl. eauto.
Qed.


(** A run of conditions that are not dropped, none of them the last. *)
Lemma emitting_block (original : DataFrame) (n : nat) (es : list condition_widgets) :
  forall (i : nat) (parts : list string) (st : world),
  original_df (self st) = original ->
  Forall (joins original) es ->
  i + List.length es <= n - 1 ->
  exists pairs st',
    query_builder_loop (select_dtypes is_number_dtype original)
                       (select_dtypes is_categorical_dtype original) n i es parts st
    = (Ret (parts ++ interleave pairs), st')
    /\ original_df (self st') = original
    /\ List.length pairs = List.length es
    /\ Forall fragment_then_connective pairs.
Proof.
  induction es as [|c es IH]; simpl; intros i parts st Hst Hall Hi.
  - exists [], st. unfold ret. rewrite app_nil_r. auto.
  - inversion Hall as [|c' es' [Hcol [Hem Hlogic]] Hrest]; subst c' es'.
    destruct (emitting_step original st n i c parts Hst Hcol Hem) as [f [st1 [Hf E]]].
    assert (Hlt : (i <? n - 1)%nat = true) by (apply Nat.ltb_lt; lia).
    rewrite Hlt in E. unfold bind. rewrite E.
    destruct (query_builder_step_quiet _ _ _ _ _ _ _ _ _ E) as [Hself _].
    destruct (IH (S i) (parts ++ [f; q_logic c]) st1) as [pairs [st2 [E2 [Hs2 [Hl2 Hp2]]]]];
      [rewrite Hself; exact Hst | exact Hrest | lia |].
    exists ((f, q_logic c) :: pairs), st2. rewrite E2. simpl.
    rewrite <- app_assoc. simpl. split; [reflexivity|]. split; [exact Hs2|].
    split; [lia|]. constructor; [split; assumption | assumption].
Qed.

(** X7. When the dropped conditions all stand before the first condition
    that emits a fragment, but for at most one that is the very last
    condition, the parts assembled read well once the trailing connective is
    popped: the fragments of the k emitting conditions separated by single
    connectives, 2k - 1 parts. *)
Theorem conditions_well_joined (w : query_widgets) (st : world)
    (ds es tl : list condition_widgets) :
  let original := original_df (self st) in
  conditions w = ds ++ es ++ tl ->
  Forall (fun c => column_offered original c /\ dropped original c = true) ds ->
  Forall (joins original) es ->
  Forall (fun c => column_offered original c /\ dropped original c = true) tl ->
  List.length tl <= 1 ->
  exists parts st',
    assemble original w st = (Ret parts, st')
    /\ well_joined (pop_trailing_logic parts) = true
    /\ List.length (pop_trailing_logic parts) = 2 * List.length es - 1.
Proof.
  intros original Hcs Hds Hes Htl Hone. unfold assemble. rewrite Hcs.
  rewrite !length_app.
  remember (List.length ds + (List.length es + List.length tl)) as n eqn:Hn.
  rewrite query_builder_loop_app. unfold bind at 1.
  destruct (dropped_loop n ds 0 st Hds) as [st1 E1]. fold original in E1. rewrite E1.
  destruct (query_builder_loop_quiet _ _ _ _ _ _ _ _ _ E1) as [Hself1 _].
  assert (Hst1 : original_df (self st1) = original) by (rewrite Hself1; reflexivity).
  simpl (0 + _).
  destruct tl as [|d [|d' tl]]; [| |simpl in Hone; lia].
  - rewrite app_nil_r.
    destruct (exists_last_or_nil es) as [->|[es' [c ->]]].
    + exists [], st1. simpl. unfold ret. auto.
    + apply Forall_app in Hes. destruct Hes as [Hes' Hc].
      inversion Hc as [|x xs [Hcol [Hem Hlogic]] _]; subst x xs.
      rewrite length_app in Hn. simpl in Hn.
      rewrite query_builder_loop_app. unfold bind at 1.
      destruct (emitting_block original n es' (List.length ds) [] st1 Hst1 Hes')
        as [pairs [st2 [E2 [Hst2 [Hlen Hpairs]]]]]; [lia|].
      rewrite E2. simpl. unfold bind.
      destruct (emitting_step original st2 n (List.length ds + List.length es') c
                  (interleave pairs) Hst2 Hcol Hem) as [f [st3 [Hf E3]]].
      assert (Hlast : (List.length ds + List.length es' <? n - 1)%nat = false)
        by (apply Nat.ltb_ge; lia).
      rewrite Hlast in E3. rewrite E3. unfold ret.
      exists (interleave pairs ++ [f]), st3. split; [reflexivity|].
      destruct (ends_with_fragment pairs f Hpairs Hf) as [-> Hw].
      split; [exact Hw|]. rewrite !length_app, interleave_length. simpl. lia.
  - inversion Htl as [|x xs [Hcol Hdrop] _]; subst x xs. simpl in Hn.
    rewrite query_builder_loop_app. unfold bind at 1.
    destruct (emitting_block original n es (List.length ds) [] st1 Hst1 Hes)
      as [pairs [st2 [E2 [Hst2 [Hlen Hpairs]]]]]; [lia|].
    rewrite E2. simpl. unfold bind.
    assert (Hlast : (List.length ds + List.length es <? n - 1)%nat = false)
      by (apply Nat.ltb_ge; lia).
    destruct (dropped_last_step original st2 n (List.length ds + List.length es) d
                (interleave pairs) Hst2 Hcol Hdrop Hlast) as [st3 E3].
    rewrite E3. unfold ret.
    exists (interleave pairs), st3. split; [reflexivity|].
    rewrite <- Hlen. apply ends_with_connective. exact Hpairs.
Qed.

End Joined.

Lemma conditions_well_joined_witness :
  let st := Examples.session Examples.people in
  exists parts st',
    assemble (RT := reference_runtime) Examples.people Cases.ends_empty st
      = (Ret parts, st')
    /\ well_joined (pop_trailing_logic parts) = true
    /\ List.length (pop_trailing_logic parts) = 3.
Proof.
  refine (conditions_well_joined (RT := reference_runtime) Cases.ends_empty
            (Examples.session Examples.people)
            [Examples.city "==" EmptyString "and"]
            [Examples.city "==" "NY" "and"; Examples.city "==" "LA" "or"]
            [Examples.city "==" EmptyString "and"] eq_refl _ _ _ (le_n 1));
    repeat (apply Forall_cons || apply Forall_nil);
    unfold joins, column_offered; simpl; tauto.
Defined.

(** ** What [render_filter_ui] leaves in the session *)


Lemma join_needs_two_datasets (datasets : pool) (w : widgets) :
  chosen_operation datasets w = JoinDatasets -> 1 < List.length datasets.
Proof.
  unfold chosen_operation.
  destruct (Nat.ltb_spec 1 (List.length datasets)) as [H|H]; [auto|].
  destruct (radio w); discriminate.
Qed.

Section Render.
Context {RT : Runtime}.

(** The shape of the session after a call of [render_filter_ui] that
    returned. *)
Lemma render_returns_shape (datasets : pool) (w : widgets) (st st' : world)
    (df : DataFrame) (applied : bool) :
  render_filter_ui datasets w st = (Ret (df, applied), st') ->
  exists details original,
    self st' = mkDataFilter original df
                 (mkInfo applied (Some (chosen_operation datasets w))
                         (len original) (len df) details)
    /\ (applied = true -> len original <> 0).
Proof.
  unfold render_filter_ui. fold (chosen_operation datasets w).
  unfold bind at 1.
  destruct (match chosen_operation datasets w with
            | SimpleFilters => simple_filters (simple w)
            | QueryBuilder => query_builder (query w)
            | JoinDatasets => join_datasets datasets (join w)
            end st) as [[[[filtered a] details]|e] s1]; [|discriminate].
  unfold bind, set_filtered, get_original, set_filter_info, st_info, emit, ret, raise.
  simpl. destruct a.
  - destruct (Nat.eqb_spec (len (original_df (self s1))) 0) as [Hz|Hnz]; [discriminate|].
    intros H. injection H as <- <- <-. simpl. eauto.
  - intros H. injection H as <- <- <-. simpl.
    exists details, (original_df (self s1)). split; [reflexivity|discriminate].
Qed.

(** X8. After [render_filter_ui] returned (df, applied) the session records
    it: [get_filtered_data] gives df, the metadata has active = applied,
    filtered_count = len df and original_count = the length of the session's
    original, the operation recorded is a join only when more than one
    dataset is loaded, and applied True implies that the original has rows. *)
Theorem render_records_result (datasets : pool) (w : widgets) (st st' : world)
    (df : DataFrame) (applied : bool) :
  render_filter_ui datasets w st = (Ret (df, applied), st') ->
  get_filtered_data st' = (Ret df, st')
  /\ active (filter_info (self st')) = applied
  /\ filtered_count (filter_info (self st')) = len df
  /\ original_count (filter_info (self st')) = len (original_df (self st'))
  /\ (exists operation, type_ (filter_info (self st')) = Some operation
        /\ (operation = JoinDatasets -> 1 < List.length datasets))
  /\ (applied = true -> 0 < len (original_df (self st'))).
Proof.
  intros H. destruct (render_returns_shape _ _ _ _ _ _ H) as [details [original [Hs Hnz]]].
  unfold get_filtered_data. rewrite Hs. simpl.
  split; [reflexivity|]. split; [reflexivity|]. split; [reflexivity|].
  split; [reflexivity|]. split.
  - eexists. split; [reflexivity|]. apply join_needs_two_datasets.
  - intros Ha. specialize (Hnz Ha). lia.
Qed.

(** X9. [render_filter_summary] called after [render_filter_ui] returned
    never divides by zero: it returns True exactly when a filter was applied
    and the clear button is pressed, and leaves the session as it is. *)
Theorem summary_after_render (datasets : pool) (w : widgets) (st st' : world)
    (df : DataFrame) (applied clear_pressed : bool) :
  render_filter_ui datasets w st = (Ret (df, applied), st') ->
  render_filter_summary clear_pressed st' = (Ret (applied && clear_pressed), st').
Proof.
  intros H. destruct (render_returns_shape _ _ _ _ _ _ H) as [details [original [Hs Hnz]]].
  unfold render_filter_summary, bind, get_filter_info, ret, raise. rewrite Hs. simpl.
  destruct applied; [|reflexivity].
  destruct (Nat.eqb_spec (len original) 0) as [Hz|_]; [destruct (Hnz eq_refl Hz)|].
  destruct clear_pressed; reflexivity.
Qed.

End Render.

Lemma render_records_result_witness :
  let st := Examples.session Examples.people in
  exists df st',
    render_filter_ui (RT := reference_runtime) [] Cases.simple_on_age st
      = (Ret (df, true), st')
    /\ (get_filtered_data st' = (Ret df, st')
        /\ active (filter_info (self st')) = true
        /\ filtered_count (filter_info (self st')) = len df
        /\ original_count (filter_info (self st')) = len (original_df (self st'))
        /\ (exists operation, type_ (filter_info (self st')) = Some operation
              /\ (operation = JoinDatasets -> 1 < List.length (@nil (string * DataFrame))))
        /\ (true = true -> 0 < len (original_df (self st')))).
Proof.
  cbv zeta. eexists. eexists.
  match goal with |- ?A /\ _ => assert (H : A) by (cbv; reflexivity) end.
  exact (conj H (render_records_result (RT := reference_runtime) _ _ _ _ _ _ H)).
Defined.

Lemma summary_after_render_witness :
  let st := Examples.session Examples.people in
  exists df st',
    render_filter_ui (RT := reference_runtime) [] Cases.simple_on_age st
      = (Ret (df, true), st')
    /\ render_filter_summary true st' = (Ret true, st').
Proof.
  cbv zeta. eexists. eexists.
  match goal with |- ?A /\ _ => assert (H : A) by (cbv; reflexivity) end.
  exact (conj H (summary_after_render (RT := reference_runtime) _ _ _ _ _ _ true H)).
Defined.

(** ** The demo catalog *)

(** X10. The names [load_dataset] knows are exactly the keys of
    [get_available_datasets]; any other name raises ValueError with the
    message "Unknown dataset: " followed by the name; and two names never go
    to the same loader. *)
Theorem catalog_matches_loaders (dataset_name : string) :
  (In dataset_name (map fst DemoDatasets.get_available_datasets) <->
   exists l, DemoDatasets.load_dataset dataset_name = Ret l)
  /\ (~ In dataset_name (map fst DemoDatasets.get_available_datasets) <->
      DemoDatasets.load_dataset dataset_name
      = Raise (Exn ValueError ("Unknown dataset: " ^^ dataset_name)))
  /\ (forall other l,
        DemoDatasets.load_dataset dataset_name = Ret l ->
        DemoDatasets.load_dataset other = Ret l -> other = dataset_name).
Proof.
  unfold DemoDatasets.load_dataset, DemoDatasets.get_available_datasets. simpl map.
  split; [|split].
  - split.
    + intros H. simpl in H.
      destruct H as [<-|[<-|[<-|[<-|[<-|[]]]]]]; eexists; reflexivity.
    + intros [l H].
      repeat match type of H with
             | context [String.eqb dataset_name ?k] =>
                 destruct (String.eqb_spec dataset_name k) as [->|_];
                   [simpl; tauto|]
             end.
      discriminate.
  - split.
    + intros H.
      repeat match goal with
             | |- context [String.eqb dataset_name ?k] =>
                 destruct (String.eqb_spec dataset_name k) as [->|_];
                   [exfalso; apply H; simpl; tauto|]
             end.
      reflexivity.
    + intros H Hin. simpl in Hin.
      destruct Hin as [<-|[<-|[<-|[<-|[<-|[]]]]]]; discriminate.
  - intros other l H1 H2.
    destruct (String.eqb_spec dataset_name "🌸 Iris Flowers") as [E1|_];
    [|destruct (String.eqb_spec dataset_name "🍷 Wine Quality") as [E1|_];
    [|destruct (String.eqb_spec dataset_name "🏠 California Housing") as [E1|_];
    [|destruct (String.eqb_spec dataset_name "📈 Sales Time Series") as [E1|_];
    [|destruct (String.eqb_spec dataset_name "🛒 E-commerce Transactions") as [E1|_];
    [|discriminate]]]]];
    injection H1 as <-; rewrite E1;
    (destruct (String.eqb_spec other "🌸 Iris Flowers") as [E2|_];
     [try discriminate; exact E2|]);
    (destruct (String.eqb_spec other "🍷 Wine Quality") as [E2|_];
     [try discriminate; exact E2|]);
    (destruct (String.eqb_spec other "🏠 California Housing") as [E2|_];
     [try discriminate; exact E2|]);
    (destruct (String.eqb_spec other "📈 Sales Time Series") as [E2|_];
     [try discriminate; exact E2|]);
    (destruct (String.eqb_spec other "🛒 E-commerce Transactions") as [E2|_];
     [try discriminate; exact E2|]);
    discriminate.
Qed.

(** ** A column without a branch after another column *)

Section Stale.
Context {RT : Runtime}.

(** The locals after the first turn of the loop of [_simple_filters]. *)
Lemma first_step_shape (sw : simple_widgets) (col : string) (st st1 : world)
    (l1 : simple_locals) :
  simple_filters_step sw (mkLocals (original_df (self st)) false [] None None) col st
    = (Ret l1, st1) ->
  self st1 = self st /\
  exists d, l_filter_detail l1 = Some d
    /\ l_col_filtered l1 = Some (l_filters_applied l1)
    /\ l_applied_filter_details l1 = (if l_filters_applied l1 then [d] else []).
Proof.
  unfold simple_filters_step.
  unfold bind at 1, get_original at 1. unfold bind at 1, lift at 1.
  destruct (getitem (original_df (self st)) col) as [s0|e]; [|discriminate].
  assert (Hhandled : forall run,
    builder_result st (original_df (self st)) run ->
    bind (bind (fun _ => run)
               (fun r => ret (bind_result
                                (mkLocals (original_df (self st)) false [] None None) r)))
      (fun l1 =>
         bind (read_local "col_filtered" (l_col_filtered l1))
           (fun col_filtered : bool =>
            if col_filtered
            then bind (read_local "filter_detail" (l_filter_detail l1))
                   (fun filter_detail =>
                    ret (mkLocals (l_filtered_df l1) true
                           (l_applied_filter_details l1 ++ [filter_detail])
                           (l_col_filtered l1) (l_filter_detail l1)))
            else ret l1)) st = (Ret l1, st1) ->
    self st1 = self st /\
    exists d, l_filter_detail l1 = Some d
      /\ l_col_filtered l1 = Some (l_filters_applied l1)
      /\ l_applied_filter_details l1 = (if l_filters_applied l1 then [d] else [])).
  { intros run Hb. unfold bind at 1 2.
    destruct run as [[[[df' applied] detail]|e] s1] eqn:Hrun; [|discriminate].
    destruct (Hb _ _ _ _ eq_refl) as [Hself _].
    unfold ret, bind, bind_result, read_local. simpl.
    destruct applied; simpl; intros H; injection H as <- <-; simpl; eauto. }
  destruct (s_dtype s0); simpl;
    try (intros H; apply (Hhandled _ (categorical_builder st _ col _) H));
    try (intros H; apply (Hhandled _ (numeric_builder st _ col _) H));
    try (intros H; apply (Hhandled _ (datetime_builder st _ col _) H));
    unfold bind, ret, read_local; simpl; discriminate.
Qed.

(** X11. A column whose dtype has no branch in [_simple_filters], selected
    second: no exception is raised, the frame and the applied flag are those
    of the first column alone, and the description of the first column, if
    it gave one, is given twice. *)
Theorem column_without_branch_repeats (sw : simple_widgets) (st st1 : world)
    (c1 c2 : string) (s2 : Series) (df : DataFrame) (applied : bool)
    (details : list string) :
  filter_columns sw = [c1; c2] ->
  simple_filters (mkSimpleWidgets [c1] (column_widget sw)) st
    = (Ret (df, applied, details), st1) ->
  getitem (original_df (self st)) c2 = Ret s2 ->
  has_branch (s_dtype s2) = false ->
  simple_filters sw st = (Ret (df, applied, details ++ details), st1).
Proof.
  intros Hcols Hfirst G2 Hdt.
  unfold simple_filters in *. rewrite Hcols. simpl in *.
  unfold bind at 1 in Hfirst. unfold get_original at 1 in Hfirst.
  unfold bind at 1, get_original at 1.
  unfold bind at 1 in Hfirst. unfold bind at 1 in Hfirst.
  unfold bind at 1. unfold bind at 1.
  change (simple_filters_step (mkSimpleWidgets [c1] (column_widget sw)))
    with (simple_filters_step sw) in Hfirst.
  destruct (simple_filters_step sw _ c1 st) as [[l1|e] s1] eqn:E1; [|discriminate].
  unfold ret in Hfirst. injection Hfirst as <- <- <- <-.
  destruct (first_step_shape _ _ _ _ _ E1) as [Hself [d [Hd [Hc Hdetails]]]].
  unfold bind at 1. unfold simple_filters_step.
  unfold bind at 1, get_original at 1. rewrite Hself.
  unfold bind at 1, lift at 1. rewrite G2.
  assert (Hskip : forall k : simple_locals -> M simple_locals,
            bind (match s_dtype s2 with
                  | Object | Category =>
                      bind (handle_categorical_filter (l_filtered_df l1) c2
                              (column_widget sw c2))
                           (fun r => ret (bind_result l1 r))
                  | Int64 | Float64 =>
                      bind (handle_numeric_filter (l_filtered_df l1) c2
                              (column_widget sw c2))
                           (fun r => ret (bind_result l1 r))
                  | d0 =>
                      if PyStr.contains "datetime" (dtype_str d0)
                      then bind (handle_datetime_filter (l_filtered_df l1) c2
                                   (column_widget sw c2))
                                (fun r => ret (bind_result l1 r))
                      else ret l1
                  end) k s1 = k l1 s1).
  { intros k. destruct (s_dtype s2); try discriminate Hdt; reflexivity. }
  rewrite Hskip. rewrite Hc, Hd. unfold read_local, bind, ret.
  destruct (l_filters_applied l1) eqn:Ha; simpl; rewrite ?Ha, Hdetails; reflexivity.
Qed.

End Stale.

Lemma column_without_branch_repeats_witness :
  let st := Examples.session Examples.people in
  let kept := mkDF (columns Examples.people)
                   [[CInt 25; CStr "LA"; CBool false]; [CInt 40; CStr "NY"; CBool true]] in
  simple_filters (RT := reference_runtime) Cases.age_then_subscribed st
  = (Ret (kept, true, ["age: 25.0 to 40.0"; "age: 25.0 to 40.0"]),
     say st (St LSuccess (FilterApplied 2))).
Proof.
  exact (column_without_branch_repeats (RT := reference_runtime)
           Cases.age_then_subscribed (Examples.session Examples.people)
           (say (Examples.session Examples.people) (St LSuccess (FilterApplied 2)))
           "age" "subscribed" _ _ true ["age: 25.0 to 40.0"]
           eq_refl eq_refl eq_refl eq_refl).
Defined.

(** ** A search term that is not a regular expression *)

Section BadPattern.
Context {RT : Runtime}.

(** X12. In the search branch of the categorical filter (an object or
    category column with more than 50 distinct values, which the [.str]
    accessor takes), a non-empty term that the regular expression compiler
    rejects makes [_simple_filters] raise that error: nothing catches it,
    and the session and the page are as before. *)
Theorem invalid_search_pattern_raises (sw : simple_widgets) (st : world)
    (col : string) (cols : list string) (s0 : Series) (e : exn) :
  filter_columns sw = col :: cols ->
  getitem (original_df (self st)) col = Ret s0 ->
  is_categorical_dtype (s_dtype s0) = true ->
  str_accessor s0 = Ret tt ->
  50 < List.length (unique s0) ->
  PyStr.truthy (search_term (column_widget sw col)) = true ->
  re_compile_ignorecase (search_term (column_widget sw col)) = Raise e ->
  simple_filters sw st = (Raise e, st).
Proof.
  intros Hcols G Hdt Hstr Hmany Hterm Hre.
  unfold simple_filters. rewrite Hcols. unfold bind at 1, get_original at 1.
  simpl simple_filters_loop. unfold bind at 1. unfold bind at 1.
  assert (Hstep : simple_filters_step sw
                    (mkLocals (original_df (self st)) false [] None None) col st
                  = (Raise e, st)).
  { unfold simple_filters_step. unfold bind at 1, get_original at 1.
    unfold bind at 1, lift at 1. rewrite G. unfold bind at 1.
    assert (Hcat : handle_categorical_filter (original_df (self st)) col
                     (column_widget sw col) st = (Raise e, st)).
    { unfold handle_categorical_filter, bind, get_original, lift. rewrite G.
      destruct (Nat.leb_spec (List.length (unique s0)) 50) as [Hle|_]; [lia|].
      rewrite Hterm. unfold str_contains. rewrite Hstr, Hre. reflexivity. }
    destruct (s_dtype s0); try discriminate Hdt;
      simpl l_filtered_df; unfold bind at 1; rewrite Hcat; reflexivity. }
  rewrite Hstep. reflexivity.
Qed.

End BadPattern.

Lemma invalid_search_pattern_raises_witness :
  let st := Examples.session Examples.codes in
  exists e,
    re_compile_ignorecase (Runtime := reference_runtime) "(" = Raise e
    /\ simple_filters (RT := reference_runtime) Cases.search_paren st = (Raise e, st).
Proof.
  cbv zeta. eexists.
  match goal with |- ?A /\ _ => assert (H : A) by (cbv; reflexivity) end.
  refine (conj H (invalid_search_pattern_raises (RT := reference_runtime)
                    Cases.search_paren (Examples.session Examples.codes) "code" []
                    (mkSeries Object (map (cell_at 0) (rows Examples.codes))) _
                    eq_refl eq_refl eq_refl eq_refl _ eq_refl H)).
  vm_compute. lia.
Defined.

(** ** Keys converted to text *)

Lemma col_index_nth (col : string) (cols : list (string * dtype)) :
  forall i d, col_index col cols = Some (i, d) -> nth_error cols i = Some (col, d).
Proof.
  induction cols as [|[c d0] cols IH]; simpl; intros i d H; [discriminate|].
  destruct (String.eqb_spec c col) as [->|Hne].
  - injection H as <- <-. reflexivity.
  - destruct (col_index col cols) as [[j d']|]; [|discriminate].
    injection H as <- <-. simpl. apply IH. reflexivity.
Qed.

Lemma col_index_set_nth (col : string) (d' : dtype) (cols : list (string * dtype)) :
  forall i d, col_index col cols = Some (i, d) ->
  col_index col (set_nth i (col, d') cols) = Some (i, d')
  /\ map fst (set_nth i (col, d') cols) = map fst cols.
Proof.
  induction cols as [|[c d0] cols IH]; simpl; intros i d H; [discriminate|].
  destruct (String.eqb_spec c col) as [->|Hne].
  - injection H as <- <-. simpl. rewrite String.eqb_refl. auto.
  - destruct (col_index col cols) as [[j d1]|]; [|discriminate].
    injection H as <- <-. simpl.
    destruct (String.eqb_spec c col) as [E|_]; [contradiction|].
    destruct (IH j d1 eq_refl) as [-> ->]. auto.
Qed.

Lemma col_index_bound (col : string) (cols : list (string * dtype)) (i : nat) (d : dtype) :
  col_index col cols = Some (i, d) -> i < List.length cols.
Proof.
  intros H. apply col_index_nth in H. apply nth_error_Some. congruence.
Qed.

Lemma cell_at_set_nth (i : nat) (c : cell) (r : row) :
  i < List.length r -> cell_at i (set_nth i c r) = c.
Proof.
  unfold cell_at. revert i. induction r as [|x r IH]; simpl; intros i H; [lia|].
  destruct i; simpl; [reflexivity|]. apply IH. lia.
Qed.

Section TextKeys.
Context {RT : Runtime}.

(** [astype(str)] on a column that exists: it does not fail, the schema
    keeps its names, the frame its rows, and the column is text. *)
Lemma astype_str_column (df : DataFrame) (col : string) (s : Series) :
  getitem df col = Ret s ->
  exists df',
    astype_column df col Object cell_to_str = Ret df'
    /\ column_dtype df' col = Some Object
    /\ column_names df' = column_names df
    /\ len df' = len df
    /\ (aligned df = true -> text_key df' col = true).
Proof.
  intros G. unfold astype_column. rewrite G. simpl.
  unfold getitem in G.
  destruct (col_index col (columns df)) as [[i d]|] eqn:Hi; [|discriminate].
  set (g := fun r : row =>
              set_nth i (match cell_to_str (cell_at i r) with
                         | Ret c => c | Raise _ => CNone end) r).
  rewrite (omap_total _ g); [|apply Forall_forall; intros r _; reflexivity].
  simpl. eexists. split; [reflexivity|].
  unfold set_dtype. rewrite (col_index_nth _ _ _ _ Hi).
  destruct (col_index_set_nth col Object (columns df) i d Hi) as [Hidx Hnames].
  assert (Hdt : column_dtype
                  (mkDF (set_nth i (col, Object) (columns df)) (map g (rows df))) col
                = Some Object).
  { unfold column_dtype. simpl. rewrite Hidx. reflexivity. }
  split; [exact Hdt|].
  split; [unfold column_names; simpl; exact Hnames|].
  split; [unfold len; simpl; apply length_map|].
  intros Hal. unfold text_key. rewrite Hdt.
  apply forallb_forall. intros r' Hr'. simpl in Hr'.
  apply in_map_iff in Hr'. destruct Hr' as [r [<- Hr]].
  unfold value_at. simpl. rewrite Hidx. unfold g.
  rewrite cell_at_set_nth; [reflexivity|].
  unfold aligned in Hal. rewrite forallb_forall in Hal.
  specialize (Hal r Hr). apply Nat.eqb_eq in Hal. rewrite Hal.
  exact (col_index_bound _ _ _ _ Hi).
Qed.

(** X13. With auto-fix ticked and two key dtypes that differ, one of them
    object, both keys are converted to text: no conversion fails, nothing is
    written, and the two prepared frames keep their shape. *)
Theorem auto_fix_text_keys (w : join_widgets) (left_df right_df : DataFrame)
    (ls rs : Series) (st : world) :
  let left_dtype := dtype_str (s_dtype ls) in
  let right_dtype := dtype_str (s_dtype rs) in
  getitem left_df (left_key w) = Ret ls ->
  getitem right_df (right_key w) = Ret rs ->
  auto_fix w = true ->
  String.eqb left_dtype right_dtype = false ->
  string_in "object" [left_dtype; right_dtype] = true ->
  exists left_prep right_prep,
    prepare_keys w left_df right_df left_dtype right_dtype
                 (String.eqb left_dtype right_dtype) st
      = (Ret (left_prep, right_prep), st)
    /\ column_dtype left_prep (left_key w) = Some Object
    /\ column_dtype right_prep (right_key w) = Some Object
    /\ column_names left_prep = column_names left_df
    /\ column_names right_prep = column_names right_df
    /\ len left_prep = len left_df
    /\ len right_prep = len right_df
    /\ (aligned left_df = true -> text_key left_prep (left_key w) = true)
    /\ (aligned right_df = true -> text_key right_prep (right_key w) = true).
Proof.
  intros left_dtype right_dtype Gl Gr Hfix Hdiff Hobj.
  destruct (astype_str_column left_df (left_key w) ls Gl)
    as [l' [El [Hl1 [Hl2 [Hl3 Hl4]]]]].
  destruct (astype_str_column right_df (right_key w) rs Gr)
    as [r' [Er [Hr1 [Hr2 [Hr3 Hr4]]]]].
  exists l', r'. unfold prepare_keys. rewrite Hfix, Hdiff. simpl andb. cbv iota.
  unfold auto_fix_types. rewrite Hobj, El, Er. unfold ret.
  split; [reflexivity|]. tauto.
Qed.

End TextKeys.

Lemma auto_fix_text_keys_witness :
  let w := Examples.join_on_customer true in
  let st := Examples.session Examples.orders in
  exists left_prep right_prep,
    prepare_keys (RT := reference_runtime) w Examples.orders Examples.customers_text
                 "int64" "object" false st
      = (Ret (left_prep, right_prep), st)
    /\ column_dtype left_prep "customer_id" = Some Object
    /\ column_dtype right_prep "id" = Some Object
    /\ column_names left_prep = column_names Examples.orders
    /\ column_names right_prep = column_names Examples.customers_text
    /\ len left_prep = len Examples.orders
    /\ len right_prep = len Examples.customers_text
    /\ (aligned Examples.orders = true -> text_key left_prep "customer_id" = true)
    /\ (aligned Examples.customers_text = true -> text_key right_prep "id" = true).
Proof.
  exact (auto_fix_text_keys (RT := reference_runtime) (Examples.join_on_customer true)
           Examples.orders Examples.customers_text
           (mkSeries Int64 (map (cell_at 0) (rows Examples.orders)))
           (mkSeries Object (map (cell_at 0) (rows Examples.customers_text)))
           (Examples.session Examples.orders) eq_refl eq_refl eq_refl eq_refl eq_refl).
Defined.

(** ** Ranges on several columns *)


Section Ranges.
Context {RT : Runtime}.




End Ranges.


(** ** Who replaces the original *)

Section Baseline.
Context {RT : Runtime}.

Lemma simple_filters_quiet (sw : simple_widgets) (st st' : world)
    (r : result (list string)) :
  simple_filters sw st = (Ret r, st') -> self st' = self st.
Proof.
  unfold simple_filters, bind, get_original.
  destruct (filter_columns sw) as [|c cs].
  - intros H. injection H as _ <-. reflexivity.
  - destruct (simple_filters_loop sw _ (c :: cs) st) as [[l|e] st1] eqn:E; [|discriminate].
    intros H. injection H as _ <-.
    assert (Hinit : locals_ok (original_df (self st))
                      (mkLocals (original_df (self st)) false [] None None)).
    { unfold locals_ok. simpl. split.
      - exists (fun _ => true). symmetry. apply rows_where_all.
      - split; [intros _; repeat split; discriminate|discriminate]. }
    exact (proj1 (simple_filters_loop_ok _ _ _ _ _ _ Hinit E)).
Qed.

Lemma query_builder_quiet (w : query_widgets) (st st' : world)
    (r : result (list string)) :
  query_builder w st = (Ret r, st') -> self st' = self st.
Proof.
  unfold query_builder. unfold bind at 1, get_original at 1.
  assert (Hback : forall s1, self s1 = self st ->
            return_original s1 = (Ret r, st') -> self st' = self st).
  { intros s1 Hs H. rewrite return_original_runs in H. injection H as _ <-. exact Hs. }
  destruct (df_empty (original_df (self st))).
  { unfold bind, st_warning, emit, ret. simpl. intros H. injection H as _ <-. reflexivity. }
  destruct (column_names (original_df (self st))) as [|c0 cols].
  { unfold bind, st_warning, emit, ret. simpl. intros H. injection H as _ <-. reflexivity. }
  unfold bind at 1.
  destruct (query_builder_loop _ _ _ 0 (conditions w) [] st) as [[parts|e] st1] eqn:E;
    [|discriminate].
  destruct (query_builder_loop_quiet _ _ _ _ _ _ _ _ _ E) as [Hself _].
  destruct parts as [|p ps]; [apply Hback; exact Hself|].
  destruct (PyStr.strip_truthy _); [|apply Hback; exact Hself].
  destruct (apply_query w); [|apply Hback; exact Hself].
  destruct (run_query_outcome (final_query (p :: ps)) st1)
    as [df [applied [details [st2 [-> [Hs2 _]]]]]].
  intros H. injection H as _ <-. congruence.
Qed.

Lemma join_datasets_original (datasets : pool) (w : join_widgets) (st st' : world)
    (df : DataFrame) (applied : bool) (details : list string) :
  join_datasets datasets w st = (Ret (df, applied, details), st') ->
  original_df (self st') = original_df (self st)
  \/ (applied = true /\ original_df (self st') = df).
Proof.
  unfold join_datasets.
  assert (Hback : forall s1, self s1 = self st ->
            return_original s1 = (Ret (df, applied, details), st') ->
            original_df (self st') = original_df (self st)
            \/ (applied = true /\ original_df (self st') = df)).
  { intros s1 Hs H. rewrite return_original_runs in H.
    injection H as _ _ _ <-. rewrite Hs. auto. }
  destruct (_ <? 2)%nat.
  { unfold bind, st_warning, emit. simpl. apply Hback. reflexivity. }
  destruct (PyStr.truthy (left_dataset w) && PyStr.truthy (right_dataset w));
    [|apply Hback; reflexivity].
  unfold bind at 1, lift at 1.
  destruct (pool_get (left_dataset w) datasets) as [left_df|e]; [|discriminate].
  unfold bind at 1, lift at 1.
  destruct (pool_get (right_dataset w) datasets) as [right_df|e]; [|discriminate].
  destruct (PyStr.truthy (left_key w) && PyStr.truthy (right_key w));
    [|apply Hback; reflexivity].
  unfold bind at 1, lift at 1.
  destruct (getitem left_df (left_key w)) as [ls|e]; [|discriminate].
  unfold bind at 1, lift at 1.
  destruct (getitem right_df (right_key w)) as [rs|e]; [|discriminate].
  cbv zeta. unfold bind at 1.
  set (note := (if String.eqb (dtype_str (s_dtype ls)) (dtype_str (s_dtype rs))
                then st_success (CompatibleTypes (dtype_str (s_dtype ls)))
                else st_warning (TypeMismatch (dtype_str (s_dtype ls))
                                              (dtype_str (s_dtype rs))))).
  assert (Hnote : exists s1, note st = (Ret tt, s1) /\ self s1 = self st).
  { subst note. destruct (String.eqb _ _); unfold st_success, st_warning, emit; eauto. }
  destruct Hnote as [s1 [-> Hs1]].
  destruct (join_button w); [|apply Hback; exact Hs1].
  destruct (join_try_outcome w left_df right_df (dtype_str (s_dtype ls))
              (dtype_str (s_dtype rs))
              (String.eqb (dtype_str (s_dtype ls)) (dtype_str (s_dtype rs))) s1)
    as [df1 [applied1 [details1 [s2 [-> Hout]]]]].
  intros H. injection H as <- <- <- <-. rewrite Hs1 in Hout.
  destruct applied1.
  - right. tauto.
  - left. destruct Hout as [_ [_ ->]]. reflexivity.
Qed.

(** X15. The filters never touch the baseline: when [render_filter_ui]
    returns, the session's original frame is the one it was, unless the
    operation was a join that applied, in which case it is the frame
    returned. *)
Theorem only_join_replaces_original (datasets : pool) (w : widgets) (st st' : world)
    (df : DataFrame) (applied : bool) :
  render_filter_ui datasets w st = (Ret (df, applied), st') ->
  original_df (self st') = original_df (self st)
  \/ (chosen_operation datasets w = JoinDatasets /\ applied = true
      /\ original_df (self st') = df).
Proof.
  unfold render_filter_ui. fold (chosen_operation datasets w).
  unfold bind at 1.
  destruct (match chosen_operation datasets w with
            | SimpleFilters => simple_filters (simple w)
            | QueryBuilder => query_builder (query w)
            | JoinDatasets => join_datasets datasets (join w)
            end st) as [[[[filtered a] details]|e] s1] eqn:E; [|discriminate].
  assert (Hend : render_filter_ui datasets w st = (Ret (df, applied), st') ->
                 original_df (self st') = original_df (self s1)
                 /\ filtered = df /\ a = applied).
  { unfold render_filter_ui. fold (chosen_operation datasets w).
    unfold bind at 1. rewrite E.
    unfold bind, set_filtered, get_original, set_filter_info, st_info, emit, ret, raise.
    simpl. destruct a.
    - destruct (len (original_df (self s1)) =? 0)%nat; [discriminate|].
      intros H. injection H as <- <- <-. auto.
    - intros H. injection H as <- <- <-. auto. }
  intros H.
  assert (H' : render_filter_ui datasets w st = (Ret (df, applied), st')).
  { unfold render_filter_ui. fold (chosen_operation datasets w).
    unfold bind at 1. rewrite E. exact H. }
  destruct (Hend H') as [Ho [-> ->]]. rewrite Ho.
  destruct (chosen_operation datasets w).
  - left. rewrite (simple_filters_quiet _ _ _ _ E). reflexivity.
  - left. rewrite (query_builder_quiet _ _ _ _ E). reflexivity.
  - destruct (join_datasets_original _ _ _ _ _ _ _ E) as [Hsame|[Ha Hd]]; [auto|].
    right. auto.
Qed.

End Baseline.

Lemma only_join_replaces_original_witness :
  let datasets := [("orders", Examples.orders); ("customers", Examples.customers)] in
  let st := Examples.session Examples.orders in
  exists df st',
    render_filter_ui (RT := reference_runtime) datasets Cases.join_customers st
      = (Ret (df, true), st')
    /\ (original_df (self st') = original_df (self st)
        \/ (chosen_operation datasets Cases.join_customers = JoinDatasets /\ true = true
            /\ original_df (self st') = df)).
Proof.
  cbv zeta. eexists. eexists.
  match goal with |- ?A /\ _ => assert (H : A) by (cbv; reflexivity) end.
  exact (conj H (only_join_replaces_original (RT := reference_runtime) _ _ _ _ _ _ H)).
Defined.

(** ** Keys converted to float *)

Lemma cell_to_float_number (c : cell) :
  is_number c = true -> cell_to_float c = Ret (float64_of c).
Proof. destruct c; simpl; try discriminate; reflexivity. Qed.

Section FloatKeys.
Context {RT : Runtime}.

(** [astype(float)] on a column of numbers: it does not fail, the schema
    keeps its names, the frame its rows, the column becomes float64 and
    every integer of it the float64 nearest to it. *)
Lemma astype_float_column (df : DataFrame) (col : string) :
  numeric_column df col = true ->
  exists df',
    astype_column df col Float64 cell_to_float = Ret df'
    /\ column_dtype df' col = Some Float64
    /\ column_names df' = column_names df
    /\ len df' = len df
    /\ (aligned df = true ->
        map (value_at df' col) (rows df')
        = map (fun r => float64_of (value_at df col r)) (rows df)).
Proof.
  intros Hnum. destruct (numeric_column_getitem df col Hnum) as [s [G _]].
  unfold astype_column. rewrite G. simpl.
  unfold numeric_column, value_at in Hnum. unfold getitem in G.
  destruct (col_index col (columns df)) as [[i d]|] eqn:Hi; [|discriminate].
  rewrite forallb_forall in Hnum.
  set (g := fun r : row => set_nth i (float64_of (cell_at i r)) r).
  rewrite (omap_total _ g).
  2:{ apply Forall_forall. intros r Hr.
      rewrite (cell_to_float_number _ (Hnum r Hr)). reflexivity. }
  simpl. eexists. split; [reflexivity|].
  unfold set_dtype. rewrite (col_index_nth _ _ _ _ Hi).
  destruct (col_index_set_nth col Float64 (columns df) i d Hi) as [Hidx Hnames].
  split; [unfold column_dtype; simpl; rewrite Hidx; reflexivity|].
  split; [unfold column_names; simpl; exact Hnames|].
  split; [unfold len; simpl; apply length_map|].
  intros Hal. simpl. rewrite map_map. apply map_ext_in. intros r Hr.
  unfold value_at. simpl. rewrite Hidx, Hi. unfold g.
  apply cell_at_set_nth.
  unfold aligned in Hal. rewrite forallb_forall in Hal.
  specialize (Hal r Hr). apply Nat.eqb_eq in Hal. rewrite Hal.
  exact (col_index_bound _ _ _ _ Hi).
Qed.

(** X16. With auto-fix ticked, an integer key on the left that holds
    numbers and a float key on the right: the left key is converted with
    astype(float) and the right frame is left as it is; the conversion does
    not fail and nothing is written; the prepared left frame keeps its
    column names and rows, its key is float64, and row by row it holds the
    float64 of the key it had: for an integer the float64 nearest to it, so
    that keys above 2^53 are rounded. *)
Theorem auto_fix_float_key (w : join_widgets) (left_df right_df : DataFrame)
    (ls rs : Series) (st : world) :
  let left_dtype := dtype_str (s_dtype ls) in
  let right_dtype := dtype_str (s_dtype rs) in
  getitem left_df (left_key w) = Ret ls ->
  getitem right_df (right_key w) = Ret rs ->
  auto_fix w = true ->
  PyStr.contains "int" left_dtype = true ->
  PyStr.contains "float" right_dtype = true ->
  numeric_column left_df (left_key w) = true ->
  exists left_prep,
    prepare_keys w left_df right_df left_dtype right_dtype
                 (String.eqb left_dtype right_dtype) st
      = (Ret (left_prep, right_df), st)
    /\ column_dtype left_prep (left_key w) = Some Float64
    /\ column_names left_prep = column_names left_df
    /\ len left_prep = len left_df
    /\ (aligned left_df = true ->
        map (value_at left_prep (left_key w)) (rows left_prep)
        = map (fun r => float64_of (value_at left_df (left_key w) r)) (rows left_df)).
Proof.
  intros left_dtype right_dtype Gl Gr Hfix Hint Hfloat Hnum.
  destruct (astype_float_column left_df (left_key w) Hnum)
    as [l' [El [H1 [H2 [H3 H4]]]]].
  exists l'. unfold prepare_keys, auto_fix_types. rewrite Hfix.
  assert (Hd : String.eqb left_dtype right_dtype = false
               /\ string_in "object" [left_dtype; right_dtype] = false).
  { subst left_dtype right_dtype.
    destruct (s_dtype ls); try discriminate Hint;
      destruct (s_dtype rs); try discriminate Hfloat; split; reflexivity. }
  destruct Hd as [-> ->]. rewrite Hint, Hfloat. simpl andb. cbv iota.
  rewrite El. unfold ret. split; [reflexivity|]. tauto.
Qed.

End FloatKeys.

Lemma auto_fix_float_key_witness :
  let w := Examples.join_on_customer true in
  let st := Examples.session Cases.big_orders in
  let left_prep :=
    mkDF [("customer_id", Float64); ("amount", Float64)]
         [[CFloat (float_of_Z 9007199254740992); CFloat (float_of_Z 10)];
          [CFloat (float_of_Z 9007199254740992); CFloat (float_of_Z 20)]] in
  prepare_keys (RT := reference_runtime) w Cases.big_orders Examples.customers_float
               "int64" "float64" false st
    = (Ret (left_prep, Examples.customers_float), st)
  /\ column_dtype left_prep "customer_id" = Some Float64
  /\ column_names left_prep = column_names Cases.big_orders
  /\ len left_prep = len Cases.big_orders
  /\ (aligned Cases.big_orders = true ->
      map (value_at left_prep "customer_id") (rows left_prep)
      = map (fun r => float64_of (value_at Cases.big_orders "customer_id" r))
            (rows Cases.big_orders)).
Proof.
  cbv zeta.
  destruct (auto_fix_float_key (RT := reference_runtime) (Examples.join_on_customer true)
              Cases.big_orders Examples.customers_float
              (mkSeries Int64 (map (cell_at 0) (rows Cases.big_orders)))
              (mkSeries Float64 (map (cell_at 0) (rows Examples.customers_float)))
              (Examples.session Cases.big_orders)
              eq_refl eq_refl eq_refl eq_refl eq_refl eq_refl)
    as [left_prep [E rest]].
  vm_compute in E. injection E as <-. split; [reflexivity|exact rest].
Defined.
